(** * Urchin dataset replication control plane

    A shallow embedding of [client/daemon/urchin_dataset/urchin_dataset.go]
    and [client/urchin_util/util.go], and the properties of the dataset
    catalogue and of the replica controller that were checked against it.

    Conventions of the embedding.
    - A Go [uint] / [int] is a [Z]; conversions between the two write the
      64-bit wrap-around out ([int_of_uint], [uint_of_int]).
    - A Go [error] is its message; a [(T, error)] pair is a [result T].
    - A run-time panic (a slice expression out of range, a failed type
      assertion) is an [outcome] of its own: it is not an error value.
    - The key-value store, the seed peers and the clock are the [world]:
      store contents, the answers the peers will give to the HTTP calls to
      come, and the log of what the program did, in order. *)

From Stdlib Require Import ZArith String Ascii List Lia Permutation.
From Stdlib Require Import DecimalString DecimalPos DecimalN.
From stdpp Require Import gmap strings list.

Open Scope string_scope.
Open Scope list_scope.
Open Scope Z_scope.

(** ** Go values *)

Definition error := string.

Inductive result (A : Type) : Type :=
| Ok (a : A)
| Err (e : error).
Arguments Ok {A} a.
Arguments Err {A} e.

Definition is_Ok {A} (r : result A) : bool :=
  match r with Ok _ => true | Err _ => false end.

(** [int(u)] for a [uint] and [uint(i)] for an [int], on a 64-bit target. *)
Definition int_of_uint (u : Z) : Z :=
  if u <? 2 ^ 63 then u else u - 2 ^ 64.

Definition uint_of_int (i : Z) : Z := i mod 2 ^ 64.

(** ** package strings *)

Fixpoint strings_Join (elems : list string) (sep : string) : string :=
  match elems with
  | [] => ""
  | a :: rest =>
      match rest with
      | [] => a
      | _ :: _ => a +:+ sep +:+ strings_Join rest sep
      end
  end.

(** [strings.Split(s, sep)]; every separator of the program is one byte. *)
Fixpoint strings_Split (s : string) (sep : ascii) : list string :=
  match s with
  | EmptyString => [""]
  | String c r =>
      if Ascii.eqb c sep then "" :: strings_Split r sep
      else match strings_Split r sep with
           | h :: t => String c h :: t
           | [] => [String c ""]
           end
  end.

(** [strings.Cut]: the text before and after the first separator. *)
Fixpoint strings_Cut (s : string) (sep : ascii) : option (string * string) :=
  match s with
  | EmptyString => None
  | String c r =>
      if Ascii.eqb c sep then Some ("", r)
      else match strings_Cut r sep with
           | Some (a, b) => Some (String c a, b)
           | None => None
           end
  end.

(** [strings.SplitN(s, sep, 2)]. *)
Definition strings_SplitN2 (s : string) (sep : ascii) : list string :=
  match strings_Cut s sep with
  | Some (a, b) => [a; b]
  | None => [s]
  end.

(** ** package strconv *)

Definition strconv_FormatUint (u : Z) : string :=
  NilZero.string_of_uint (N.to_uint (Z.to_N u)).

Definition strconv_FormatInt (i : Z) : string :=
  if i <? 0 then "-" +:+ strconv_FormatUint (- i) else strconv_FormatUint i.

Definition parse_digits (s : string) : option Z :=
  match s with
  | EmptyString => None
  | _ => match NilEmpty.uint_of_string s with
         | Some d => Some (Z.of_N (N.of_uint d))
         | None => None
         end
  end.

(** [strconv.Atoi]: an optional sign, then decimal digits, in the range of
    [int]. *)
Definition strconv_Atoi (s : string) : result Z :=
  let signed :=
    match s with
    | String "-" r => option_map Z.opp (parse_digits r)
    | String "+" r => parse_digits r
    | _ => parse_digits s
    end in
  match signed with
  | Some z =>
      if (- 2 ^ 63 <=? z) && (z <? 2 ^ 63) then Ok z
      else Err "strconv.Atoi: value out of range"
  | None => Err "strconv.Atoi: invalid syntax"
  end.

(** ** packages path and path/filepath (Unix) *)

(** One component of [Clean] on the stack of components kept so far, the
    last one first. *)
Definition clean_step (rooted : bool) (stack : list string) (comp : string)
  : list string :=
  if String.eqb comp "" || String.eqb comp "." then stack
  else if String.eqb comp ".." then
    match stack with
    | top :: below => if String.eqb top ".." then comp :: stack else below
    | [] => if rooted then [] else [comp]
    end
  else comp :: stack.

Definition filepath_Clean (p : string) : string :=
  match p with
  | EmptyString => "."
  | String c _ =>
      let rooted := Ascii.eqb c "/" in
      let kept := rev (fold_left (clean_step rooted) (strings_Split p "/") []) in
      if rooted then "/" +:+ strings_Join kept "/"
      else match kept with
           | [] => "."
           | _ :: _ => strings_Join kept "/"
           end
  end.

(** [filepath.Join] (and [path.Join]): empty elements are ignored, the rest
    is joined with a slash and cleaned. *)
Definition filepath_Join (elems : list string) : string :=
  match filter (fun e => negb (String.eqb e "")) elems with
  | [] => ""
  | kept => filepath_Clean (strings_Join kept "/")
  end.

(** The second result of [path.Split]: what follows the last slash. *)
Definition path_Split_file (p : string) : string :=
  List.last (strings_Split p "/") "".


(** ** Slices

    A slice is the list of its elements together with the spare capacity
    behind them, which the runtime chooses; the cells of a freshly built
    slice past its length hold the zero value.  [s[0:n]] is checked against
    the capacity, [s[n:]] against the length; out of range they panic
    ([None]). *)

Definition slice_to {A} (zero : A) (spare : nat) (s : list A) (n : Z)
  : option (list A) :=
  if (n <? 0) then None
  else if n <=? Z.of_nat (List.length s) then Some (firstn (Z.to_nat n) s)
  else if n <=? Z.of_nat (List.length s + spare)
       then Some (s ++ repeat zero (Z.to_nat n - List.length s))
  else None.

Definition slice_from {A} (s : list A) (n : Z) : option (list A) :=
  if (0 <=? n) && (n <=? Z.of_nat (List.length s)) then Some (skipn (Z.to_nat n) s)
  else None.

(** ** Types of the package *)

Record UrchinEndpoint := mkEndpoint {
  Endpoint : string;
  EndpointPath : string
}.

Definition UrchinEndpoint_zero : UrchinEndpoint := mkEndpoint "" "".

Record UrchinDataSetInfo := mkDataSet {
  Id : string;
  Name : string;
  Desc : string;
  Replica : Z;
  CacheStrategy : string;
  Tags : list string;
  ShareBlobSources : list UrchinEndpoint;
  ShareBlobCaches : list UrchinEndpoint
}.

(** [UrchinDataSetInfo{}] *)
Definition UrchinDataSetInfo_zero : UrchinDataSetInfo :=
  mkDataSet "" "" "" 0 "" [] [] [].

Definition ReplicaNoScale : Z := 0.
Definition ReplicaScaleUP : Z := 1.
Definition ReplicaScaleDown : Z := 2.
Definition ReplicaScaleUnknown : Z := 3.

(** A value of type [any] decoded from JSON: a number (as [int(...)] reads
    it), a string, or anything else. *)
Inductive any :=
| AnyNumber (n : Z)
| AnyString (s : string)
| AnyOther.

(** ** The Go runtime and encoding/json

    The program is verified against any JSON codec and any growth policy of
    slices: [strings_spare n] is the spare capacity of a [[]string] of
    length [n] that [json.Unmarshal] built, [endpoints_spare] the same for
    a [[]UrchinEndpoint], [append_spare] that of a slice grown by [append]
    from [make([]string, 0)].  [rand.Shuffle] may order a slice in any
    way. *)

Class GoRuntime := {
  json_Marshal_strings : list string -> string;
  json_Unmarshal_strings : string -> result (list string);
  json_Marshal_endpoints : list UrchinEndpoint -> string;
  json_Unmarshal_endpoints : string -> result (list UrchinEndpoint);
  json_Unmarshal_object : string -> result (list (string * any));
  strings_spare : nat -> nat;
  endpoints_spare : nat -> nat;
  append_spare : nat -> nat;
  rand_Shuffle : list string -> list string;
  rand_Shuffle_perm : forall l, Permutation (rand_Shuffle l) l
}.

(** [m[key]] on a [map[string]any]. *)
Fixpoint any_lookup (m : list (string * any)) (key : string) : option any :=
  match m with
  | [] => None
  | (k, v) :: rest => if String.eqb k key then Some v else any_lookup rest key
  end.

(** ** The key-value store

    Modelled from the spec: the [RedisStorage] adapter of
    [client/urchin_util] is not among the sources.  Its operations are the
    typed primitives of section 4.1 with the meaning of the Redis commands
    they stand for: one key space; a hash, a string, a sorted set or a set
    under a key; reading the hash of a key that is not there gives the
    empty map; a command on a value of another kind fails. *)

Inductive rvalue :=
| RString (v : string)
| RHash (h : gmap string string)
| RZSet (z : gmap string Z)
| RSet (members : list string).

Abbreviation store := (gmap string rvalue).

Definition WRONGTYPE : error :=
  "WRONGTYPE Operation against a key holding the wrong kind of value".
Definition redis_Nil : error := "redis: nil".

Definition kv_Get (s : store) (key : string) : result string :=
  match s !! key with
  | Some (RString v) => Ok v
  | Some _ => Err WRONGTYPE
  | None => Err redis_Nil
  end.

Definition kv_Set (s : store) (key value : string) : result store :=
  Ok (<[key := RString value]> s).

Definition kv_Del (s : store) (key : string) : result store :=
  Ok (delete key s).

Definition kv_Exists (s : store) (key : string) : result bool :=
  Ok (bool_decide (is_Some (s !! key))).

Definition kv_ReadMap (s : store) (key : string) : result (gmap string string) :=
  match s !! key with
  | Some (RHash h) => Ok h
  | Some _ => Err WRONGTYPE
  | None => Ok ∅
  end.

Definition kv_GetMapElement (s : store) (key field : string) : result string :=
  match s !! key with
  | Some (RHash h) =>
      match h !! field with
      | Some v => Ok v
      | None => Err redis_Nil
      end
  | Some _ => Err WRONGTYPE
  | None => Err redis_Nil
  end.

Definition kv_SetMapElements (s : store) (key : string)
    (values : list (string * string)) : result store :=
  match s !! key with
  | Some (RHash h) => Ok (<[key := RHash (list_to_map values ∪ h)]> s)
  | Some _ => Err WRONGTYPE
  | None => Ok (<[key := RHash (list_to_map values)]> s)
  end.

Definition kv_SetMapElement (s : store) (key field value : string)
  : result store :=
  kv_SetMapElements s key [(field, value)].

Definition kv_DeleteMap (s : store) (key : string) : result store :=
  match s !! key with
  | Some (RHash _) | None => Ok (delete key s)
  | Some _ => Err WRONGTYPE
  end.

Definition kv_ZAdd (s : store) (key member : string) (score : Z)
  : result store :=
  match s !! key with
  | Some (RZSet z) => Ok (<[key := RZSet (<[member := score]> z)]> s)
  | Some _ => Err WRONGTYPE
  | None => Ok (<[key := RZSet {[member := score]}]> s)
  end.

Definition kv_ZRem (s : store) (key member : string) : result store :=
  match s !! key with
  | Some (RZSet z) =>
      let z' := delete member z in
      Ok (if bool_decide (z' = ∅) then delete key s else <[key := RZSet z']> s)
  | Some _ => Err WRONGTYPE
  | None => Ok s
  end.

(** Members in the order of a sorted set: by score, then by name. *)
Definition zset_le (a b : string * Z) : bool :=
  (a.2 <? b.2) || ((a.2 =? b.2) && String.leb a.1 b.1).

Fixpoint zset_insert (a : string * Z) (l : list (string * Z))
  : list (string * Z) :=
  match l with
  | [] => [a]
  | b :: rest => if zset_le a b then a :: l else b :: zset_insert a rest
  end.

Definition zset_sorted (z : gmap string Z) : list (string * Z) :=
  foldr zset_insert [] (map_to_list z).

(** [LIMIT offset count]; a negative count means no limit. *)
Definition limit {A} (offset count : Z) (l : list A) : list A :=
  if offset <? 0 then []
  else let rest := skipn (Z.to_nat offset) l in
       if count <? 0 then rest else firstn (Z.to_nat count) rest.

Definition zset_range (z : gmap string Z) (lo hi offset count : Z)
    (reverse : bool) : list string :=
  let inside :=
    filter (fun m => (lo <=? m.2) && (m.2 <=? hi)) (zset_sorted z) in
  limit offset count (map fst (if reverse then rev inside else inside)).

Definition kv_ZRangeByScore (s : store) (key : string)
    (lo hi offset count : Z) (reverse : bool) : result (list string) :=
  match s !! key with
  | Some (RZSet z) => Ok (zset_range z lo hi offset count reverse)
  | Some _ => Err WRONGTYPE
  | None => Ok []
  end.

(** [MakeStorageKey(parts, prefix)], after the key schema of the spec. *)
Definition MakeStorageKey (parts : list string) (prefix : string) : string :=
  if String.eqb prefix "" then strings_Join parts ":"
  else prefix +:+ ":" +:+ strings_Join parts ":".

Definition StoragePrefixDataset : string := "urchin:dataset".
Definition StoragePrefixDatasetVersion : string := "urchin:dataset_version".
Definition DatasetCreateTimeKey : string := "urchin:dataset:create_time".
Definition DefaultDatasetVersion : string := "default".

(** ** The world and the programs that run in it *)

(** The writes of the store, as the log records them. *)
Inductive command :=
| SET (key value : string)
| DEL (key : string)
| HMSET (key : string) (values : list (string * string))
| DELMAP (key : string)
| ZADD (key member : string) (score : Z)
| ZREM (key member : string).

Record request := mkRequest {
  Method : string;
  Host : string;
  Path : string
}.

(** What [http.DefaultClient.Do] gives back. *)
Inductive http_answer :=
| TransportError (e : error)
| Response (status : Z) (body : string).

Inductive event :=
| Store (c : command)
| Http (r : request)
| Sleep (seconds : Z).

Record world := mkWorld {
  kv : store;
  net : list http_answer;
  log : list event
}.

Inductive outcome (A : Type) : Type :=
| Done (a : A) (w : world)
| Panic (w : world).
Arguments Done {A} a w.
Arguments Panic {A} w.

Definition M (A : Type) : Type := world -> outcome A.

Definition ret {A} (a : A) : M A := fun w => Done a w.

Definition bind {A B} (c : M A) (k : A -> M B) : M B :=
  fun w => match c w with
           | Done a w' => k a w'
           | Panic w' => Panic w'
           end.

Definition panic {A} : M A := fun w => Panic w.

Notation "'let*' x ':=' c 'in' k" := (bind c (fun x => k))
  (at level 10, x pattern, c at level 100, k at level 200).
Notation "c ';;' k" := (bind c (fun _ => k))
  (at level 100, k at level 200, right associativity).

(** [defer d] before [body]: [d] runs when [body] returns and when it
    panics, and the panic goes on after it. *)
Definition defer {A} (d : M unit) (body : M A) : M A :=
  fun w => match body w with
           | Done a w' => match d w' with
                          | Done _ w'' => Done a w''
                          | Panic w'' => Panic w''
                          end
           | Panic w' => match d w' with
                         | Done _ w'' | Panic w'' => Panic w''
                         end
           end.

(** A slice expression inside a program. *)
Definition sliced {A} (s : option (list A)) : M (list A) :=
  match s with
  | Some l => ret l
  | None => panic
  end.

Definition store_read {A} (f : store -> result A) : M (result A) :=
  fun w => Done (f (kv w)) w.

(** A write is logged when the store has taken it. *)
Definition store_write (c : command) (f : store -> result store)
  : M (option error) :=
  fun w => match f (kv w) with
           | Ok s' => Done None (mkWorld s' (net w) (log w ++ [Store c]))
           | Err e => Done (Some e) w
           end.

Definition redisGet (key : string) : M (result string) :=
  store_read (fun s => kv_Get s key).
Definition redisExists (key : string) : M (result bool) :=
  store_read (fun s => kv_Exists s key).
Definition redisReadMap (key : string) : M (result (gmap string string)) :=
  store_read (fun s => kv_ReadMap s key).
Definition redisGetMapElement (key field : string) : M (result string) :=
  store_read (fun s => kv_GetMapElement s key field).
Definition redisZRangeByScore (key : string) (lo hi offset count : Z)
  : M (result (list string)) :=
  store_read (fun s => kv_ZRangeByScore s key lo hi offset count false).
Definition redisZRevRangeByScore (key : string) (lo hi offset count : Z)
  : M (result (list string)) :=
  store_read (fun s => kv_ZRangeByScore s key lo hi offset count true).

Definition redisSet (key value : string) : M (option error) :=
  store_write (SET key value) (fun s => kv_Set s key value).
Definition redisDel (key : string) : M (option error) :=
  store_write (DEL key) (fun s => kv_Del s key).
Definition redisSetMapElement (key field value : string) : M (option error) :=
  store_write (HMSET key [(field, value)])
              (fun s => kv_SetMapElement s key field value).
Definition redisSetMapElements (key : string) (values : list (string * string))
  : M (option error) :=
  store_write (HMSET key values) (fun s => kv_SetMapElements s key values).
Definition redisDeleteMap (key : string) : M (option error) :=
  store_write (DELMAP key) (fun s => kv_DeleteMap s key).
Definition redisZAdd (key member : string) (score : Z) : M (option error) :=
  store_write (ZADD key member score) (fun s => kv_ZAdd s key member score).
Definition redisZRem (key member : string) : M (option error) :=
  store_write (ZREM key member) (fun s => kv_ZRem s key member).

(** [http.DefaultClient.Do(req)]: the request is logged and the next answer
    of the peers is taken; when none is left the call fails. *)
Definition http_Do (req : request) : M http_answer :=
  fun w => match net w with
           | a :: rest => Done a (mkWorld (kv w) rest (log w ++ [Http req]))
           | [] => Done (TransportError "connection refused")
                        (mkWorld (kv w) [] (log w ++ [Http req]))
           end.

Definition time_Sleep (seconds : Z) : M unit :=
  fun w => Done tt (mkWorld (kv w) (net w) (log w ++ [Sleep seconds])).

(** Running a program from a world: the events it adds to the log. *)
Definition world_of {A} (o : outcome A) : world :=
  match o with Done _ w | Panic w => w end.

(** ** Dataset versions

    Modelled from the spec: package [urchin_dataset_vesion] is not among
    the sources.  A version is a hash under
    [urchin:dataset_version:<dataset_id>:<version_id>] (sections 4.5 and
    6); [meta_sources] and [meta_caches] are JSON strings; an update
    patches the fields that are given; listing gives the versions of one
    dataset. *)

Module urchin_dataset_vesion.

Record UrchinDataSetVersionInfo := mkVersion {
  ID : string;
  Name : string;
  CreateAt : Z;
  MetaSources : string;
  MetaCaches : string
}.

Definition versionKey (dataSetID versionID : string) : string :=
  MakeStorageKey [dataSetID; versionID] StoragePrefixDatasetVersion.

Definition CreateDataSetVersionImpl (dataSetID : string)
    (v : UrchinDataSetVersionInfo) : M (option error) :=
  redisSetMapElements (versionKey dataSetID (ID v))
    [("id", ID v); ("name", Name v);
     ("create_at", strconv_FormatInt (CreateAt v));
     ("meta_sources", MetaSources v); ("meta_caches", MetaCaches v)].

Definition patch (v : UrchinDataSetVersionInfo) : list (string * string) :=
  filter (fun fv => negb (String.eqb fv.2 ""))
    [("name", Name v); ("meta_sources", MetaSources v);
     ("meta_caches", MetaCaches v)].

Definition UpdateDataSetVersionImpl (dataSetID versionID : string)
    (v : UrchinDataSetVersionInfo) : M (option error) :=
  redisSetMapElements (versionKey dataSetID versionID) (patch v).

Definition field (h : gmap string string) (name : string) : string :=
  default "" (h !! name).

Definition decode (h : gmap string string) : UrchinDataSetVersionInfo :=
  mkVersion (field h "id") (field h "name")
    (match strconv_Atoi (field h "create_at") with Ok z => z | Err _ => 0 end)
    (field h "meta_sources") (field h "meta_caches").

Definition versions_of (s : store) (dataSetID : string)
  : list UrchinDataSetVersionInfo :=
  omap (fun kv => match kv.2 with
                  | RHash h =>
                      if String.prefix (versionKey dataSetID "") kv.1
                      then Some (decode h) else None
                  | _ => None
                  end)
       (map_to_list s).

Definition ListAllDataSetVersions (dataSetID : string)
  : M (result (list UrchinDataSetVersionInfo)) :=
  store_read (fun s => Ok (versions_of s dataSetID)).

End urchin_dataset_vesion.

(** ** Configuration and the seed peers of Dynconfig *)

Record SeedPeer := mkSeedPeer {
  Ip : string;
  ObjectStoragePort : Z
}.

Record Scheduler := mkScheduler {
  SeedPeers : list SeedPeer
}.

(** What the program reads of [ConfInfo]: [Opt.ObjectStorage.MaxReplicas],
    [Opt.Host.AdvertiseIP.String()] and [DynConfig.GetSchedulers()]. *)
Record ConfInfo := mkConf {
  MaxReplicas : Z;
  AdvertiseIP : string;
  GetSchedulers : result (list Scheduler)
}.

(** Modelled from the spec: [pkg/strings.Unique] is not among the sources;
    the replicable sources are counted without duplicates, the first
    occurrence of a host is the one kept. *)
Definition pkgstrings_Unique (l : list string) : list string :=
  fold_left (fun acc e => if existsb (String.eqb e) acc then acc else acc ++ [e])
            l [].

(** The spare capacity of a slice the runtime built: none when it is
    empty ([make([]T, 0)], the [[]] and [null] of JSON). *)
Definition spare_of (policy : nat -> nat) (n : nat) : nat :=
  match n with
  | O => O
  | S _ => policy n
  end.

Definition uint_sub (a b : Z) : Z := (a - b) mod 2 ^ 64.

(** The answer of a handler: [ctx.JSON(http.StatusOK, ...)] with its
    payload, or [ctx.JSON(code, gin.H{"errors": ...})]. *)
Inductive reply (A : Type) : Type :=
| StatusOK (payload : A)
| StatusError (code : Z) (errors : string).
Arguments StatusOK {A} payload.
Arguments StatusError {A} code errors.

Definition StatusUnprocessableEntity : Z := 422.
Definition StatusInternalServerError : Z := 500.

(** [return value, err] *)
Definition returning {A} (value : A) (err : option error) : result A :=
  match err with
  | None => Ok value
  | Some e => Err e
  end.

(** [if err != nil { return err }] between two steps. *)
Definition orReturn (c : M (option error)) (k : M (option error))
  : M (option error) :=
  let* err := c in
  match err with
  | Some e => ret (Some e)
  | None => k
  end.

Notation "c '>>>' k" := (orReturn c k)
  (at level 100, k at level 200, right associativity).

Definition when (b : bool) (c : M (option error)) : M (option error) :=
  if b then c else ret None.

Definition nonempty (s : string) : bool := negb (String.eqb s "").

(** [for _, x := range l { if err := body(x); err != nil { return err } }] *)
Fixpoint forEach {A} (body : A -> M (option error)) (l : list A)
  : M (option error) :=
  match l with
  | [] => ret None
  | x :: rest => body x >>> forEach body rest
  end.

Definition set_Tags (d : UrchinDataSetInfo) (v : list string) :=
  mkDataSet (Id d) (Name d) (Desc d) (Replica d) (CacheStrategy d) v
            (ShareBlobSources d) (ShareBlobCaches d).
Definition set_ShareBlobSources (d : UrchinDataSetInfo) (v : list UrchinEndpoint) :=
  mkDataSet (Id d) (Name d) (Desc d) (Replica d) (CacheStrategy d) (Tags d)
            v (ShareBlobCaches d).
Definition set_ShareBlobCaches (d : UrchinDataSetInfo) (v : list UrchinEndpoint) :=
  mkDataSet (Id d) (Name d) (Desc d) (Replica d) (CacheStrategy d) (Tags d)
            (ShareBlobSources d) v.
Definition set_Id (d : UrchinDataSetInfo) (v : string) :=
  mkDataSet v (Name d) (Desc d) (Replica d) (CacheStrategy d) (Tags d)
            (ShareBlobSources d) (ShareBlobCaches d).
Definition set_Name (d : UrchinDataSetInfo) (v : string) :=
  mkDataSet (Id d) v (Desc d) (Replica d) (CacheStrategy d) (Tags d)
            (ShareBlobSources d) (ShareBlobCaches d).
Definition set_Desc (d : UrchinDataSetInfo) (v : string) :=
  mkDataSet (Id d) (Name d) v (Replica d) (CacheStrategy d) (Tags d)
            (ShareBlobSources d) (ShareBlobCaches d).
Definition set_Replica (d : UrchinDataSetInfo) (v : Z) :=
  mkDataSet (Id d) (Name d) (Desc d) v (CacheStrategy d) (Tags d)
            (ShareBlobSources d) (ShareBlobCaches d).
Definition set_CacheStrategy (d : UrchinDataSetInfo) (v : string) :=
  mkDataSet (Id d) (Name d) (Desc d) (Replica d) v (Tags d)
            (ShareBlobSources d) (ShareBlobCaches d).

(** What the goroutine of a scale-up has captured when it is started. *)
Record ScaleUpJob := mkJob {
  job_oldDatasetInfo : UrchinDataSetInfo;
  job_sourceEndpoint : string;
  job_sourceBucket : string;
  job_sourceObject : string;
  job_replicaHosts : list string;
  job_scaleUpReplicas : list string
}.

(** [redis.Sort] *)
Record Sort := mkSort {
  By : string;
  Offset : Z;
  Count : Z;
  Order : string;
  Alpha : bool
}.

Section Controller.

Context {rt : GoRuntime}.

(** The process-wide [conf]. *)
Variable conf : ConfInfo.

(** *** client/urchin_util/util.go *)

Definition seedPeerHosts (hostIp : string) (schedulers : list Scheduler)
  : list string :=
  flat_map
    (fun scheduler =>
       flat_map
         (fun seedPeer =>
            if negb (String.eqb hostIp (Ip seedPeer))
               && (0 <? ObjectStoragePort seedPeer)
            then [Ip seedPeer +:+ ":"
                  +:+ strconv_FormatInt (ObjectStoragePort seedPeer)]
            else [])
         (SeedPeers scheduler))
    schedulers.

Definition GetReplicableDataSources (dynConfig : result (list Scheduler))
    (hostIp : string) : result (list string) :=
  match dynConfig with
  | Err err => Err err
  | Ok schedulers =>
      Ok (rand_Shuffle (pkgstrings_Unique (seedPeerHosts hostIp schedulers)))
  end.

(** *** validateReplica *)

Definition validateReplica (wantedReplicas : Z) : option error :=
  if MaxReplicas conf <? int_of_uint wantedReplicas then
    Some ("wanted replicas: " +:+ strconv_FormatUint wantedReplicas
          +:+ " is large than the max datasource count of system setting: "
          +:+ strconv_FormatInt (MaxReplicas conf))
  else
    match GetReplicableDataSources (GetSchedulers conf) (AdvertiseIP conf) with
    | Err err => Some err
    | Ok replicableDataSources =>
        let replicableDataSourceCnt :=
          Z.of_nat (List.length replicableDataSources) in
        if replicableDataSourceCnt <? wantedReplicas then
          Some ("wanted replicas: " +:+ strconv_FormatUint wantedReplicas
                +:+ " is large than replicable datasource count: "
                +:+ strconv_FormatUint replicableDataSourceCnt)
        else None
    end.

(** *** Reading a dataset *)

(** The body of the loop [for k, v := range elements] of [GetDataSetImpl]
    and of [getDataSetById]. *)
Definition decodeField (dataset : UrchinDataSetInfo) (k v : string)
  : result UrchinDataSetInfo :=
  if String.eqb k "tags" then Ok (set_Tags dataset (strings_Split v "_"))
  else if String.eqb k "share_blob_sources" then
    match json_Unmarshal_endpoints v with
    | Ok l => Ok (set_ShareBlobSources dataset l)
    | Err e => Err e
    end
  else if String.eqb k "share_blob_caches" then
    match json_Unmarshal_endpoints v with
    | Ok l => Ok (set_ShareBlobCaches dataset l)
    | Err e => Err e
    end
  else if String.eqb k "id" then Ok (set_Id dataset v)
  else if String.eqb k "name" then Ok (set_Name dataset v)
  else if String.eqb k "desc" then Ok (set_Desc dataset v)
  else if String.eqb k "replica" then
    match strconv_Atoi v with
    | Ok tmpReplica => Ok (set_Replica dataset (uint_of_int tmpReplica))
    | Err e => Err e
    end
  else if String.eqb k "cache_strategy" then Ok (set_CacheStrategy dataset v)
  else Ok dataset.

(** The loop itself, over the fields in the order of the map (Go leaves
    the order open; the record read is the same in every order). *)
Definition decodeElements (elements : gmap string string)
  : result UrchinDataSetInfo :=
  fold_left
    (fun acc kv => match acc with
                   | Ok dataset => decodeField dataset kv.1 kv.2
                   | Err e => Err e
                   end)
    (map_to_list elements) (Ok UrchinDataSetInfo_zero).

Definition GetDataSetImpl (dataSetID : string) : M (result UrchinDataSetInfo) :=
  if String.eqb dataSetID "" then ret (Err "dataSet ID is empty")
  else
    let datasetKey := MakeStorageKey [dataSetID] StoragePrefixDataset in
    let* read := redisReadMap datasetKey in
    match read with
    | Err err => ret (Err err)
    | Ok elements =>
        let err : option error := None in
        if negb (String.eqb (default "" (elements !! "id")) dataSetID)
        then ret (returning UrchinDataSetInfo_zero err)
        else ret (decodeElements elements)
    end.

Definition getDataSetById (dataSetID : string) : M (result UrchinDataSetInfo) :=
  let datasetKey := MakeStorageKey [dataSetID] StoragePrefixDataset in
  let* read := redisReadMap datasetKey in
  match read with
  | Err err => ret (Err err)
  | Ok elements => ret (decodeElements elements)
  end.

(** *** CreateDataSet, POST /api/v1/dataset

    The form is bound before; [dataSetID] is the fresh UUID and [curTime]
    the clock. *)
Definition CreateDataSet (dataSetName dataSetDesc : string) (replica : Z)
    (cacheStrategy : string) (dataSetTags : list string)
    (dataSetID : string) (curTime : Z) : M (reply string) :=
  match validateReplica replica with
  | Some err => ret (StatusError StatusUnprocessableEntity err)
  | None =>
      let datasetKey := MakeStorageKey [dataSetID] StoragePrefixDataset in
      let values :=
        [("id", dataSetID); ("name", dataSetName); ("desc", dataSetDesc);
         ("replica", if replica <=? 0 then strconv_FormatInt 1
                     else strconv_FormatUint replica);
         ("cache_strategy", cacheStrategy);
         ("tags", strings_Join dataSetTags "_");
         ("share_blob_sources", "[]"); ("share_blob_caches", "[]");
         ("replica_state", strconv_FormatInt ReplicaNoScale);
         ("create_time", strconv_FormatInt curTime);
         ("update_time", strconv_FormatInt curTime)] in
      let* err := redisSetMapElements datasetKey values in
      match err with
      | Some e => ret (StatusError StatusInternalServerError e)
      | None =>
      let* err := redisZAdd DatasetCreateTimeKey dataSetID curTime in
      match err with
      | Some e => ret (StatusError StatusInternalServerError e)
      | None =>
      let* err :=
        when (nonempty dataSetName)
          (redisSet (MakeStorageKey [dataSetID; "match_prefix_name"; dataSetName]
                                    StoragePrefixDataset)
                    dataSetName) in
      match err with
      | Some e => ret (StatusError StatusInternalServerError e)
      | None =>
      let* err :=
        when (0 <? Z.of_nat (List.length dataSetTags))
          (let formatTags := strings_Join dataSetTags "_" in
           redisSet (MakeStorageKey [dataSetID; "match_prefix_tags"; formatTags]
                                    StoragePrefixDataset)
                    formatTags) in
      match err with
      | Some e => ret (StatusError StatusInternalServerError e)
      | None =>
      let* err :=
        urchin_dataset_vesion.CreateDataSetVersionImpl dataSetID
          (urchin_dataset_vesion.mkVersion DefaultDatasetVersion
             "default dataset version" curTime "" "") in
      match err with
      | Some e =>
          ret (StatusError StatusInternalServerError
                 ("create Default dataset version err:" +:+ e
                  +:+ ", dataSetID:" +:+ dataSetID))
      | None => ret (StatusOK dataSetID)
      end end end end end
  end.

(** *** DeleteDataSet, DELETE /api/v1/dataset/:datasetid

    A failed [Del] or [ZRem] of an index is logged and passed over. *)
Definition DeleteDataSet (dataSetID : string) : M (reply unit) :=
  let datasetKey := MakeStorageKey [dataSetID] StoragePrefixDataset in
  let* got := redisGetMapElement datasetKey "name" in
  match got with
  | Err e => ret (StatusError StatusInternalServerError e)
  | Ok dataSetName =>
  let* _ :=
    when (nonempty dataSetName)
      (redisDel (MakeStorageKey [dataSetID; "match_prefix_name"; dataSetName]
                                StoragePrefixDataset)) in
  let* got := redisGetMapElement datasetKey "tags" in
  match got with
  | Err e => ret (StatusError StatusInternalServerError e)
  | Ok dataSetTags =>
  let* _ :=
    when (nonempty dataSetTags)
      (redisDel (MakeStorageKey [dataSetID; "match_prefix_tags"; dataSetTags]
                                StoragePrefixDataset)) in
  let* _ := redisZRem DatasetCreateTimeKey dataSetID in
  let* err := redisDeleteMap datasetKey in
  match err with
  | Some e => ret (StatusError StatusInternalServerError e)
  | None =>
  let* err := redisDel datasetKey in
  match err with
  | Some e => ret (StatusError StatusInternalServerError e)
  | None => ret (StatusOK tt)
  end end end end.

(** *** The replica directory and the choice of hosts *)

Definition setReplicaState (dataSetID : string) (state : Z) : M (option error) :=
  let datasetKey := MakeStorageKey [dataSetID] StoragePrefixDataset in
  redisSetMapElement datasetKey "replica_state" (strconv_FormatInt state).

Definition containsString (src : list string) (dest : string) : bool :=
  existsb (fun item => String.eqb item dest) src.

Definition differenceSlice (src dest : list string) : list string :=
  filter (fun item => negb (containsString dest item)) src.

Definition replicaKey (dataSetID : string) : string :=
  MakeStorageKey ["replica"; "seed-peer"; dataSetID] "".

Definition getReplicaHosts (dataSetID : string) : M (result (list string)) :=
  let* found := redisExists (replicaKey dataSetID) in
  match found with
  | Err err => ret (Err err)
  | Ok false => ret (Err "internal error: can not find dataset")
  | Ok true =>
      let* got := redisGet (replicaKey dataSetID) in
      match got with
      | Err err => ret (Err err)
      | Ok value => ret (json_Unmarshal_strings value)
      end
  end.

Definition selectScaleUpReplicaHosts (dataSetID : string)
    (wantedReplica nowReplica : Z) : M (result (list string * list string)) :=
  let* got := getReplicaHosts dataSetID in
  match got with
  | Err err => ret (Err err)
  | Ok replicaHosts =>
      match GetReplicableDataSources (GetSchedulers conf) (AdvertiseIP conf) with
      | Err err => ret (Err err)
      | Ok replicableDataSources =>
          let replicableDataSourceCnt :=
            Z.of_nat (List.length replicableDataSources) in
          if replicableDataSourceCnt <? wantedReplica then
            ret (Err ("wanted replicas: " +:+ strconv_FormatUint wantedReplica
                      +:+ " is large than replicable datasource count: "
                      +:+ strconv_FormatUint replicableDataSourceCnt))
          else
            let candidates := differenceSlice replicableDataSources replicaHosts in
            let* scaleUpReplicas :=
              sliced (slice_to "" (spare_of append_spare (List.length candidates))
                               candidates (uint_sub wantedReplica nowReplica)) in
            ret (Ok (replicaHosts, scaleUpReplicas))
      end
  end.

Definition selectScaleDownReplicaHosts (dataSetID : string) (wantedReplica : Z)
  : M (result (list string)) :=
  let* got := getReplicaHosts dataSetID in
  match got with
  | Err err => ret (Err err)
  | Ok replicaHosts =>
      let* kept :=
        sliced (slice_to "" (spare_of strings_spare (List.length replicaHosts))
                         replicaHosts wantedReplica) in
      let jsonBody := json_Marshal_strings kept in
      let* err := redisSet (replicaKey dataSetID) jsonBody in
      match err with
      | Some e => ret (Err e)
      | None =>
          let* ScaleDownReplicaHosts :=
            sliced (slice_from replicaHosts wantedReplica) in
          ret (Ok ScaleDownReplicaHosts)
      end
  end.

Definition updateRedisReplicaInfo (dataSetID : string)
    (newReplicaHosts : list string) : M (option error) :=
  let jsonBody := json_Marshal_strings newReplicaHosts in
  redisSet (replicaKey dataSetID) jsonBody.

(** *** The versions of a dataset on a change of its replicas *)

Definition patchMetaCaches (metaCaches : list UrchinEndpoint)
  : urchin_dataset_vesion.UrchinDataSetVersionInfo :=
  urchin_dataset_vesion.mkVersion "" "" 0 ""
    (json_Marshal_endpoints metaCaches).

Definition scaleUpVersion (dataSetID : string)
    (scaleUpCachesEndpoint : list UrchinEndpoint)
    (versionInfo : urchin_dataset_vesion.UrchinDataSetVersionInfo)
  : M (option error) :=
  match json_Unmarshal_endpoints (urchin_dataset_vesion.MetaCaches versionInfo) with
  | Err err => ret (Some err)
  | Ok metaCaches =>
      match json_Unmarshal_endpoints
              (urchin_dataset_vesion.MetaSources versionInfo) with
      | Err err => ret (Some err)
      | Ok [] => ret (Some "dataset version meta sources is empty")
      | Ok (source0 :: _) =>
          let objectName := path_Split_file (EndpointPath source0) in
          let tmpScaleUpCachesEndpoint :=
            map (fun e => mkEndpoint (Endpoint e)
                            (filepath_Join [EndpointPath e; objectName]))
                scaleUpCachesEndpoint in
          urchin_dataset_vesion.UpdateDataSetVersionImpl dataSetID
            (urchin_dataset_vesion.ID versionInfo)
            (patchMetaCaches (metaCaches ++ tmpScaleUpCachesEndpoint))
      end
  end.

Definition scaleUpDatasetVersionInfo (dataSetID : string)
    (scaleUpCachesEndpoint : list UrchinEndpoint) : M (option error) :=
  let* listed := urchin_dataset_vesion.ListAllDataSetVersions dataSetID in
  match listed with
  | Err err => ret (Some err)
  | Ok [] => ret None
  | Ok dataSetVersions =>
      forEach (scaleUpVersion dataSetID scaleUpCachesEndpoint) dataSetVersions
  end.

Definition scaleDownVersion (dataSetID : string) (wantedReplica : Z)
    (versionInfo : urchin_dataset_vesion.UrchinDataSetVersionInfo)
  : M (option error) :=
  match json_Unmarshal_endpoints (urchin_dataset_vesion.MetaCaches versionInfo) with
  | Err err => ret (Some err)
  | Ok [] => ret None
  | Ok metaCaches =>
      let* kept :=
        sliced (slice_to UrchinEndpoint_zero
                  (spare_of endpoints_spare (List.length metaCaches))
                  metaCaches wantedReplica) in
      urchin_dataset_vesion.UpdateDataSetVersionImpl dataSetID
        (urchin_dataset_vesion.ID versionInfo) (patchMetaCaches kept)
  end.

Definition scaleDownDatasetVersionInfo (dataSetID : string) (wantedReplica : Z)
  : M (option error) :=
  let* listed := urchin_dataset_vesion.ListAllDataSetVersions dataSetID in
  match listed with
  | Err err => ret (Some err)
  | Ok [] => ret None
  | Ok dataSetVersions =>
      forEach (scaleDownVersion dataSetID wantedReplica) dataSetVersions
  end.

(** *** The seed-peer client

    [http.NewRequestWithContext] is taken to succeed: the URL is built
    from a [url.URL] value. *)

Definition is2xx (status : Z) : bool := Z.quot status 100 =? 2.

Definition destroySeedPeerDataset (dataSetID seedPeerHost bucketName folderKey : string)
  : M (option error) :=
  let u := mkRequest "DELETE" seedPeerHost
             (filepath_Join ["buckets"; bucketName; "destroy_folder"; folderKey]) in
  let* resp := http_Do u in
  match resp with
  | TransportError err => ret (Some err)
  | Response status _ =>
      if negb (is2xx status) then ret (Some "bad response status")
      else ret None
  end.

(** The closure [checkObjectStatus] of [scaleUpSeedPeerDataset]; a failed
    type assertion on the decoded body panics. *)
Definition checkObjectStatus (seedPeerHost bucketName folderKey : string)
  : M (result (option UrchinEndpoint)) :=
  let u := mkRequest "GET" seedPeerHost
             (filepath_Join ["buckets"; bucketName; "check_folder"; folderKey]) in
  let decode (body : string) : M (result (option UrchinEndpoint)) :=
    match json_Unmarshal_object body with
    | Err err => ret (Err err)
    | Ok result =>
        match any_lookup result "StatusCode" with
        | Some (AnyNumber statusCode) =>
            if statusCode =? 1 then
              time_Sleep 20;; ret (Ok None)
            else if negb (statusCode =? 0) then
              ret (Err "bad response status")
            else
              match any_lookup result "DataEndpoint",
                    any_lookup result "DataRoot",
                    any_lookup result "DataPath" with
              | Some (AnyString dataEndpoint), Some (AnyString dataRoot),
                Some (AnyString dataPath) =>
                  ret (Ok (Some (mkEndpoint dataEndpoint
                                   (dataRoot +:+ "." +:+ dataPath))))
              | _, _, _ => panic
              end
        | _ => panic
        end
    end in
  let* resp := http_Do u in
  match resp with
  | TransportError err => ret (Err err)
  | Response status body =>
      if negb (is2xx status) then
        time_Sleep 2;;
        let* resp := http_Do u in
        match resp with
        | TransportError err => ret (Err err)
        | Response status body =>
            if negb (is2xx status) then ret (Err "bad response status")
            else decode body
        end
      else decode body
  end.

(** The loop [for { time.Sleep(3s); ... }]: [rounds] bounds the number of
    its rounds; every round takes an answer of the peers, or fails. *)
Fixpoint pollObjectStatus (rounds : nat)
    (seedPeerHost bucketName folderKey : string) : M (result UrchinEndpoint) :=
  match rounds with
  | O => panic
  | S rounds' =>
      time_Sleep 3;;
      let* checked := checkObjectStatus seedPeerHost bucketName folderKey in
      match checked with
      | Err err => ret (Err err)
      | Ok None => pollObjectStatus rounds' seedPeerHost bucketName folderKey
      | Ok (Some urchinEndpoint) => ret (Ok urchinEndpoint)
      end
  end.

Definition scaleUpSeedPeerDataset (seedPeerHost bucketName folderKey : string)
  : M (result UrchinEndpoint) :=
  let u := mkRequest "POST" seedPeerHost
             (filepath_Join ["buckets"; bucketName; "cache_folder"; folderKey]) in
  let* resp := http_Do u in
  match resp with
  | TransportError err => ret (Err err)
  | Response status _ =>
      if negb (is2xx status) then ret (Err "bad response status")
      else fun w =>
             pollObjectStatus (S (List.length (net w)))
                              seedPeerHost bucketName folderKey w
  end.

(** *** UpdateDataSetImpl *)

Section UpdateDataSetImpl.

Variables (dataSetID dataSetName dataSetDesc : string) (wantedReplica : Z)
          (cacheStrategy : string) (dataSetTags : list string)
          (shareBlobSources : list UrchinEndpoint).

(** The closure [updateDataSetFunc]; [shareBlobCaches] is the value of
    the captured variable when the closure runs, [curTime] the clock. *)
Definition updateDataSetFunc (shareBlobCaches : list UrchinEndpoint)
    (curTime : Z) : M (option error) :=
  let datasetKey := MakeStorageKey [dataSetID] StoragePrefixDataset in
  when (nonempty dataSetName)
    (redisSetMapElement datasetKey "name" dataSetName) >>>
  when (nonempty dataSetDesc)
    (redisSetMapElement datasetKey "desc" dataSetDesc) >>>
  when (0 <? wantedReplica)
    (redisSetMapElement datasetKey "replica"
       (strconv_FormatInt (int_of_uint wantedReplica))) >>>
  when (nonempty cacheStrategy)
    (redisSetMapElement datasetKey "cache_strategy" cacheStrategy) >>>
  when (0 <? Z.of_nat (List.length dataSetTags))
    (let* got := redisGetMapElement datasetKey "tags" in
     match got with
     | Err err => ret (Some err)
     | Ok oldTags =>
         let oldTagsKey :=
           MakeStorageKey [dataSetID; "match_prefix_tags"; oldTags]
                          StoragePrefixDataset in
         let* _ := redisDel oldTagsKey in
         redisSetMapElement datasetKey "tags" (strings_Join dataSetTags "_") >>>
         let formatTags := strings_Join dataSetTags "_" in
         let datasetTagsKey :=
           MakeStorageKey [dataSetID; "match_prefix_tags"; formatTags]
                          StoragePrefixDataset in
         redisSet datasetTagsKey formatTags
     end) >>>
  when (0 <? Z.of_nat (List.length shareBlobSources))
    (redisSetMapElement datasetKey "share_blob_sources"
       (json_Marshal_endpoints shareBlobSources)) >>>
  when (0 <? Z.of_nat (List.length shareBlobCaches))
    (redisSetMapElement datasetKey "share_blob_caches"
       (json_Marshal_endpoints shareBlobCaches)) >>>
  let* _ := redisSetMapElement datasetKey "update_time"
              (strconv_FormatInt curTime) in
  ret None.

(** The loop of the goroutine over the hosts it was given: a host that
    failed is tried once more after five seconds; [None] when the
    goroutine gives up. *)
Fixpoint scaleUpHosts (scaleUpReplicas : list string)
    (bucketName folderKey : string) (scaleUpCachesEndpoint : list UrchinEndpoint)
  : M (option (list UrchinEndpoint)) :=
  match scaleUpReplicas with
  | [] => ret (Some scaleUpCachesEndpoint)
  | scaleUpReplica :: rest =>
      let* first := scaleUpSeedPeerDataset scaleUpReplica bucketName folderKey in
      match first with
      | Ok urchinEndpoint =>
          scaleUpHosts rest bucketName folderKey
                       (scaleUpCachesEndpoint ++ [urchinEndpoint])
      | Err _ =>
          time_Sleep 5;;
          let* second :=
            scaleUpSeedPeerDataset scaleUpReplica bucketName folderKey in
          match second with
          | Ok urchinEndpoint =>
              scaleUpHosts rest bucketName folderKey
                           (scaleUpCachesEndpoint ++ [urchinEndpoint])
          | Err _ => ret None
          end
      end
  end.

(** The goroutine [go func() { ... }()] of a scale-up. *)
Definition scaleUpWorker (job : ScaleUpJob) (curTime : Z) : M unit :=
  defer (let* _ := setReplicaState dataSetID ReplicaNoScale in ret tt)
    (let* cached :=
       scaleUpHosts (job_scaleUpReplicas job)
         (job_sourceBucket job +:+ "." +:+ job_sourceEndpoint job)
         (job_sourceObject job) [] in
     match cached with
     | None => ret tt
     | Some scaleUpCachesEndpoint =>
         let shareBlobCaches :=
           ShareBlobCaches (job_oldDatasetInfo job) ++ scaleUpCachesEndpoint in
         let* err := updateDataSetFunc shareBlobCaches curTime in
         match err with
         | Some _ => ret tt
         | None =>
             let newReplicaHosts :=
               job_replicaHosts job ++ job_scaleUpReplicas job in
             let* err := updateRedisReplicaInfo dataSetID newReplicaHosts in
             match err with
             | Some _ => ret tt
             | None =>
                 let* _ :=
                   scaleUpDatasetVersionInfo dataSetID scaleUpCachesEndpoint in
                 ret tt
             end
         end
     end).

(** The branch [wantedReplica < oldDatasetInfo.Replica]. *)
Definition scaleDown (oldDatasetInfo : UrchinDataSetInfo)
    (bucketName folderKey : string) (curTime : Z) : M (option error) :=
  let* err := setReplicaState dataSetID ReplicaScaleDown in
  match err with
  | Some e => ret (Some e)
  | None =>
      defer (let* _ := setReplicaState dataSetID ReplicaNoScale in ret tt)
        (let* selected := selectScaleDownReplicaHosts dataSetID wantedReplica in
         match selected with
         | Err e => ret (Some e)
         | Ok ScaleDownReplicaHosts =>
             let caches := ShareBlobCaches oldDatasetInfo in
             let* shareBlobCaches :=
               sliced (slice_to UrchinEndpoint_zero
                         (spare_of endpoints_spare (List.length caches))
                         caches wantedReplica) in
             updateDataSetFunc shareBlobCaches curTime >>>
             scaleDownDatasetVersionInfo dataSetID wantedReplica >>>
             let* _ :=
               forEach (fun replicaHost =>
                          let* _ := destroySeedPeerDataset dataSetID replicaHost
                                      bucketName folderKey in
                          ret None)
                       ScaleDownReplicaHosts in
             ret None
         end)
  end.

(** The branch [wantedReplica > oldDatasetInfo.Replica], up to the start
    of the goroutine. *)
Definition scaleUp (oldDatasetInfo : UrchinDataSetInfo)
    (sourceEndpoint bucketName folderKey : string)
  : M (option error * option ScaleUpJob) :=
  let* err := setReplicaState dataSetID ReplicaScaleUP in
  match err with
  | Some e => ret (Some e, None)
  | None =>
      let* selected :=
        selectScaleUpReplicaHosts dataSetID wantedReplica
                                  (Replica oldDatasetInfo) in
      match selected with
      | Err _ =>
          let* err := setReplicaState dataSetID ReplicaNoScale in
          ret (err, None)
      | Ok (replicaHosts, scaleUpReplicas) =>
          ret (None,
               Some (mkJob oldDatasetInfo sourceEndpoint bucketName folderKey
                           replicaHosts scaleUpReplicas))
      end
  end.

(** The error returned, and the goroutine started, if any. *)
Definition UpdateDataSetImpl (shareBlobCaches : list UrchinEndpoint)
    (curTime : Z) : M (option error * option ScaleUpJob) :=
  let* got := GetDataSetImpl dataSetID in
  match got with
  | Err err => ret (Some err, None)
  | Ok oldDatasetInfo =>
      if (0 <? wantedReplica)
         && negb (Replica oldDatasetInfo =? wantedReplica) then
        match ShareBlobSources oldDatasetInfo with
        | [] => ret (Some "internal error: share blob sources is valid", None)
        | source0 :: _ =>
            let sourceEndpoint := Endpoint source0 in
            let sourceEndpointPath := EndpointPath source0 in
            match strings_SplitN2 sourceEndpointPath "." with
            | bucketName :: folderKey :: _ =>
                if wantedReplica <? Replica oldDatasetInfo then
                  let* err :=
                    scaleDown oldDatasetInfo bucketName folderKey curTime in
                  ret (err, None)
                else
                  scaleUp oldDatasetInfo sourceEndpoint bucketName folderKey
            | _ =>
                ret (Some "internal error: share blob sources bucket is valid",
                     None)
            end
        end
      else
        let* err := updateDataSetFunc shareBlobCaches curTime in
        ret (err, None)
  end.

End UpdateDataSetImpl.

(** *** ListDataSets, GET /api/v1/datasets *)

(** The loop of the branch without search key and without order. *)
Fixpoint hydrateMembers (members : list string) (datasets : list UrchinDataSetInfo)
  : M (result (list UrchinDataSetInfo)) :=
  match members with
  | [] => ret (Ok datasets)
  | member :: rest =>
      let* got := getDataSetById member in
      match got with
      | Err err => ret (Err err)
      | Ok dataset => hydrateMembers rest (datasets ++ [dataset])
      end
  end.

(** [ListDataSets] when [searchKey == ""] and [orderBy == ""]; [now] is
    [time.Now().Unix()]. *)
Definition ListDataSets_byCreateTime
    (pageIndex pageSize sortBy createdAtLess createdAtGreater now : Z)
  : M (reply (list UrchinDataSetInfo)) :=
  let rangeUpper := if negb (createdAtLess =? 0) then createdAtLess else now + 1 in
  let rangeLower := if negb (createdAtGreater =? 0) then createdAtGreater else 0 in
  let* got :=
    if sortBy =? 1
    then redisZRangeByScore DatasetCreateTimeKey rangeLower rangeUpper
                            pageIndex pageSize
    else redisZRevRangeByScore DatasetCreateTimeKey rangeLower rangeUpper
                               pageIndex pageSize in
  match got with
  | Err err => ret (StatusError StatusInternalServerError err)
  | Ok members =>
      let* hydrated := hydrateMembers members [] in
      match hydrated with
      | Err err => ret (StatusError StatusInternalServerError err)
      | Ok datasets => ret (StatusOK datasets)
      end
  end.

(** Modelled from the spec: [RedisStorage.Sort], the sort-by-external of
    section 4.1, is not among the sources; it may give any members. *)
Variable kv_Sort : store -> string -> Sort -> result (list string).

(** The loop of [sortAndBuildResult]. *)
Fixpoint buildResult (members : list string) (datasets : list UrchinDataSetInfo)
  : M (list UrchinDataSetInfo) :=
  match members with
  | [] => ret datasets
  | member :: rest =>
      let* got := getDataSetById member in
      match got with
      | Err _ => buildResult rest datasets
      | Ok dataset =>
          if String.eqb (Id dataset) "" then buildResult rest datasets
          else buildResult rest (datasets ++ [dataset])
      end
  end.

(** The error returned and the value of [*datasets] afterwards. *)
Definition sortAndBuildResult (orderBy : string) (sortBy pageIndex pageSize : Z)
    (sortSetKey : string) (datasets : list UrchinDataSetInfo)
  : M (option error * list UrchinDataSetInfo) :=
  let orderBy := if String.eqb orderBy "" then "create_time" else orderBy in
  let sortByStr := if sortBy =? -1 then "DESC" else "ASC" in
  let sortByPara := StoragePrefixDataset +:+ ":" +:+ "*->" +:+ orderBy in
  let sort := mkSort sortByPara pageIndex pageSize sortByStr true in
  let* sorted := store_read (fun s => kv_Sort s sortSetKey sort) in
  match sorted with
  | Err err => ret (Some err, datasets)
  | Ok members =>
      let* datasets := buildResult members datasets in
      ret (None, datasets)
  end.

End Controller.

(** ** A reference runtime

    A codec for the JSON this program writes and reads, used to run the
    program on concrete worlds: strings with the quote and the backslash
    escaped, arrays
    of strings, arrays of endpoints, and flat objects of strings and
    integers, without white space.  Slices have no spare capacity and the
    shuffle leaves the order. *)

Module Reference.

Definition quote : ascii := ascii_of_nat 34.
Definition quoted (s : string) : string :=
  String quote s +:+ String quote EmptyString.
Definition backslash : ascii := "\"%char.

Fixpoint escape (s : string) : string :=
  match s with
  | EmptyString => EmptyString
  | String c r =>
      if Ascii.eqb c quote || Ascii.eqb c backslash
      then String backslash (String c (escape r))
      else String c (escape r)
  end.

Definition write_string (s : string) : string :=
  quoted (escape s).

(** The text of a string up to its closing quote, and what follows. *)
Fixpoint read_string_body (s : string) : option (string * string) :=
  match s with
  | EmptyString => None
  | String c r =>
      if Ascii.eqb c quote then Some (EmptyString, r)
      else if Ascii.eqb c backslash then
        match r with
        | String d r' =>
            if Ascii.eqb d quote || Ascii.eqb d backslash then
              match read_string_body r' with
              | Some (x, rest) => Some (String d x, rest)
              | None => None
              end
            else None
        | EmptyString => None
        end
      else
        match read_string_body r with
        | Some (x, rest) => Some (String c x, rest)
        | None => None
        end
  end.

Definition read_string (s : string) : option (string * string) :=
  match s with
  | String c r => if Ascii.eqb c quote then read_string_body r else None
  | EmptyString => None
  end.

(** [expect p s]: [s] without its prefix [p]. *)
Fixpoint expect (p s : string) : option string :=
  match p, s with
  | EmptyString, _ => Some s
  | String a p', String b s' => if Ascii.eqb a b then expect p' s' else None
  | String _ _, EmptyString => None
  end.

Definition is_digit (c : ascii) : bool :=
  (48 <=? nat_of_ascii c)%nat && (nat_of_ascii c <=? 57)%nat.

Fixpoint read_digits (s : string) : string * string :=
  match s with
  | String c r =>
      if is_digit c then let '(d, rest) := read_digits r in (String c d, rest)
      else (EmptyString, s)
  | EmptyString => (EmptyString, EmptyString)
  end.

Definition read_number (s : string) : option (Z * string) :=
  let '(sign, body) :=
    match s with
    | String "-" r => (-1, r)
    | _ => (1, s)
    end in
  let '(d, rest) := read_digits body in
  match parse_digits d with
  | Some n => Some (sign * n, rest)
  | None => None
  end.

Definition read_endpoint (s : string) : option (UrchinEndpoint * string) :=
  match expect ("{" +:+ quoted "endpoint" +:+ ":") s with
  | None => None
  | Some s1 =>
      match read_string s1 with
      | None => None
      | Some (e, s2) =>
          match expect ("," +:+ quoted "endpoint_path" +:+ ":") s2 with
          | None => None
          | Some s3 =>
              match read_string s3 with
              | None => None
              | Some (p, s4) =>
                  match expect "}" s4 with
                  | Some rest => Some (mkEndpoint e p, rest)
                  | None => None
                  end
              end
          end
      end
  end.

(** The elements of an array after its opening bracket. *)
Fixpoint read_elements {A} (read : string -> option (A * string))
    (fuel : nat) (s : string) : option (list A) :=
  match fuel with
  | O => None
  | S fuel' =>
      match read s with
      | Some (x, String c rest) =>
          if Ascii.eqb c "," then option_map (cons x) (read_elements read fuel' rest)
          else if Ascii.eqb c "]" then
            match rest with
            | EmptyString => Some [x]
            | String _ _ => None
            end
          else None
      | _ => None
      end
  end.

Definition read_array {A} (read : string -> option (A * string)) (s : string)
  : result (list A) :=
  if String.eqb s "null" || String.eqb s "[]" then Ok []
  else match s with
       | String "[" r =>
           match read_elements read (String.length s) r with
           | Some l => Ok l
           | None => Err "invalid character in JSON input"
           end
       | _ => Err "invalid character in JSON input"
       end.

Definition write_array {A} (write : A -> string) (l : list A) : string :=
  "[" +:+ strings_Join (map write l) "," +:+ "]".

Definition write_endpoint (e : UrchinEndpoint) : string :=
  "{" +:+ quoted "endpoint" +:+ ":" +:+ write_string (Endpoint e)
  +:+ "," +:+ quoted "endpoint_path" +:+ ":"
  +:+ write_string (EndpointPath e) +:+ "}".

Definition read_member (s : string) : option ((string * any) * string) :=
  match read_string s with
  | None => None
  | Some (k, String ":" r) =>
      match read_string r with
      | Some (v, rest) => Some ((k, AnyString v), rest)
      | None =>
          match read_number r with
          | Some (n, rest) => Some ((k, AnyNumber n), rest)
          | None => None
          end
      end
  | Some _ => None
  end.

Fixpoint read_members (fuel : nat) (s : string) : option (list (string * any)) :=
  match fuel with
  | O => None
  | S fuel' =>
      match read_member s with
      | Some (m, String c rest) =>
          if Ascii.eqb c "," then option_map (cons m) (read_members fuel' rest)
          else if Ascii.eqb c "}" then
            match rest with
            | EmptyString => Some [m]
            | String _ _ => None
            end
          else None
      | _ => None
      end
  end.

Definition read_object (s : string) : result (list (string * any)) :=
  if String.eqb s "{}" then Ok []
  else match s with
       | String "{" r =>
           match read_members (String.length s) r with
           | Some l => Ok l
           | None => Err "invalid character in JSON input"
           end
       | _ => Err "invalid character in JSON input"
       end.

#[export] Instance runtime : GoRuntime := {|
  json_Marshal_strings := write_array write_string;
  json_Unmarshal_strings := read_array read_string;
  json_Marshal_endpoints := write_array write_endpoint;
  json_Unmarshal_endpoints := read_array read_endpoint;
  json_Unmarshal_object := read_object;
  strings_spare := fun _ => O;
  endpoints_spare := fun _ => O;
  append_spare := fun _ => O;
  rand_Shuffle := fun l => l;
  rand_Shuffle_perm := fun l => Permutation_refl l
|}.

End Reference.

(** ** What the statements speak of *)

(** The number of replicable data sources: the seed peers of Dynconfig
    whose IP is not the advertise IP and whose object-storage port is
    positive, as [host:port], each counted once. *)
Definition replicableCount (conf : ConfInfo) (schedulers : list Scheduler) : Z :=
  Z.of_nat (List.length (pkgstrings_Unique (seedPeerHosts (AdvertiseIP conf) schedulers))).

(** ** Concrete worlds *)

Module Scenario.

Import Reference.

(** Three seed peers are known; one is the local host, one has no object
    storage: one replicable data source. *)
Definition conf1 : ConfInfo :=
  mkConf 3 "10.0.0.1"
    (Ok [mkScheduler [mkSeedPeer "10.0.0.2" 65004; mkSeedPeer "10.0.0.1" 65004;
                      mkSeedPeer "10.0.0.3" 0; mkSeedPeer "10.0.0.2" 65004]]).

Definition schedulers1 : list Scheduler :=
  [mkScheduler [mkSeedPeer "10.0.0.2" 65004; mkSeedPeer "10.0.0.1" 65004;
                mkSeedPeer "10.0.0.3" 0; mkSeedPeer "10.0.0.2" 65004]].

Definition empty_world : world := mkWorld ∅ [] [].

(** The world after [POST {name: imagenet, desc: d, replica: 1,
    cache_strategy: lru, tags: [cv, img]}] on an empty store. *)
Definition created : world :=
  world_of (CreateDataSet conf1 "imagenet" "d" 1 "lru" ["cv"; "img"]
                          "id1" 1700000000 empty_world).

Definition deleted : world := world_of (DeleteDataSet "id1" created).

(** The world after the same request without tags. *)
Definition created_untagged : world :=
  world_of (CreateDataSet conf1 "imagenet" "d" 1 "lru" [] "id2" 1700000000
                          empty_world).

(** The same dataset once its source has been registered and one replica
    cached on [10.0.0.2]: the record, and the replica directory. *)
Definition source1 : UrchinEndpoint := mkEndpoint "obs.example.com" "bkt.imagenet".
Definition cache2 : UrchinEndpoint := mkEndpoint "10.0.0.2:65004" "bkt.imagenet".

Definition stocked : world :=
  world_of
    ((let* _ := UpdateDataSetImpl conf1 "id1" "" "" 0 "" [] [source1]
                                  [cache2] 1700000100 in
      updateRedisReplicaInfo "id1" ["10.0.0.2:65004"]) created).

(** Two, and three, replicable data sources. *)
Definition conf2 : ConfInfo :=
  mkConf 5 "10.0.0.1"
    (Ok [mkScheduler [mkSeedPeer "10.0.0.2" 65004; mkSeedPeer "10.0.0.3" 65004]]).

Definition conf3 : ConfInfo :=
  mkConf 5 "10.0.0.1"
    (Ok [mkScheduler [mkSeedPeer "10.0.0.2" 65004; mkSeedPeer "10.0.0.3" 65004;
                      mkSeedPeer "10.0.0.4" 65004]]).

(** [PATCH {replica: 3}] with three replicable data sources: the world
    when [UpdateDataSetImpl] has returned, and the goroutine it started. *)
Definition scaling : world :=
  world_of (UpdateDataSetImpl conf3 "id1" "" "" 3 "" [] [] [] 1700000200 stocked).

Definition job3 : ScaleUpJob :=
  mkJob (mkDataSet "id1" "imagenet" "d" 1 "lru" ["cv"; "img"] [source1] [cache2])
        "obs.example.com" "bkt" "imagenet"
        ["10.0.0.2:65004"] ["10.0.0.3:65004"; "10.0.0.4:65004"].

(** Bodies of the answers to a check: in progress, and done. *)
Definition body_in_progress : string :=
  "{" +:+ quoted "StatusCode" +:+ ":1}".

Definition body_done : string :=
  "{" +:+ quoted "StatusCode" +:+ ":0,"
  +:+ quoted "DataEndpoint" +:+ ":" +:+ quoted "10.0.0.3:65004" +:+ ","
  +:+ quoted "DataRoot" +:+ ":" +:+ quoted "bkt" +:+ ","
  +:+ quoted "DataPath" +:+ ":" +:+ quoted "imagenet" +:+ "}".

Definition fields_in_progress : list (string * any) :=
  [("StatusCode", AnyNumber 1)].

Definition fields_done : list (string * any) :=
  [("StatusCode", AnyNumber 0); ("DataEndpoint", AnyString "10.0.0.3:65004");
   ("DataRoot", AnyString "bkt"); ("DataPath", AnyString "imagenet")].

Definition peer : string := "10.0.0.3:65004".
Definition bucket : string := "bkt.obs.example.com".
Definition object : string := "imagenet".

(** The creation-time sorted set still lists [id0], whose primary hash is
    gone, beside the dataset [id1]. *)
Definition ghosted : world :=
  world_of (redisZAdd DatasetCreateTimeKey "id0" 1690000000 created).

(** The replica directory lists two hosts while the record says one
    replica. *)
Definition overlisted : world :=
  world_of (updateRedisReplicaInfo "id1" ["10.0.0.2:65004"; "10.0.0.3:65004"]
                                   stocked).

(** The dataset once it has three replicas: the record, with its caches,
    the replica directory with its hosts, the default version without
    caches and one version with the caches of its blobs. *)
Definition cache3 : UrchinEndpoint := mkEndpoint "10.0.0.3:65004" "bkt.imagenet".
Definition cache4 : UrchinEndpoint := mkEndpoint "10.0.0.4:65004" "bkt.imagenet".

Definition hosts3 : list string :=
  ["10.0.0.2:65004"; "10.0.0.3:65004"; "10.0.0.4:65004"].

Definition version1 (metaCaches : list UrchinEndpoint)
  : urchin_dataset_vesion.UrchinDataSetVersionInfo :=
  urchin_dataset_vesion.mkVersion "v1" "first" 1700000050
    (json_Marshal_endpoints [source1]) (json_Marshal_endpoints metaCaches).

Definition replicated_with (hosts : list string)
    (caches metaCaches : list UrchinEndpoint) : world :=
  world_of
    ((let* _ := UpdateDataSetImpl conf1 "id1" "" "" 0 "" [] [source1] caches
                                  1700000100 in
      let* _ := redisSetMapElement (MakeStorageKey ["id1"] StoragePrefixDataset)
                                   "replica" "3" in
      let* _ := updateRedisReplicaInfo "id1" hosts in
      let* _ := redisSetMapElement
                  (urchin_dataset_vesion.versionKey "id1" DefaultDatasetVersion)
                  "meta_caches" (json_Marshal_endpoints []) in
      urchin_dataset_vesion.CreateDataSetVersionImpl "id1" (version1 metaCaches))
       created).

Definition replicated : world :=
  replicated_with hosts3 [cache2; cache3; cache4] [cache2; cache3; cache4].

(** The same with one host only in the directory, one cache only in the
    record, one cache only in the version. *)
Definition replicated_few_hosts : world :=
  replicated_with ["10.0.0.2:65004"] [cache2; cache3; cache4]
                  [cache2; cache3; cache4].

Definition replicated_few_caches : world :=
  replicated_with hosts3 [cache2] [cache2; cache3; cache4].

Definition replicated_short_version : world :=
  replicated_with hosts3 [cache2; cache3; cache4] [cache2].

(** The peers answer the first request with an error, the second with a
    refusal, the third with success. *)
Definition answers_failing : list http_answer :=
  [TransportError "timeout"; Response 500 "no"; Response 200 "ok"].

End Scenario.

(** What a program returned, if it did not panic. *)
Definition returned {A} (o : outcome A) : option A :=
  match o with
  | Done a _ => Some a
  | Panic _ => None
  end.

(** [emits P c]: whatever the world, [c] only adds events to the log, and
    the events it adds satisfy [P]. *)
Definition emits (P : event -> Prop) {A} (c : M A) : Prop :=
  forall w, exists evs, log (world_of (c w)) = log w ++ evs /\ Forall P evs.

Definition is_Store (e : event) : Prop :=
  match e with
  | Store _ => True
  | _ => False
  end.

(** A program that only speaks to the store: from a store it returns (or
    panics, [None]), leaves a store and logs writes, the same whatever the
    answers of the peers and the log so far. *)
Definition finish {A} (r : option A) (w : world) : outcome A :=
  match r with
  | Some a => Done a w
  | None => Panic w
  end.

Definition store_only {A} (c : M A) : Prop :=
  forall s, exists r s' evs,
    Forall is_Store evs
    /\ forall n l, c (mkWorld s n l) = finish r (mkWorld s' n (l ++ evs)).

(** The replica directory of a dataset, as [getReplicaHosts] reads it. *)
Definition storedReplicaHosts {rt : GoRuntime} (s : store) (dataSetID : string)
  : result (list string) :=
  match s !! replicaKey dataSetID with
  | None => Err "internal error: can not find dataset"
  | Some (RString value) => json_Unmarshal_strings value
  | Some _ => Err WRONGTYPE
  end.

(** A version whose [meta_caches], when they decode, are none or at least
    [wantedReplica]. *)
Definition version_ok {rt : GoRuntime} (wantedReplica : Z)
    (v : urchin_dataset_vesion.UrchinDataSetVersionInfo) : Prop :=
  forall metaCaches,
    json_Unmarshal_endpoints (urchin_dataset_vesion.MetaCaches v) = Ok metaCaches ->
    metaCaches = [] \/ wantedReplica <= Z.of_nat (List.length metaCaches).

(** A version whose [meta_caches] decode to none: the loop passes it. *)
Definition version_passed {rt : GoRuntime}
    (v : urchin_dataset_vesion.UrchinDataSetVersionInfo) : Prop :=
  json_Unmarshal_endpoints (urchin_dataset_vesion.MetaCaches v) = Ok [].

(** A version whose [meta_caches] decode to some, fewer than
    [wantedReplica] even with the spare capacity behind them. *)
Definition version_short {rt : GoRuntime} (wantedReplica : Z)
    (v : urchin_dataset_vesion.UrchinDataSetVersionInfo) : Prop :=
  exists metaCaches,
    json_Unmarshal_endpoints (urchin_dataset_vesion.MetaCaches v) = Ok metaCaches
    /\ metaCaches <> []
    /\ Z.of_nat (List.length metaCaches
                 + spare_of endpoints_spare (List.length metaCaches))
       < wantedReplica.

(** The key of a version of the dataset. *)
Definition version_key_of (dataSetID key : string) : bool :=
  String.prefix (urchin_dataset_vesion.versionKey dataSetID "") key.

(** [I] holds on, whatever is written or deleted under a key that is
    [safe]. *)
Definition stable (safe : string -> bool) (I : store -> Prop) : Prop :=
  (forall s k v, safe k = true -> I s -> I (<[k := v]> s))
  /\ (forall s k, safe k = true -> I s -> I (delete k s)).

(** [hoare P c Q]: from a store that satisfies [P], whatever the peers
    answer, [c] returns (it does not panic) and what it returns and the
    store it leaves satisfy [Q]. *)
Definition hoare {A} (P : store -> Prop) (c : M A) (Q : A -> store -> Prop)
  : Prop :=
  forall w, P (kv w) -> exists a w', c w = Done a w' /\ Q a (kv w').

(** [c] occurs in [s]. *)
Fixpoint has_char (c : ascii) (s : string) : bool :=
  match s with
  | EmptyString => false
  | String x r => Ascii.eqb x c || has_char c r
  end.

(** The fields [CreateDataSet] writes into the primary hash. *)
Definition createdFields (dataSetName dataSetDesc : string) (replica : Z)
    (cacheStrategy : string) (dataSetTags : list string) (dataSetID : string)
    (curTime : Z) : list (string * string) :=
  [("id", dataSetID); ("name", dataSetName); ("desc", dataSetDesc);
   ("replica", if replica <=? 0 then strconv_FormatInt 1
               else strconv_FormatUint replica);
   ("cache_strategy", cacheStrategy);
   ("tags", strings_Join dataSetTags "_");
   ("share_blob_sources", "[]"); ("share_blob_caches", "[]");
   ("replica_state", strconv_FormatInt ReplicaNoScale);
   ("create_time", strconv_FormatInt curTime);
   ("update_time", strconv_FormatInt curTime)].

(** The events a run from [before] has added to the log. *)
Definition added {A} (before : world) (o : outcome A) : list event :=
  skipn (List.length (log before)) (log (world_of o)).

Definition http_requests (evs : list event) : list request :=
  omap (fun e => match e with Http r => Some r | _ => None end) evs.

(** The requests of the seed-peer client. *)
Definition cacheRequest (seedPeerHost bucketName folderKey : string) : request :=
  mkRequest "POST" seedPeerHost
    (filepath_Join ["buckets"; bucketName; "cache_folder"; folderKey]).
Definition checkRequest (seedPeerHost bucketName folderKey : string) : request :=
  mkRequest "GET" seedPeerHost
    (filepath_Join ["buckets"; bucketName; "check_folder"; folderKey]).
Definition destroyRequest (seedPeerHost bucketName folderKey : string) : request :=
  mkRequest "DELETE" seedPeerHost
    (filepath_Join ["buckets"; bucketName; "destroy_folder"; folderKey]).

(** The keys of a dataset in the store (section 6 of the spec). *)
Definition datasetKey (dataSetID : string) : string :=
  MakeStorageKey [dataSetID] StoragePrefixDataset.
Definition nameIndexKey (dataSetID name : string) : string :=
  MakeStorageKey [dataSetID; "match_prefix_name"; name] StoragePrefixDataset.
Definition tagsIndexKey (dataSetID tags : string) : string :=
  MakeStorageKey [dataSetID; "match_prefix_tags"; tags] StoragePrefixDataset.

(** A member of a sorted set of the store. *)
Definition zset_member (s : store) (key member : string) : bool :=
  match s !! key with
  | Some (RZSet z) => bool_decide (is_Some (z !! member))
  | _ => false
  end.

(** ** The listing with a search key or an order: its helpers

    [unionMap], [InterMap], [MapToSlice], [MatchZSetMemberByCreateTime] and
    [MatchKeysByPrefix] of urchin_dataset.go. *)

Section SearchSets.

(** [for k, v := range m]: the entries of a map in the order in which one
    loop visits them; Go leaves the order open. *)
Variable range : gmap string bool -> list (string * bool).

Definition unionMap (m1 m2 : gmap string bool) : gmap string bool :=
  let result : gmap string bool :=
    fold_left (fun result kv => <[kv.1 := kv.2]> result) (range m1) ∅ in
  fold_left (fun result kv =>
               match result !! kv.1 with
               | Some _ => result
               | None => <[kv.1 := kv.2]> result
               end)
            (range m2) result.

Definition InterMap (m1 m2 : gmap string bool) : gmap string bool :=
  fold_left (fun result kv =>
               match m2 !! kv.1 with
               | Some _ => <[kv.1 := kv.2]> result
               | None => result
               end)
            (range m1) ∅.

Definition MapToSlice (m : gmap string bool) : list string :=
  fold_left (fun s kv => s ++ [kv.1]) (range m) [].

(** The ids that [ListDataSets] writes to the temporary set when a search
    key is given: from [matchCreateTime := make(map[string]bool)] to
    [matchSlice := MapToSlice(matchMap)]. *)
Definition searchMatches (matchName matchTags : gmap string bool)
    (createdAtLess createdAtGreater : Z) (matchResult : list string)
  : list string :=
  let matchCreateTime : gmap string bool :=
    fold_left (fun m member => <[member := true]> m) matchResult ∅ in
  let matchMap := unionMap matchName matchTags in
  let matchMap :=
    if negb (createdAtLess =? 0) || negb (createdAtGreater =? 0)
    then InterMap matchMap matchCreateTime
    else matchMap in
  MapToSlice matchMap.

End SearchSets.

(** The loop of [MatchZSetMemberByCreateTime], page after page; [None] when
    [fuel] rounds have not ended it.  The value of [*matchResult] comes
    with the error. *)
Fixpoint matchZSetPages (fuel : nat) (zsetKey : string)
    (rangeLower rangeUpper offset count : Z) (matchResult : list string)
  : M (option (option error * list string)) :=
  match fuel with
  | O => ret None
  | S fuel =>
      let* got := redisZRangeByScore zsetKey rangeLower rangeUpper offset count in
      match got with
      | Err err => ret (Some (Some err, matchResult))
      | Ok members =>
          let matchResult := matchResult ++ members in
          if Z.of_nat (List.length members) <=? 0
          then ret (Some (None, matchResult))
          else matchZSetPages fuel zsetKey rangeLower rangeUpper
                              (offset + count) count matchResult
      end
  end.

(** [now] is [time.Now().Unix()]. *)
Definition MatchZSetMemberByCreateTime (fuel : nat)
    (createdAtLess createdAtGreater : Z) (zsetKey : string)
    (matchResult : list string) (now : Z)
  : M (option (option error * list string)) :=
  let rangeUpper := if negb (createdAtLess =? 0) then createdAtLess else now + 1 in
  let rangeLower := if negb (createdAtGreater =? 0) then createdAtGreater else 0 in
  matchZSetPages fuel zsetKey rangeLower rangeUpper 0 100 matchResult.

Section Scan.

(** Modelled from the spec: [RedisStorage.Scan], the scan of section 4.1
    ([scan(cursor, pattern, batch)], a cooperative cursor that ends when
    the cursor returned is 0), is not among the sources; it may give any
    keys and any cursor. *)
Variable kv_Scan : store -> Z -> string -> Z -> result (list string * Z).

(** The inner loop [for _, member := range members]:
    [matchResult[segments[2]] = true]; the index expression panics when
    the key has fewer than three segments. *)
Fixpoint matchMembers (members : list string) (matchResult : gmap string bool)
  : M (gmap string bool) :=
  match members with
  | [] => ret matchResult
  | member :: rest =>
      let segments := strings_Split member ":" in
      match nth_error segments 2 with
      | Some segment => matchMembers rest (<[segment := true]> matchResult)
      | None => panic
      end
  end.

(** The loop [for { ... }] of [MatchKeysByPrefix].  The short variable
    declaration [members, cursor, err := redisClient.Scan(cursor, prefix,
    100)] declares a [cursor] of the loop body: the [cursor] given to
    [Scan] is the one declared before the loop, which is never assigned
    and stays 0; the test [cursor == 0] reads the one of the body.  [None]
    when [fuel] rounds have not ended the loop. *)
Fixpoint MatchKeysByPrefix (fuel : nat) (prefix : string)
    (matchResult : gmap string bool)
  : M (option (option error * gmap string bool)) :=
  let cursor := 0 in
  match fuel with
  | O => ret None
  | S fuel =>
      let* got := store_read (fun s => kv_Scan s cursor prefix 100) in
      match got with
      | Err err => ret (Some (Some err, matchResult))
      | Ok (members, cursor') =>
          let* matchResult := matchMembers members matchResult in
          if cursor' =? 0 then ret (Some (None, matchResult))
          else MatchKeysByPrefix fuel prefix matchResult
      end
  end.

End Scan.

(** The patterns of the two scans of [ListDataSets]. *)
Definition namePattern (searchKey : string) : string :=
  StoragePrefixDataset +:+ "*" +:+ "match_prefix_name:*" +:+ searchKey +:+ "*".
Definition tagsPattern (searchKey : string) : string :=
  StoragePrefixDataset +:+ "*" +:+ "match_prefix_tags:*" +:+ searchKey +:+ "*".

(** * Properties *)

(** ** Go values *)

Lemma int_of_uint_small (u : Z) : 0 <= u < 2 ^ 63 -> int_of_uint u = u.
Proof.
  intros [_ Hu]. unfold int_of_uint.
  destruct (Z.ltb_spec u (2 ^ 63)); [reflexivity | lia].
Qed.

Lemma int_of_uint_large (u : Z) : 2 ^ 63 <= u < 2 ^ 64 -> int_of_uint u < 0.
Proof.
  intros [Hl Hu]. unfold int_of_uint.
  destruct (Z.ltb_spec u (2 ^ 63)); lia.
Qed.

(** ** validateReplica *)

Section ValidateReplica.

Context {rt : GoRuntime}.

Lemma GetReplicableDataSources_length conf schedulers l :
  GetReplicableDataSources (Ok schedulers) (AdvertiseIP conf) = Ok l ->
  Z.of_nat (List.length l) = replicableCount conf schedulers.
Proof.
  cbn. intros [= <-]. unfold replicableCount.
  f_equal. apply Permutation_length, rand_Shuffle_perm.
Qed.

(** C1 (as amended).  [validateReplica(wanted)] returns no error exactly
    when [wanted <= min(MaxReplicas, number of replicable data sources)];
    there is no lower bound, so [wanted = 0] is accepted.  [wanted] is a
    [uint], Dynconfig answers, and the hosts fit a Go slice. *)
Theorem C1_validateReplica_accepts_iff conf schedulers wanted :
  GetSchedulers conf = Ok schedulers ->
  0 <= wanted < 2 ^ 64 ->
  replicableCount conf schedulers < 2 ^ 63 ->
  validateReplica conf wanted = None
  <-> wanted <= Z.min (MaxReplicas conf) (replicableCount conf schedulers).
Proof.
  intros Hs Hw Hc. unfold validateReplica. rewrite Hs.
  destruct (GetReplicableDataSources (Ok schedulers) (AdvertiseIP conf))
    as [l|e] eqn:Hl; [|discriminate Hl].
  rewrite (GetReplicableDataSources_length _ _ _ Hl).
  destruct (Z.ltb_spec (MaxReplicas conf) (int_of_uint wanted)) as [Hm|Hm].
  - split; [discriminate|]. intros Hle. exfalso.
    rewrite int_of_uint_small in Hm by lia. lia.
  - destruct (Z.ltb_spec (replicableCount conf schedulers) wanted) as [Hn|Hn].
    + split; [discriminate|]. lia.
    + split; [intros _|reflexivity].
      rewrite int_of_uint_small in Hm by lia. lia.
Qed.

End ValidateReplica.

(** C1, witness: one replicable data source, [MaxReplicas = 3], one replica
    wanted. *)
Lemma C1_validateReplica_accepts_iff_witness :
  validateReplica (rt := Reference.runtime) Scenario.conf1 1 = None
  <-> 1 <= Z.min (MaxReplicas Scenario.conf1)
                 (replicableCount Scenario.conf1 Scenario.schedulers1).
Proof.
  apply (C1_validateReplica_accepts_iff (rt := Reference.runtime)
           Scenario.conf1 Scenario.schedulers1 1).
  - reflexivity.
  - lia.
  - vm_compute. reflexivity.
Defined.

(** C1, counterexample: with one replicable data source and
    [MaxReplicas = 3], [validateReplica(0)] returns no error although
    [0 < 0] does not hold. *)
Lemma C1_counterexample :
  ~ (validateReplica (rt := Reference.runtime) Scenario.conf1 0 = None
     <-> 0 < 0 <= Z.min (MaxReplicas Scenario.conf1)
                        (replicableCount Scenario.conf1 Scenario.schedulers1)).
Proof.
  intros [H _]. assert (0 < 0) by (apply H; vm_compute; reflexivity). lia.
Qed.

(** ** Programs *)

Lemma world_eta (w : world) : mkWorld (kv w) (net w) (log w) = w.
Proof. now destruct w. Qed.

Section StoreOnly.

Lemma store_only_ret {A} (a : A) : store_only (ret a).
Proof.
  intros s. exists (Some a), s, []. split; [constructor|].
  intros n l. now rewrite app_nil_r.
Qed.

Lemma store_only_panic {A} : store_only (@panic A).
Proof.
  intros s. exists None, s, []. split; [constructor|].
  intros n l. now rewrite app_nil_r.
Qed.

Lemma store_only_bind {A B} (c : M A) (k : A -> M B) :
  store_only c -> (forall a, store_only (k a)) -> store_only (bind c k).
Proof.
  intros Hc Hk s. destruct (Hc s) as (r & s' & evs & Hevs & Hrun).
  destruct r as [a|].
  - destruct (Hk a s') as (r2 & s'' & evs2 & Hevs2 & Hrun2).
    exists r2, s'', (evs ++ evs2). split; [now apply Forall_app|].
    intros n l. unfold bind. rewrite Hrun. cbn. rewrite Hrun2.
    now rewrite app_assoc.
  - exists None, s', evs. split; [assumption|].
    intros n l. unfold bind. now rewrite Hrun.
Qed.

Lemma store_only_read {A} (f : store -> result A) : store_only (store_read f).
Proof.
  intros s. exists (Some (f s)), s, []. split; [constructor|].
  intros n l. unfold store_read. cbn. now rewrite app_nil_r.
Qed.

Lemma store_only_write (c : command) (f : store -> result store) :
  store_only (store_write c f).
Proof.
  intros s. destruct (f s) as [s'|e] eqn:Hf.
  - exists (Some None), s', [Store c]. split; [repeat constructor|].
    intros n l. unfold store_write. cbn. now rewrite Hf.
  - exists (Some (Some e)), s, []. split; [constructor|].
    intros n l. unfold store_write. cbn. now rewrite Hf, app_nil_r.
Qed.

Lemma store_only_sliced {A} (o : option (list A)) : store_only (sliced o).
Proof. destruct o; [apply store_only_ret | apply store_only_panic]. Qed.

Lemma store_only_when b c : store_only c -> store_only (when b c).
Proof. destruct b; [auto | intros _; apply store_only_ret]. Qed.

Lemma store_only_orReturn c k :
  store_only c -> store_only k -> store_only (orReturn c k).
Proof.
  intros Hc Hk. apply store_only_bind; [assumption|].
  intros [e|]; [apply store_only_ret | assumption].
Qed.

Lemma store_only_forEach {A} (body : A -> M (option error)) l :
  (forall x, store_only (body x)) -> store_only (forEach body l).
Proof.
  intros Hb. induction l as [|x l IH]; cbn.
  - apply store_only_ret.
  - now apply store_only_orReturn.
Qed.

Lemma store_only_defer {A} (d : M unit) (body : M A) :
  store_only d -> store_only body -> store_only (defer d body).
Proof.
  intros Hd Hb s. destruct (Hb s) as (r & s' & evs & Hevs & Hrun).
  destruct (Hd s') as (r2 & s'' & evs2 & Hevs2 & Hrun2).
  exists (match r, r2 with Some a, Some _ => Some a | _, _ => None end),
    s'', (evs ++ evs2).
  split; [now apply Forall_app|].
  intros n l. unfold defer. rewrite Hrun.
  destruct r as [a|]; cbn; rewrite Hrun2, app_assoc; now destruct r2.
Qed.

(** What follows for a run. *)
Lemma store_only_run {A} (c : M A) w :
  store_only c ->
  exists evs,
    net (world_of (c w)) = net w
    /\ log (world_of (c w)) = log w ++ evs
    /\ Forall is_Store evs
    /\ forall n l,
         returned (c (mkWorld (kv w) n l)) = returned (c w)
         /\ kv (world_of (c (mkWorld (kv w) n l))) = kv (world_of (c w))
         /\ net (world_of (c (mkWorld (kv w) n l))) = n
         /\ log (world_of (c (mkWorld (kv w) n l))) = l ++ evs.
Proof.
  intros Hc. destruct (Hc (kv w)) as (r & s' & evs & Hevs & Hrun).
  exists evs.
  assert (Hw : c w = finish r (mkWorld s' (net w) (log w ++ evs))).
  { rewrite <- (world_eta w) at 1. apply Hrun. }
  rewrite Hw.
  repeat split; try (destruct r; reflexivity); try assumption.
  all: rewrite Hrun; destruct r; reflexivity.
Qed.

End StoreOnly.

Create HintDb urchin_store.

#[local] Hint Unfold redisGet redisExists redisReadMap redisGetMapElement
  redisZRangeByScore redisZRevRangeByScore redisSet redisDel
  redisSetMapElement redisSetMapElements redisDeleteMap redisZAdd redisZRem
  urchin_dataset_vesion.CreateDataSetVersionImpl
  urchin_dataset_vesion.UpdateDataSetVersionImpl
  urchin_dataset_vesion.ListAllDataSetVersions : urchin_store.

Ltac store_only_step :=
  lazymatch goal with
  | |- store_only (ret _) => apply store_only_ret
  | |- store_only panic => apply store_only_panic
  | |- store_only (store_read _) => apply store_only_read
  | |- store_only (store_write _ _) => apply store_only_write
  | |- store_only (sliced _) => apply store_only_sliced
  | |- store_only (when _ _) => apply store_only_when
  | |- store_only (orReturn _ _) => apply store_only_orReturn
  | |- store_only (defer _ _) => apply store_only_defer
  | |- store_only (forEach _ _) => apply store_only_forEach; intros ?
  | |- store_only (bind _ _) => apply store_only_bind; [|intros ?]
  | |- store_only (match ?x with _ => _ end) => destruct x
  end.

Ltac solve_store_only :=
  autounfold with urchin_store; repeat store_only_step.

Section StoreOnlyPrograms.

Context {rt : GoRuntime}.

Lemma store_only_setReplicaState dataSetID state :
  store_only (setReplicaState dataSetID state).
Proof. unfold setReplicaState. solve_store_only. Qed.

Lemma store_only_getReplicaHosts dataSetID :
  store_only (getReplicaHosts dataSetID).
Proof. unfold getReplicaHosts. solve_store_only. Qed.

Lemma store_only_GetDataSetImpl dataSetID :
  store_only (GetDataSetImpl dataSetID).
Proof. unfold GetDataSetImpl. solve_store_only. Qed.

Lemma store_only_getDataSetById dataSetID :
  store_only (getDataSetById dataSetID).
Proof. unfold getDataSetById. solve_store_only. Qed.

Lemma store_only_selectScaleDownReplicaHosts dataSetID wantedReplica :
  store_only (selectScaleDownReplicaHosts dataSetID wantedReplica).
Proof.
  unfold selectScaleDownReplicaHosts.
  apply store_only_bind; [apply store_only_getReplicaHosts|].
  intros ?. solve_store_only.
Qed.

Lemma store_only_selectScaleUpReplicaHosts conf dataSetID wantedReplica nowReplica :
  store_only (selectScaleUpReplicaHosts conf dataSetID wantedReplica nowReplica).
Proof.
  unfold selectScaleUpReplicaHosts.
  apply store_only_bind; [apply store_only_getReplicaHosts|].
  intros ?. solve_store_only.
Qed.

Lemma store_only_updateRedisReplicaInfo dataSetID newReplicaHosts :
  store_only (updateRedisReplicaInfo dataSetID newReplicaHosts).
Proof. unfold updateRedisReplicaInfo. solve_store_only. Qed.

Lemma store_only_updateDataSetFunc dataSetID dataSetName dataSetDesc
    wantedReplica cacheStrategy dataSetTags shareBlobSources shareBlobCaches
    curTime :
  store_only (updateDataSetFunc dataSetID dataSetName dataSetDesc wantedReplica
                cacheStrategy dataSetTags shareBlobSources shareBlobCaches
                curTime).
Proof. unfold updateDataSetFunc. solve_store_only. Qed.

Lemma store_only_scaleDownDatasetVersionInfo dataSetID wantedReplica :
  store_only (scaleDownDatasetVersionInfo dataSetID wantedReplica).
Proof.
  unfold scaleDownDatasetVersionInfo, scaleDownVersion. solve_store_only.
Qed.

Lemma store_only_scaleUpDatasetVersionInfo dataSetID scaleUpCachesEndpoint :
  store_only (scaleUpDatasetVersionInfo dataSetID scaleUpCachesEndpoint).
Proof.
  unfold scaleUpDatasetVersionInfo, scaleUpVersion. solve_store_only.
Qed.

End StoreOnlyPrograms.

(** ** The store *)

Lemma append_cons (c : ascii) (a b : string) :
  String c a +:+ b = String c (a +:+ b).
Proof. reflexivity. Qed.

Lemma append_cancel (p a b : string) : p +:+ a = p +:+ b -> a = b.
Proof. apply String.app_inj. Qed.

Lemma append_empty_r (a : string) : a +:+ "" = a.
Proof.
  induction a as [|c a IH]; [reflexivity | now rewrite append_cons, IH].
Qed.

Lemma append_not_self (a b : string) : b <> "" -> a +:+ b <> a.
Proof.
  intros Hb H. apply Hb. apply (append_cancel a).
  now rewrite H, append_empty_r.
Qed.

Lemma append_assoc (a b c : string) : (a +:+ b) +:+ c = a +:+ (b +:+ c).
Proof.
  induction a as [|x a IH]; [reflexivity | now rewrite !append_cons, IH].
Qed.

Lemma index_key_not_datasetKey dataSetID kind value :
  MakeStorageKey [dataSetID; kind; value] StoragePrefixDataset
  <> datasetKey dataSetID.
Proof.
  unfold datasetKey, MakeStorageKey. cbn [String.eqb Ascii.eqb Bool.eqb strings_Join].
  intros H. apply append_cancel in H. apply append_cancel in H.
  revert H. apply append_not_self. discriminate.
Qed.

Lemma kv_DeleteMap_Ok s key s' : kv_DeleteMap s key = Ok s' -> s' = delete key s.
Proof. unfold kv_DeleteMap. repeat case_match; congruence. Qed.

Lemma lookup_delete_absent (s : store) (key k : string) :
  s !! k = None -> delete key s !! k = None.
Proof. intros H. rewrite lookup_delete. destruct (decide (key = k)); auto. Qed.

Lemma kv_ZRem_absent s key member s' k :
  kv_ZRem s key member = Ok s' -> s !! k = None -> s' !! k = None.
Proof.
  unfold kv_ZRem. intros H Hk. repeat case_match; simplify_eq; auto.
  - now apply lookup_delete_absent.
  - rewrite lookup_insert. destruct (decide (key = k)); [subst; congruence | auto].
Qed.

Lemma kv_ZRem_member s key member s' :
  kv_ZRem s key member = Ok s' -> zset_member s' key member = false.
Proof.
  unfold kv_ZRem, zset_member. intros H.
  destruct (s !! key) as [[v|h|z|l]|] eqn:Hs; simplify_eq.
  - destruct (bool_decide (delete member z = ∅)).
    + now rewrite lookup_delete_eq.
    + rewrite lookup_insert_eq, lookup_delete_eq.
      apply bool_decide_eq_false. intros [? ?]. congruence.
  - now rewrite Hs.
Qed.

Lemma zset_member_delete s k key member :
  zset_member s key member = false ->
  zset_member (delete k s) key member = false.
Proof.
  unfold zset_member. rewrite lookup_delete. destruct (decide (k = key)); auto.
Qed.

Lemma zset_member_Err s key member e :
  kv_ZRem s key member = Err e -> zset_member s key member = false.
Proof.
  unfold kv_ZRem, zset_member.
  destruct (s !! key) as [[v|h|z|l]|]; congruence.
Qed.

Lemma nonempty_true (s : string) : nonempty s = true <-> s <> "".
Proof.
  unfold nonempty. destruct (String.eqb_spec s ""); cbn; split; intros; congruence.
Qed.

Section Catalogue.

Context {rt : GoRuntime}.

(** The slip of [GetDataSetImpl]: when the hash read has no [id] equal to
    the one asked for, [err] is returned while it is [nil]. *)
Lemma GetDataSetImpl_no_match dataSetID w elements :
  dataSetID <> "" ->
  kv_ReadMap (kv w) (datasetKey dataSetID) = Ok elements ->
  default "" (elements !! "id") <> dataSetID ->
  GetDataSetImpl dataSetID w = Done (Ok UrchinDataSetInfo_zero) w.
Proof.
  intros Hid Hread Hne. unfold GetDataSetImpl.
  destruct (String.eqb_spec dataSetID ""); [contradiction|].
  unfold bind, redisReadMap, store_read. fold (datasetKey dataSetID).
  rewrite Hread.
  destruct (String.eqb_spec (default "" (elements !! "id")) dataSetID);
    [contradiction | reflexivity].
Qed.

Lemma GetDataSetImpl_absent dataSetID w :
  dataSetID <> "" ->
  kv w !! datasetKey dataSetID = None ->
  GetDataSetImpl dataSetID w = Done (Ok UrchinDataSetInfo_zero) w.
Proof.
  intros Hid Habs. apply (GetDataSetImpl_no_match _ _ ∅); [assumption| |].
  - unfold kv_ReadMap. now rewrite Habs.
  - rewrite lookup_empty. cbn. congruence.
Qed.

(** What the index deletions of [DeleteDataSet] leave of the store. *)
Lemma DeleteDataSet_tail dataSetID w0 w' :
  dataSetID <> "" ->
  (let* _ := redisZRem DatasetCreateTimeKey dataSetID in
   let* err := redisDeleteMap (datasetKey dataSetID) in
   match err with
   | Some e => ret (StatusError StatusInternalServerError e)
   | None =>
       let* err := redisDel (datasetKey dataSetID) in
       match err with
       | Some e => ret (StatusError StatusInternalServerError e)
       | None => ret (StatusOK tt)
       end
   end) w0 = Done (StatusOK tt) w' ->
  kv w' !! datasetKey dataSetID = None
  /\ (forall k, kv w0 !! k = None -> kv w' !! k = None)
  /\ zset_member (kv w') DatasetCreateTimeKey dataSetID = false.
Proof.
  intros Hid H.
  unfold bind, ret, redisDel, redisZRem, redisDeleteMap, store_write, kv_Del in H.
  cbn [kv net log] in H.
  destruct (kv_ZRem (kv w0) DatasetCreateTimeKey dataSetID) as [s1|e] eqn:Hz;
    cbn [kv net log] in H.
  - destruct (kv_DeleteMap s1 (datasetKey dataSetID)) as [s2|e] eqn:Hd;
      cbn [kv net log] in H; [|discriminate].
    apply kv_DeleteMap_Ok in Hd. simplify_eq. cbn [kv].
    split; [apply lookup_delete_eq|]. split.
    + intros k Hk. do 2 apply lookup_delete_absent.
      eapply kv_ZRem_absent; eauto.
    + do 2 apply zset_member_delete. eapply kv_ZRem_member; eauto.
  - destruct (kv_DeleteMap (kv w0) (datasetKey dataSetID)) as [s2|e'] eqn:Hd;
      cbn [kv net log] in H; [|discriminate].
    apply kv_DeleteMap_Ok in Hd. simplify_eq. cbn [kv].
    split; [apply lookup_delete_eq|]. split.
    + intros k Hk. now do 2 apply lookup_delete_absent.
    + do 2 apply zset_member_delete. eapply zset_member_Err; eauto.
Qed.

(** C2 (what the code does).  After [DeleteDataSet(id)] has answered 200
    the primary hash of [id], the name-prefix key and the tag-prefix key
    of the stored name and tags, and the entry of [id] in the
    creation-time sorted set are gone; [GetDataSetImpl(id)] then returns
    the zero record with a nil error, not an error. *)
Theorem C2_get_after_delete_returns_nil_error dataSetID w w' :
  dataSetID <> "" ->
  DeleteDataSet dataSetID w = Done (StatusOK tt) w' ->
  kv w' !! datasetKey dataSetID = None
  /\ (forall name, kv_GetMapElement (kv w) (datasetKey dataSetID) "name" = Ok name ->
                   name <> "" -> kv w' !! nameIndexKey dataSetID name = None)
  /\ (forall tags, kv_GetMapElement (kv w) (datasetKey dataSetID) "tags" = Ok tags ->
                   tags <> "" -> kv w' !! tagsIndexKey dataSetID tags = None)
  /\ zset_member (kv w') DatasetCreateTimeKey dataSetID = false
  /\ GetDataSetImpl dataSetID w' = Done (Ok UrchinDataSetInfo_zero) w'.
Proof.
  intros Hid H. unfold DeleteDataSet in H.
  fold (datasetKey dataSetID) in H.
  unfold bind at 1 in H. unfold redisGetMapElement at 1, store_read at 1 in H.
  destruct (kv_GetMapElement (kv w) (datasetKey dataSetID) "name")
    as [name|] eqn:Hname; [|discriminate].
  unfold bind at 1 in H.
  fold (nameIndexKey dataSetID name) in H.
  destruct (when (nonempty name) (redisDel (nameIndexKey dataSetID name)) w)
    as [e1 w1|] eqn:H1; [|discriminate].
  assert (Hw1 : (name <> "" -> kv w1 !! nameIndexKey dataSetID name = None)
                /\ (forall k, kv w !! k = None -> kv w1 !! k = None)
                /\ kv_GetMapElement (kv w1) (datasetKey dataSetID) "tags"
                   = kv_GetMapElement (kv w) (datasetKey dataSetID) "tags").
  { unfold when in H1. destruct (nonempty name) eqn:Hn.
    - unfold redisDel, store_write, kv_Del in H1. simplify_eq. cbn [kv].
      split; [intros _; apply lookup_delete_eq|]. split.
      + intros k. apply lookup_delete_absent.
      + unfold kv_GetMapElement. rewrite lookup_delete_ne; [reflexivity|].
        apply index_key_not_datasetKey.
    - unfold ret in H1. simplify_eq. split; [|auto].
      intros Hne. apply nonempty_true in Hne. congruence. }
  destruct Hw1 as (Hn1 & Hk1 & Ht1).
  unfold bind at 1 in H. unfold redisGetMapElement at 1, store_read at 1 in H.
  rewrite Ht1 in H.
  destruct (kv_GetMapElement (kv w) (datasetKey dataSetID) "tags")
    as [tags|] eqn:Htags; [|discriminate].
  unfold bind at 1 in H.
  fold (tagsIndexKey dataSetID tags) in H.
  destruct (when (nonempty tags) (redisDel (tagsIndexKey dataSetID tags)) w1)
    as [e2 w2|] eqn:H2; [|discriminate].
  assert (Hw2 : (tags <> "" -> kv w2 !! tagsIndexKey dataSetID tags = None)
                /\ (forall k, kv w1 !! k = None -> kv w2 !! k = None)).
  { unfold when in H2. destruct (nonempty tags) eqn:Hn.
    - unfold redisDel, store_write, kv_Del in H2. simplify_eq. cbn [kv].
      split; [intros _; apply lookup_delete_eq|].
      intros k. apply lookup_delete_absent.
    - unfold ret in H2. simplify_eq. split; [|auto].
      intros Hne. apply nonempty_true in Hne. congruence. }
  destruct Hw2 as (Hn2 & Hk2).
  apply (DeleteDataSet_tail dataSetID w2 w' Hid) in H.
  destruct H as (Hd & Hk3 & Hz).
  repeat split.
  - assumption.
  - intros ? [= <-] Hne. auto.
  - intros ? Heq Hne. injection Heq as <-. auto.
  - assumption.
  - now apply GetDataSetImpl_absent.
Qed.

End Catalogue.

(** C2, witness: the dataset of the first scenario, created and then
    deleted. *)
Lemma C2_get_after_delete_returns_nil_error_witness :
  kv Scenario.deleted !! datasetKey "id1" = None
  /\ (forall name,
        kv_GetMapElement (kv Scenario.created) (datasetKey "id1") "name" = Ok name ->
        name <> "" -> kv Scenario.deleted !! nameIndexKey "id1" name = None)
  /\ (forall tags,
        kv_GetMapElement (kv Scenario.created) (datasetKey "id1") "tags" = Ok tags ->
        tags <> "" -> kv Scenario.deleted !! tagsIndexKey "id1" tags = None)
  /\ zset_member (kv Scenario.deleted) DatasetCreateTimeKey "id1" = false
  /\ GetDataSetImpl (rt := Reference.runtime) "id1" Scenario.deleted
     = Done (Ok UrchinDataSetInfo_zero) Scenario.deleted.
Proof.
  apply (C2_get_after_delete_returns_nil_error (rt := Reference.runtime)
           "id1" Scenario.created Scenario.deleted).
  - discriminate.
  - vm_compute. reflexivity.
Defined.

(** ** The replica controller *)

Lemma replicaKey_not_datasetKey a b : replicaKey a <> datasetKey b.
Proof. unfold replicaKey, datasetKey, MakeStorageKey. cbn. discriminate. Qed.

Section ScaleUp.

Context {rt : GoRuntime}.

Lemma setReplicaState_run dataSetID state w h :
  kv w !! datasetKey dataSetID = Some (RHash h) ->
  setReplicaState dataSetID state w
  = Done None
      (mkWorld (<[datasetKey dataSetID :=
                    RHash (list_to_map [("replica_state", strconv_FormatInt state)] ∪ h)]>
                  (kv w))
               (net w)
               (log w ++ [Store (HMSET (datasetKey dataSetID)
                                       [("replica_state", strconv_FormatInt state)])])).
Proof.
  intros Hh. unfold setReplicaState, redisSetMapElement, store_write,
    kv_SetMapElement, kv_SetMapElements.
  fold (datasetKey dataSetID). now rewrite Hh.
Qed.

Lemma GetDataSetImpl_readonly dataSetID w :
  exists r, GetDataSetImpl dataSetID w = Done r w.
Proof.
  unfold GetDataSetImpl, bind, redisReadMap, store_read, ret.
  repeat case_match; eauto.
Qed.

Lemma getReplicaHosts_readonly dataSetID w :
  exists r, getReplicaHosts dataSetID w = Done r w.
Proof.
  unfold getReplicaHosts, bind, redisExists, redisGet, store_read, ret.
  repeat case_match; eauto.
Qed.

(** The guard of [selectScaleUpReplicaHosts]: more replicas wanted than
    there are replicable data sources is an error, whatever the replica
    directory holds. *)
Lemma selectScaleUpReplicaHosts_guard conf schedulers dataSetID wanted now w :
  GetSchedulers conf = Ok schedulers ->
  replicableCount conf schedulers < wanted ->
  exists e, selectScaleUpReplicaHosts conf dataSetID wanted now w = Done (Err e) w.
Proof.
  intros Hs Hc. unfold selectScaleUpReplicaHosts, bind.
  destruct (getReplicaHosts_readonly dataSetID w) as [r ->].
  destruct r as [hosts|e]; [|eexists; reflexivity].
  rewrite Hs.
  destruct (GetReplicableDataSources (Ok schedulers) (AdvertiseIP conf))
    as [l|e] eqn:Hl; [|discriminate Hl].
  rewrite (GetReplicableDataSources_length _ _ _ Hl).
  destruct (Z.ltb_spec (replicableCount conf schedulers) wanted); [|lia].
  eexists; reflexivity.
Qed.

(** C3 (what the code does).  A replica update to more replicas than
    there are replicable data sources -- and so to more than the
    candidates left beside the current hosts can serve -- is stopped by
    [selectScaleUpReplicaHosts]; [UpdateDataSetImpl] then resets
    [replica_state] to NoScale and returns the error of that reset, nil,
    not the error of the selection; no goroutine is started. *)
Theorem C3_scale_up_beyond_replicable_returns_nil conf schedulers
    dataSetID dataSetName dataSetDesc wanted cacheStrategy dataSetTags
    shareBlobSources shareBlobCaches curTime w old h source0 rest
    bucketName folderKey tl :
  GetDataSetImpl dataSetID w = Done (Ok old) w ->
  kv w !! datasetKey dataSetID = Some (RHash h) ->
  ShareBlobSources old = source0 :: rest ->
  strings_SplitN2 (EndpointPath source0) "." = bucketName :: folderKey :: tl ->
  0 < wanted -> Replica old < wanted ->
  GetSchedulers conf = Ok schedulers ->
  replicableCount conf schedulers < wanted ->
  let o := UpdateDataSetImpl conf dataSetID dataSetName dataSetDesc wanted
             cacheStrategy dataSetTags shareBlobSources shareBlobCaches
             curTime w in
  returned o = Some (None, None)
  /\ kv_GetMapElement (kv (world_of o)) (datasetKey dataSetID) "replica_state"
     = Ok (strconv_FormatInt ReplicaNoScale)
  /\ net (world_of o) = net w.
Proof.
  intros Hget Hh Hsrc Hsplit Hpos Hlt Hs Hc o.
  assert (Hrun : exists s l,
             o = Done (None, None) (mkWorld s (net w) l)
             /\ kv_GetMapElement s (datasetKey dataSetID) "replica_state"
                = Ok (strconv_FormatInt ReplicaNoScale)).
  { subst o. unfold UpdateDataSetImpl, bind at 1. rewrite Hget.
    destruct (Z.ltb_spec 0 wanted); [|lia].
    destruct (Z.eqb_spec (Replica old) wanted); [lia|]. cbn [andb negb].
    rewrite Hsrc, Hsplit.
    destruct (Z.ltb_spec wanted (Replica old)); [lia|].
    unfold scaleUp, bind at 1.
    rewrite (setReplicaState_run _ _ _ _ Hh).
    set (w1 := mkWorld _ _ _).
    unfold bind at 1.
    destruct (selectScaleUpReplicaHosts_guard conf schedulers dataSetID wanted
                (Replica old) w1 Hs Hc) as [e ->].
    unfold bind at 1.
    assert (Hh1 : kv w1 !! datasetKey dataSetID
                  = Some (RHash (list_to_map
                                   [("replica_state",
                                     strconv_FormatInt ReplicaScaleUP)] ∪ h))).
    { subst w1. cbn [kv]. apply lookup_insert_eq. }
    rewrite (setReplicaState_run _ _ _ _ Hh1).
    eexists _, _. split; [reflexivity|].
    unfold kv_GetMapElement. rewrite lookup_insert_eq.
    erewrite lookup_union_Some_l; [reflexivity|]. apply lookup_insert_eq. }
  destruct Hrun as (s & l & -> & Hstate). cbn. auto.
Qed.

End ScaleUp.

(** C3, witness: two replicable data sources, one of them the current
    host, three replicas wanted: one candidate for two new replicas. *)
Lemma C3_scale_up_beyond_replicable_returns_nil_witness :
  Z.of_nat (List.length (differenceSlice ["10.0.0.2:65004"; "10.0.0.3:65004"]
                                         ["10.0.0.2:65004"])) < 3 - 1
  /\ let o := UpdateDataSetImpl (rt := Reference.runtime) Scenario.conf2
                "id1" "" "" 3 "" [] [] [] 1700000200 Scenario.stocked in
     returned o = Some (None, None)
     /\ kv_GetMapElement (kv (world_of o)) (datasetKey "id1") "replica_state"
        = Ok (strconv_FormatInt ReplicaNoScale)
     /\ net (world_of o) = net Scenario.stocked.
Proof.
  split; [vm_compute; reflexivity|].
  eapply (C3_scale_up_beyond_replicable_returns_nil (rt := Reference.runtime)
            Scenario.conf2 _ "id1" "" "" 3 "" [] [] [] 1700000200 Scenario.stocked).
  - vm_compute. reflexivity.
  - vm_compute. reflexivity.
  - reflexivity.
  - vm_compute. reflexivity.
  - lia.
  - vm_compute. reflexivity.
  - reflexivity.
  - vm_compute. reflexivity.
Defined.

(** When the replica directory lists more hosts than the record has
    replicas, the guard passes and the slice expression of
    [selectScaleUpReplicaHosts] is out of range: the update panics, with
    [replica_state] left at ScaleUp. *)
Lemma scale_up_panics_on_overlisted_directory :
  Z.of_nat (List.length (differenceSlice
                           ["10.0.0.2:65004"; "10.0.0.3:65004"; "10.0.0.4:65004"]
                           ["10.0.0.2:65004"; "10.0.0.3:65004"])) < 3 - 1
  /\ let o := UpdateDataSetImpl (rt := Reference.runtime) Scenario.conf3
                "id1" "" "" 3 "" [] [] [] 1700000200 Scenario.overlisted in
     returned o = None
     /\ kv_GetMapElement (kv (world_of o)) (datasetKey "id1") "replica_state"
        = Ok (strconv_FormatInt ReplicaScaleUP).
Proof. vm_compute. repeat split; reflexivity. Qed.

(** ** What a program logs *)

Section Emits.

Variable P : event -> Prop.

Lemma emits_ret {A} (a : A) : emits P (ret a).
Proof. intros w. exists []. cbn. now rewrite app_nil_r. Qed.

Lemma emits_panic {A} : emits P (@panic A).
Proof. intros w. exists []. cbn. now rewrite app_nil_r. Qed.

Lemma emits_bind {A B} (c : M A) (k : A -> M B) :
  emits P c -> (forall a, emits P (k a)) -> emits P (bind c k).
Proof.
  intros Hc Hk w. destruct (Hc w) as (evs & Hlog & Hevs). unfold bind.
  destruct (c w) as [a w1|w1]; cbn in Hlog.
  - destruct (Hk a w1) as (evs2 & Hlog2 & Hevs2).
    exists (evs ++ evs2). rewrite Hlog2, Hlog, app_assoc.
    split; [reflexivity | now apply Forall_app].
  - exists evs. now split.
Qed.

Lemma emits_defer {A} (d : M unit) (body : M A) :
  emits P d -> emits P body -> emits P (defer d body).
Proof.
  intros Hd Hb w. destruct (Hb w) as (evs & Hlog & Hevs). unfold defer.
  destruct (body w) as [a w1|w1]; cbn in Hlog;
    destruct (Hd w1) as (evs2 & Hlog2 & Hevs2);
    exists (evs ++ evs2); (split; [|now apply Forall_app]);
    destruct (d w1); cbn in *; now rewrite Hlog2, Hlog, app_assoc.
Qed.

Lemma emits_store_only {A} (c : M A) :
  (forall e, is_Store e -> P e) -> store_only c -> emits P c.
Proof.
  intros HP Hc w. destruct (store_only_run c w Hc) as (evs & _ & Hlog & Hevs & _).
  exists evs. split; [assumption|]. eapply Forall_impl; eauto.
Qed.

Lemma emits_http_Do req : P (Http req) -> emits P (http_Do req).
Proof.
  intros HP w. exists [Http req]. unfold http_Do.
  destruct (net w); cbn; split; auto.
Qed.

Lemma emits_time_Sleep n : P (Sleep n) -> emits P (time_Sleep n).
Proof. intros HP w. exists [Sleep n]. cbn. auto. Qed.

Lemma emits_at {A} (c : world -> M A) :
  (forall w0, emits P (c w0)) -> emits P (fun w => c w w).
Proof. intros Hc w. apply Hc. Qed.

End Emits.

Ltac emits_step :=
  lazymatch goal with
  | |- emits _ (ret _) => apply emits_ret
  | |- emits _ panic => apply emits_panic
  | |- emits _ (bind _ _) => apply emits_bind; [|intros ?]
  | |- emits _ (defer _ _) => apply emits_defer
  | |- emits _ (http_Do _) => apply emits_http_Do
  | |- emits _ (time_Sleep _) => apply emits_time_Sleep
  | |- emits _ (match ?x with _ => _ end) => destruct x
  end.

Section SeedPeerClient.

Context {rt : GoRuntime}.

Variable P : event -> Prop.
Hypothesis P_Store : forall e, is_Store e -> P e.
Hypothesis P_Sleep : forall n, P (Sleep n).

Lemma emits_checkObjectStatus host bucketName folderKey :
  P (Http (checkRequest host bucketName folderKey)) ->
  emits P (checkObjectStatus host bucketName folderKey).
Proof.
  intros HP. unfold checkObjectStatus. fold (checkRequest host bucketName folderKey).
  repeat emits_step; auto.
Qed.

Lemma emits_pollObjectStatus rounds host bucketName folderKey :
  P (Http (checkRequest host bucketName folderKey)) ->
  emits P (pollObjectStatus rounds host bucketName folderKey).
Proof.
  intros HP. induction rounds as [|rounds IH]; cbn [pollObjectStatus].
  - apply emits_panic.
  - apply emits_bind; [now apply emits_time_Sleep|]. intros _.
    apply emits_bind; [now apply emits_checkObjectStatus|].
    intros [[e|]|e]; auto using emits_ret.
Qed.

Lemma emits_scaleUpSeedPeerDataset host bucketName folderKey :
  P (Http (cacheRequest host bucketName folderKey)) ->
  P (Http (checkRequest host bucketName folderKey)) ->
  emits P (scaleUpSeedPeerDataset host bucketName folderKey).
Proof.
  intros HPc HPk. unfold scaleUpSeedPeerDataset.
  fold (cacheRequest host bucketName folderKey).
  apply emits_bind; [now apply emits_http_Do|].
  intros [e|status body]; [apply emits_ret|].
  destruct (negb (is2xx status)); [apply emits_ret|].
  apply (emits_at P (fun w0 => pollObjectStatus (S (List.length (net w0)))
                                 host bucketName folderKey)).
  intros w0. now apply emits_pollObjectStatus.
Qed.

Lemma emits_scaleUpHosts hosts bucketName folderKey acc :
  (forall host, In host hosts ->
                P (Http (cacheRequest host bucketName folderKey))
                /\ P (Http (checkRequest host bucketName folderKey))) ->
  emits P (scaleUpHosts hosts bucketName folderKey acc).
Proof.
  revert acc. induction hosts as [|host hosts IH]; intros acc HP; cbn [scaleUpHosts].
  - apply emits_ret.
  - assert (Hhost : emits P (scaleUpSeedPeerDataset host bucketName folderKey)).
    { apply emits_scaleUpSeedPeerDataset; apply HP; now left. }
    assert (Hrest : forall acc', emits P (scaleUpHosts hosts bucketName folderKey acc')).
    { intros acc'. apply IH. intros h Hh. apply HP. now right. }
    apply emits_bind; [assumption|]. intros [e|_]; [apply Hrest|].
    apply emits_bind; [now apply emits_time_Sleep|]. intros _.
    apply emits_bind; [assumption|]. intros [e|_]; [apply Hrest | apply emits_ret].
Qed.

Lemma emits_scaleUpWorker dataSetID dataSetName dataSetDesc wanted
    cacheStrategy dataSetTags shareBlobSources job curTime :
  (forall host, In host (job_scaleUpReplicas job) ->
     P (Http (cacheRequest host (job_sourceBucket job +:+ "." +:+ job_sourceEndpoint job)
                           (job_sourceObject job)))
     /\ P (Http (checkRequest host (job_sourceBucket job +:+ "." +:+ job_sourceEndpoint job)
                              (job_sourceObject job)))) ->
  emits P (scaleUpWorker dataSetID dataSetName dataSetDesc wanted cacheStrategy
             dataSetTags shareBlobSources job curTime).
Proof.
  intros HP. unfold scaleUpWorker.
  apply emits_defer.
  - apply emits_store_only; [assumption|].
    apply store_only_bind; [apply store_only_setReplicaState|].
    intros _. apply store_only_ret.
  - apply emits_bind; [now apply emits_scaleUpHosts|].
    intros [caches|]; [|apply emits_ret].
    apply emits_bind;
      [apply emits_store_only; [assumption | apply store_only_updateDataSetFunc]|].
    intros [e|]; [apply emits_ret|].
    apply emits_bind;
      [apply emits_store_only; [assumption | apply store_only_updateRedisReplicaInfo]|].
    intros [e|]; [apply emits_ret|].
    apply emits_bind;
      [apply emits_store_only;
       [assumption | apply store_only_scaleUpDatasetVersionInfo]|].
    intros _. apply emits_ret.
Qed.

End SeedPeerClient.

Lemma strings_SplitN2_Cut s sep a b tl :
  strings_SplitN2 s sep = a :: b :: tl -> strings_Cut s sep = Some (a, b).
Proof.
  unfold strings_SplitN2. destruct (strings_Cut s sep) as [[x y]|]; congruence.
Qed.

Section CacheRequests.

Context {rt : GoRuntime}.

(** The goroutine of a scale-up has captured the first source of the
    record read, split at its first dot. *)
Lemma UpdateDataSetImpl_job conf dataSetID dataSetName dataSetDesc wanted
    cacheStrategy dataSetTags shareBlobSources shareBlobCaches curTime
    w err job w1 :
  UpdateDataSetImpl conf dataSetID dataSetName dataSetDesc wanted cacheStrategy
    dataSetTags shareBlobSources shareBlobCaches curTime w
  = Done (err, Some job) w1 ->
  exists source0 rest,
    GetDataSetImpl dataSetID w = Done (Ok (job_oldDatasetInfo job)) w
    /\ ShareBlobSources (job_oldDatasetInfo job) = source0 :: rest
    /\ strings_Cut (EndpointPath source0) "."
       = Some (job_sourceBucket job, job_sourceObject job)
    /\ job_sourceEndpoint job = Endpoint source0.
Proof.
  intros H. unfold UpdateDataSetImpl, bind at 1 in H.
  destruct (GetDataSetImpl_readonly dataSetID w) as [r Hr]. rewrite Hr in H.
  destruct r as [old|e]; [|discriminate].
  destruct ((0 <? wanted) && negb (Replica old =? wanted)).
  - destruct (ShareBlobSources old) as [|source0 rest] eqn:Hsrc; [discriminate|].
    destruct (strings_SplitN2 (EndpointPath source0) ".") as [|b [|o tl]] eqn:Hsplit;
      try discriminate.
    apply strings_SplitN2_Cut in Hsplit.
    destruct (wanted <? Replica old).
    + unfold bind in H. destruct (scaleDown _ _ _ _ _ _ _ _ _ _ _ w); discriminate.
    + unfold scaleUp, bind in H.
      destruct (setReplicaState dataSetID ReplicaScaleUP w) as [[e|] w2|w2];
        try discriminate.
      destruct (selectScaleUpReplicaHosts conf dataSetID wanted (Replica old) w2)
        as [[[hosts ups]|e] w3|w3]; try discriminate.
      * injection H as <- <- <-. exists source0, rest. cbn. auto.
      * destruct (setReplicaState dataSetID ReplicaNoScale w3); discriminate.
  - unfold bind in H.
    destruct (updateDataSetFunc _ _ _ _ _ _ _ _ _ w); discriminate.
Qed.

(** C4 (as amended).  Every POST the goroutine of a scale-up sends goes
    to one of the hosts selected and asks for
    [buckets/<bucket>.<endpoint>/cache_folder/<object_key>]: the bucket
    and the object key are the parts of
    [share_blob_sources[0].endpoint_path] before and after its first dot,
    and the bucket is followed by a dot and the endpoint of that
    source. *)
Theorem C4_cache_request_names_bucket_and_endpoint conf dataSetID dataSetName
    dataSetDesc wanted cacheStrategy dataSetTags shareBlobSources
    shareBlobCaches curTime w err job w1 :
  UpdateDataSetImpl conf dataSetID dataSetName dataSetDesc wanted cacheStrategy
    dataSetTags shareBlobSources shareBlobCaches curTime w
  = Done (err, Some job) w1 ->
  exists old source0 rest bucket object,
    GetDataSetImpl dataSetID w = Done (Ok old) w
    /\ ShareBlobSources old = source0 :: rest
    /\ strings_Cut (EndpointPath source0) "." = Some (bucket, object)
    /\ forall workerTime,
         emits (fun ev =>
                  forall r, ev = Http r -> Method r = "POST" ->
                    exists host,
                      In host (job_scaleUpReplicas job)
                      /\ r = cacheRequest host
                               (bucket +:+ "." +:+ Endpoint source0) object)
               (scaleUpWorker dataSetID dataSetName dataSetDesc wanted
                  cacheStrategy dataSetTags shareBlobSources job workerTime).
Proof.
  intros H. apply UpdateDataSetImpl_job in H.
  destruct H as (source0 & rest & Hget & Hsrc & Hcut & Hep).
  exists (job_oldDatasetInfo job), source0, rest,
    (job_sourceBucket job), (job_sourceObject job).
  repeat split; try assumption.
  intros workerTime. rewrite <- Hep.
  apply emits_scaleUpWorker.
  - intros [c|r|n] Hs r' Hr'; [discriminate | contradiction | contradiction].
  - intros n r' Hr'. discriminate.
  - intros host Hin. split.
    + intros r [= <-] _. exists host. auto.
    + intros r [= <-] Hm. discriminate.
Qed.

End CacheRequests.

(** C4, witness: the scale-up of the dataset of the scenario to three
    replicas. *)
Lemma C4_cache_request_names_bucket_and_endpoint_witness :
  exists old source0 rest bucket object,
    GetDataSetImpl (rt := Reference.runtime) "id1" Scenario.stocked
    = Done (Ok old) Scenario.stocked
    /\ ShareBlobSources old = source0 :: rest
    /\ strings_Cut (EndpointPath source0) "." = Some (bucket, object)
    /\ forall workerTime,
         emits (fun ev =>
                  forall r, ev = Http r -> Method r = "POST" ->
                    exists host,
                      In host (job_scaleUpReplicas Scenario.job3)
                      /\ r = cacheRequest host
                               (bucket +:+ "." +:+ Endpoint source0) object)
               (scaleUpWorker (rt := Reference.runtime) "id1" "" "" 3 "" [] []
                              Scenario.job3 workerTime).
Proof.
  apply (C4_cache_request_names_bucket_and_endpoint (rt := Reference.runtime)
           Scenario.conf3 "id1" "" "" 3 "" [] [] [] 1700000200
           Scenario.stocked None Scenario.job3 Scenario.scaling).
  vm_compute. reflexivity.
Defined.

(** C4, counterexample: the source is [(obs.example.com, bkt.imagenet)];
    the first request of the goroutine asks for
    [buckets/bkt.obs.example.com/cache_folder/imagenet], not for the bucket
    [bkt]. *)
Lemma C4_counterexample :
  let run := scaleUpWorker (rt := Reference.runtime) "id1" "" "" 3 "" [] []
               Scenario.job3 1700000300 Scenario.scaling in
  strings_Cut (EndpointPath Scenario.source1) "." = Some ("bkt", "imagenet")
  /\ head (http_requests (added Scenario.scaling run))
     = Some (mkRequest "POST" "10.0.0.3:65004"
                       "buckets/bkt.obs.example.com/cache_folder/imagenet")
  /\ head (http_requests (added Scenario.scaling run))
     <> Some (cacheRequest "10.0.0.3:65004" "bkt" "imagenet").
Proof. vm_compute. repeat split; try reflexivity. discriminate. Qed.

(** ** The poll for the completion of a cache *)

Section Poll.

Context {rt : GoRuntime}.

Variables host bucketName folderKey : string.

Let u := checkRequest host bucketName folderKey.

(** A round that asks for another one has taken an answer. *)
Lemma checkObjectStatus_progress w w' :
  checkObjectStatus host bucketName folderKey w = Done (Ok None) w' ->
  (List.length (net w') < List.length (net w))%nat.
Proof.
  unfold checkObjectStatus, bind, http_Do, time_Sleep, ret, panic.
  destruct w as [s n l]. cbn [kv net log].
  destruct n as [|a n]; [discriminate|]. cbn [kv net log].
  destruct a as [e|st body]; [discriminate|].
  destruct (negb (is2xx st)).
  - destruct n as [|b n]; [discriminate|]. cbn [kv net log].
    destruct b as [e|st2 body2]; [discriminate|].
    destruct (negb (is2xx st2)); [discriminate|].
    intros H. repeat case_match; simplify_eq; cbn; lia.
  - intros H. repeat case_match; simplify_eq; cbn; lia.
Qed.

Lemma pollObjectStatus_S rounds w :
  pollObjectStatus (S rounds) host bucketName folderKey w
  = match checkObjectStatus host bucketName folderKey
            (mkWorld (kv w) (net w) (log w ++ [Sleep 3])) with
    | Done (Err err) w' => Done (Err err) w'
    | Done (Ok None) w' => pollObjectStatus rounds host bucketName folderKey w'
    | Done (Ok (Some urchinEndpoint)) w' => Done (Ok urchinEndpoint) w'
    | Panic w' => Panic w'
    end.
Proof.
  cbn [pollObjectStatus]. unfold bind, time_Sleep.
  destruct (checkObjectStatus _ _ _ _) as [[[e|]|e] w'|w']; reflexivity.
Qed.

(** The bound on the rounds is never met: a round more changes
    nothing once the rounds outnumber the answers left. *)
Lemma pollObjectStatus_bound rounds w :
  (List.length (net w) < rounds)%nat ->
  pollObjectStatus (S rounds) host bucketName folderKey w
  = pollObjectStatus rounds host bucketName folderKey w.
Proof.
  revert w. induction rounds as [|rounds IH]; intros w Hw; [lia|].
  rewrite (pollObjectStatus_S (S rounds)), (pollObjectStatus_S rounds).
  destruct (checkObjectStatus host bucketName folderKey _)
    as [[[e|]|e] w2|w2] eqn:Hc; try reflexivity.
  apply checkObjectStatus_progress in Hc. cbn [net] in Hc.
  apply IH. lia.
Qed.

(** C5 (as amended).  After a cache request was accepted, every round of
    the poll waits 3 seconds and sends the check.  (1) A transport error
    on the first attempt of a check is returned at once, without retry.
    (2) On a status that is not 2xx the check is sent once more after 2
    seconds; a transport error or another such status then is returned as
    an error, and an answer 2xx is read as in a first attempt.  (3) On
    StatusCode 1 the poll waits 20 seconds and goes to its next round.
    (4) On StatusCode 0 it returns the endpoint
    [(DataEndpoint, DataRoot.DataPath)]. *)
Theorem C5_poll_rounds (s : store) (l : list event) (rounds : nat) :
  (forall e rest,
      pollObjectStatus (S rounds) host bucketName folderKey
        (mkWorld s (TransportError e :: rest) l)
      = Done (Err e) (mkWorld s rest (l ++ [Sleep 3] ++ [Http u])))
  /\ (forall st body e rest,
        is2xx st = false ->
        pollObjectStatus (S rounds) host bucketName folderKey
          (mkWorld s (Response st body :: TransportError e :: rest) l)
        = Done (Err e)
               (mkWorld s rest (l ++ [Sleep 3] ++ [Http u] ++ [Sleep 2] ++ [Http u])))
  /\ (forall st body st2 body2 rest,
        is2xx st = false -> is2xx st2 = false ->
        pollObjectStatus (S rounds) host bucketName folderKey
          (mkWorld s (Response st body :: Response st2 body2 :: rest) l)
        = Done (Err "bad response status")
               (mkWorld s rest (l ++ [Sleep 3] ++ [Http u] ++ [Sleep 2] ++ [Http u])))
  /\ (forall st body st2 body2 rest,
        is2xx st = false -> is2xx st2 = true ->
        checkObjectStatus host bucketName folderKey
          (mkWorld s (Response st body :: Response st2 body2 :: rest) l)
        = checkObjectStatus host bucketName folderKey
            (mkWorld s (Response st2 body2 :: rest) (l ++ [Http u] ++ [Sleep 2])))
  /\ (forall st body rest fields,
        is2xx st = true ->
        json_Unmarshal_object body = Ok fields ->
        any_lookup fields "StatusCode" = Some (AnyNumber 1) ->
        pollObjectStatus (S rounds) host bucketName folderKey
          (mkWorld s (Response st body :: rest) l)
        = pollObjectStatus rounds host bucketName folderKey
            (mkWorld s rest (l ++ [Sleep 3] ++ [Http u] ++ [Sleep 20])))
  /\ (forall st body rest fields dataEndpoint dataRoot dataPath,
        is2xx st = true ->
        json_Unmarshal_object body = Ok fields ->
        any_lookup fields "StatusCode" = Some (AnyNumber 0) ->
        any_lookup fields "DataEndpoint" = Some (AnyString dataEndpoint) ->
        any_lookup fields "DataRoot" = Some (AnyString dataRoot) ->
        any_lookup fields "DataPath" = Some (AnyString dataPath) ->
        pollObjectStatus (S rounds) host bucketName folderKey
          (mkWorld s (Response st body :: rest) l)
        = Done (Ok (mkEndpoint dataEndpoint (dataRoot +:+ "." +:+ dataPath)))
               (mkWorld s rest (l ++ [Sleep 3] ++ [Http u]))).
Proof.
  repeat split; intros.
  - rewrite pollObjectStatus_S. unfold checkObjectStatus, bind, time_Sleep, http_Do, ret, panic.
    cbn [kv net log]. now rewrite <- !app_assoc.
  - rewrite pollObjectStatus_S. unfold checkObjectStatus, bind, time_Sleep, http_Do, ret, panic.
    cbn [kv net log]. rewrite H. cbn [negb kv net log].
    now rewrite <- !app_assoc.
  - rewrite pollObjectStatus_S. unfold checkObjectStatus, bind, time_Sleep, http_Do, ret, panic.
    cbn [kv net log]. rewrite H. cbn [negb kv net log]. rewrite H0. cbn [negb].
    now rewrite <- !app_assoc.
  - unfold checkObjectStatus, bind, time_Sleep, http_Do, ret, panic.
    cbn [kv net log]. rewrite H. cbn [negb kv net log]. rewrite H0. cbn [negb].
    now rewrite <- !app_assoc.
  - rewrite pollObjectStatus_S. unfold checkObjectStatus, bind, time_Sleep, http_Do, ret, panic.
    cbn [kv net log]. rewrite H. cbn [negb]. rewrite H0, H1.
    cbn [Z.eqb Pos.eqb kv net log]. now rewrite <- !app_assoc.
  - rewrite pollObjectStatus_S. unfold checkObjectStatus, bind, time_Sleep, http_Do, ret, panic.
    cbn [kv net log]. rewrite H. cbn [negb]. rewrite H0, H1.
    cbn [Z.eqb negb]. rewrite H2, H3, H4. now rewrite <- !app_assoc.
Qed.

End Poll.

(** C5, witness: one instance of each case, with the reference codec. *)
Lemma C5_poll_rounds_witness :
  let u := checkRequest Scenario.peer Scenario.bucket Scenario.object in
  let poll := pollObjectStatus (rt := Reference.runtime) in
  let check := checkObjectStatus (rt := Reference.runtime) in
  poll 2%nat Scenario.peer Scenario.bucket Scenario.object
       (mkWorld ∅ [TransportError "timeout"] [])
  = Done (Err "timeout") (mkWorld ∅ [] ([] ++ [Sleep 3] ++ [Http u]))
  /\ poll 2%nat Scenario.peer Scenario.bucket Scenario.object
          (mkWorld ∅ [Response 503 ""; TransportError "timeout"] [])
     = Done (Err "timeout")
            (mkWorld ∅ [] ([] ++ [Sleep 3] ++ [Http u] ++ [Sleep 2] ++ [Http u]))
  /\ poll 2%nat Scenario.peer Scenario.bucket Scenario.object
          (mkWorld ∅ [Response 503 ""; Response 404 ""] [])
     = Done (Err "bad response status")
            (mkWorld ∅ [] ([] ++ [Sleep 3] ++ [Http u] ++ [Sleep 2] ++ [Http u]))
  /\ check Scenario.peer Scenario.bucket Scenario.object
           (mkWorld ∅ [Response 503 ""; Response 200 Scenario.body_done] [])
     = check Scenario.peer Scenario.bucket Scenario.object
             (mkWorld ∅ [Response 200 Scenario.body_done] ([] ++ [Http u] ++ [Sleep 2]))
  /\ poll 2%nat Scenario.peer Scenario.bucket Scenario.object
          (mkWorld ∅ [Response 200 Scenario.body_in_progress] [])
     = poll 1%nat Scenario.peer Scenario.bucket Scenario.object
            (mkWorld ∅ [] ([] ++ [Sleep 3] ++ [Http u] ++ [Sleep 20]))
  /\ poll 2%nat Scenario.peer Scenario.bucket Scenario.object
          (mkWorld ∅ [Response 200 Scenario.body_done] [])
     = Done (Ok (mkEndpoint "10.0.0.3:65004" ("bkt" +:+ "." +:+ "imagenet")))
            (mkWorld ∅ [] ([] ++ [Sleep 3] ++ [Http u])).
Proof.
  destruct (C5_poll_rounds (rt := Reference.runtime)
              Scenario.peer Scenario.bucket Scenario.object ∅ [] 1%nat)
    as (H1 & H2 & H3 & H4 & H5 & H6).
  cbv zeta.
  split; [apply H1|].
  split; [apply H2; reflexivity|].
  split; [apply H3; reflexivity|].
  split; [apply H4; reflexivity|].
  split.
  - apply (H5 200 Scenario.body_in_progress [] Scenario.fields_in_progress);
      vm_compute; reflexivity.
  - apply (H6 200 Scenario.body_done [] Scenario.fields_done);
      vm_compute; reflexivity.
Defined.

(** C5, counterexample: the cache request is accepted, the first check
    meets a transport error and the peer would answer the next one with the
    endpoint.  The error is returned at once: no wait of 2 seconds, no
    second check; the answer is left unread. *)
Lemma C5_counterexample :
  let w := mkWorld ∅ [Response 200 ""; TransportError "timeout";
                      Response 200 Scenario.body_done] [] in
  let o := scaleUpSeedPeerDataset (rt := Reference.runtime)
             Scenario.peer Scenario.bucket Scenario.object w in
  returned o = Some (Err "timeout")
  /\ added w o
     = [Http (cacheRequest Scenario.peer Scenario.bucket Scenario.object);
        Sleep 3;
        Http (checkRequest Scenario.peer Scenario.bucket Scenario.object)]
  /\ net (world_of o) = [Response 200 Scenario.body_done].
Proof. vm_compute. repeat split; reflexivity. Qed.

(** ** Listing *)

Section Listing.

Context {rt : GoRuntime}.

Lemma decodeElements_empty : decodeElements ∅ = Ok UrchinDataSetInfo_zero.
Proof. unfold decodeElements. now rewrite map_to_list_empty. Qed.

Lemma getDataSetById_absent member w :
  kv w !! datasetKey member = None ->
  getDataSetById member w = Done (Ok UrchinDataSetInfo_zero) w.
Proof.
  intros Habs. unfold getDataSetById, bind, redisReadMap, store_read, kv_ReadMap.
  fold (datasetKey member). rewrite Habs. unfold ret.
  now rewrite decodeElements_empty.
Qed.

Lemma getDataSetById_readonly member w :
  exists r, getDataSetById member w = Done r w.
Proof.
  unfold getDataSetById, bind, redisReadMap, store_read, ret.
  destruct (kv_ReadMap _ _); eauto.
Qed.

(** The loop of the listing without search key and order keeps a record
    for every member, the zero record for a member without hash. *)
Lemma hydrateMembers_absent members datasets w :
  (forall member, In member members -> kv w !! datasetKey member = None) ->
  hydrateMembers members datasets w
  = Done (Ok (datasets ++ map (fun _ => UrchinDataSetInfo_zero) members)) w.
Proof.
  revert datasets. induction members as [|member members IH]; intros datasets Habs.
  - cbn. now rewrite app_nil_r.
  - cbn [hydrateMembers map]. unfold bind.
    rewrite getDataSetById_absent by (apply Habs; now left).
    rewrite IH by (intros m Hm; apply Habs; now right).
    now rewrite <- app_assoc.
Qed.

(** The loop of [sortAndBuildResult] drops them. *)
Lemma buildResult_absent members datasets w :
  (forall member, In member members -> kv w !! datasetKey member = None) ->
  buildResult members datasets w = Done datasets w.
Proof.
  induction members as [|member members IH]; intros Habs; [reflexivity|].
  cbn [buildResult]. unfold bind.
  rewrite getDataSetById_absent by (apply Habs; now left).
  cbn. apply IH. intros m Hm. apply Habs. now right.
Qed.

(** No record with an empty [Id] leaves [sortAndBuildResult]. *)
Lemma buildResult_ids members datasets w :
  Forall (fun d => Id d <> "") datasets ->
  exists datasets',
    buildResult members datasets w = Done datasets' w
    /\ Forall (fun d => Id d <> "") datasets'.
Proof.
  revert datasets. induction members as [|member members IH]; intros datasets Hds.
  - exists datasets. now split.
  - cbn [buildResult]. unfold bind.
    destruct (getDataSetById_readonly member w) as [r ->].
    destruct r as [dataset|e]; [|now apply IH].
    destruct (String.eqb_spec (Id dataset) ""); [now apply IH|].
    apply IH. apply Forall_app. split; [assumption|]. now constructor.
Qed.

(** C7 (what the code does).  In the listing without search key and
    without order, a member of the creation-time sorted set whose primary
    hash is gone is not dropped: the answer holds a zero record for it.
    [sortAndBuildResult], through which every other listing goes, drops
    such members and returns no error. *)
Theorem C7_default_listing_keeps_placeholder
    (kv_Sort : store -> string -> Sort -> result (list string))
    pageIndex pageSize sortBy createdAtLess createdAtGreater now w members :
  kv_ZRangeByScore (kv w) DatasetCreateTimeKey
    (if negb (createdAtGreater =? 0) then createdAtGreater else 0)
    (if negb (createdAtLess =? 0) then createdAtLess else now + 1)
    pageIndex pageSize (negb (sortBy =? 1)) = Ok members ->
  (forall member, In member members -> kv w !! datasetKey member = None) ->
  ListDataSets_byCreateTime pageIndex pageSize sortBy createdAtLess
                            createdAtGreater now w
  = Done (StatusOK (map (fun _ => UrchinDataSetInfo_zero) members)) w
  /\ forall orderBy sortSetKey,
       kv_Sort (kv w) sortSetKey
               (mkSort (StoragePrefixDataset +:+ ":" +:+ "*->"
                        +:+ (if String.eqb orderBy "" then "create_time" else orderBy))
                       pageIndex pageSize
                       (if sortBy =? -1 then "DESC" else "ASC") true)
       = Ok members ->
       sortAndBuildResult kv_Sort orderBy sortBy pageIndex pageSize sortSetKey [] w
       = Done (None, []) w.
Proof.
  intros Hrange Habs. split.
  - unfold ListDataSets_byCreateTime, bind.
    assert (Hread : (if sortBy =? 1
                     then redisZRangeByScore DatasetCreateTimeKey
                            (if negb (createdAtGreater =? 0) then createdAtGreater else 0)
                            (if negb (createdAtLess =? 0) then createdAtLess else now + 1)
                            pageIndex pageSize
                     else redisZRevRangeByScore DatasetCreateTimeKey
                            (if negb (createdAtGreater =? 0) then createdAtGreater else 0)
                            (if negb (createdAtLess =? 0) then createdAtLess else now + 1)
                            pageIndex pageSize) w
                    = Done (Ok members) w).
    { destruct (sortBy =? 1); cbn [negb] in Hrange;
        unfold redisZRangeByScore, redisZRevRangeByScore, store_read;
        now rewrite Hrange. }
    rewrite Hread. now rewrite hydrateMembers_absent.
  - intros orderBy sortSetKey Hsort.
    unfold sortAndBuildResult, bind, store_read. rewrite Hsort.
    now rewrite buildResult_absent.
Qed.

End Listing.

(** C7, witness: the sorted set lists [id0], whose hash is gone; the first
    page of the oldest datasets holds it alone. *)
Lemma C7_default_listing_keeps_placeholder_witness :
  ListDataSets_byCreateTime (rt := Reference.runtime) 0 1 1 0 0 1700000500
                            Scenario.ghosted
  = Done (StatusOK (map (fun _ => UrchinDataSetInfo_zero) ["id0"])) Scenario.ghosted
  /\ forall orderBy sortSetKey,
       (fun _ _ _ => Ok ["id0"]) (kv Scenario.ghosted) sortSetKey
         (mkSort (StoragePrefixDataset +:+ ":" +:+ "*->"
                  +:+ (if String.eqb orderBy "" then "create_time" else orderBy))
                 0 1 (if 1 =? -1 then "DESC" else "ASC") true)
       = Ok ["id0"] ->
       sortAndBuildResult (rt := Reference.runtime) (fun _ _ _ => Ok ["id0"])
                          orderBy 1 0 1 sortSetKey [] Scenario.ghosted
       = Done (None, []) Scenario.ghosted.
Proof.
  apply (C7_default_listing_keeps_placeholder (rt := Reference.runtime)
           (fun _ _ _ => Ok ["id0"]) 0 1 1 0 0 1700000500 Scenario.ghosted ["id0"]).
  - vm_compute. reflexivity.
  - intros member [<-|[]]. vm_compute. reflexivity.
Defined.

(** ** Encoding and decoding a record *)

Lemma strings_Split_no_sep (a : string) (sep : ascii) :
  has_char sep a = false -> strings_Split a sep = [a].
Proof.
  induction a as [|c a IH]; cbn; [reflexivity|].
  intros H. apply orb_false_iff in H. destruct H as [Hc Ha].
  rewrite Hc, IH; auto.
Qed.

Lemma strings_Split_app (a r : string) (sep : ascii) :
  has_char sep a = false ->
  strings_Split (a +:+ String sep r) sep = a :: strings_Split r sep.
Proof.
  induction a as [|c a IH]; intros H.
  - change (strings_Split (String sep r) sep = "" :: strings_Split r sep).
    cbn [strings_Split]. now rewrite Ascii.eqb_refl.
  - cbn in H. apply orb_false_iff in H. destruct H as [Hc Ha].
    rewrite append_cons. cbn [strings_Split]. rewrite Hc, IH; auto.
Qed.

(** The tags come back from the join when there is one at least and none
    holds the separator. *)
Lemma strings_Split_Join (tags : list string) (sep : ascii) :
  tags <> [] ->
  Forall (fun tag => has_char sep tag = false) tags ->
  strings_Split (strings_Join tags (String sep "")) sep = tags.
Proof.
  induction tags as [|a tags IH]; [congruence|].
  intros _ Hall. inversion Hall as [|? ? Ha Htags]; subst.
  cbn [strings_Join]. destruct tags as [|b tags].
  - now apply strings_Split_no_sep.
  - change (String sep "" +:+ strings_Join (b :: tags) (String sep ""))
      with (String sep (strings_Join (b :: tags) (String sep ""))).
    rewrite strings_Split_app by assumption. f_equal. apply IH; [discriminate|assumption].
Qed.

Lemma string_of_uint_head (d : Decimal.uint) :
  d <> Decimal.Nil ->
  exists c r, NilEmpty.string_of_uint d = String c r
              /\ c <> "-"%char /\ c <> "+"%char.
Proof.
  destruct d; [congruence| | | | | | | | | |]; intros _; cbn;
    eexists _, _; (split; [reflexivity|]); split; discriminate.
Qed.

Lemma strconv_Atoi_FormatUint (n : Z) :
  0 <= n < 2 ^ 63 -> strconv_Atoi (strconv_FormatUint n) = Ok n.
Proof.
  intros Hn. unfold strconv_FormatUint.
  assert (Hnil : N.to_uint (Z.to_N n) <> Decimal.Nil).
  { destruct (Z.to_N n); cbn; [discriminate | apply Unsigned.to_uint_nonnil]. }
  assert (Hs : NilZero.string_of_uint (N.to_uint (Z.to_N n))
               = NilEmpty.string_of_uint (N.to_uint (Z.to_N n))).
  { unfold NilZero.string_of_uint. destruct (N.to_uint (Z.to_N n)); congruence. }
  rewrite Hs.
  destruct (string_of_uint_head _ Hnil) as (c & r & Hcr & Hminus & Hplus).
  assert (Hp : parse_digits (NilEmpty.string_of_uint (N.to_uint (Z.to_N n))) = Some n).
  { unfold parse_digits. rewrite NilEmpty.usu, DecimalN.Unsigned.of_to.
    rewrite Hcr. f_equal. lia. }
  unfold strconv_Atoi.
  assert (Hsigned : match NilEmpty.string_of_uint (N.to_uint (Z.to_N n)) with
                    | String "-" r0 => option_map Z.opp (parse_digits r0)
                    | String "+" r0 => parse_digits r0
                    | _ => parse_digits (NilEmpty.string_of_uint (N.to_uint (Z.to_N n)))
                    end = Some n).
  { rewrite Hcr in *.
    destruct c as [[] [] [] [] [] [] [] []]; try exact Hp; congruence. }
  rewrite Hsigned.
  destruct (Z.leb_spec (- 2 ^ 63) n); [|lia].
  destruct (Z.ltb_spec n (2 ^ 63)); [reflexivity|lia].
Qed.

Lemma versionKey_not_datasetKey a v b :
  urchin_dataset_vesion.versionKey a v <> datasetKey b.
Proof.
  unfold urchin_dataset_vesion.versionKey, datasetKey, MakeStorageKey.
  intros H. vm_compute in H. discriminate H.
Qed.

Lemma store_write_frame c f w e w' k :
  store_write c f w = Done e w' ->
  (forall s s', f s = Ok s' -> s' !! k = s !! k) ->
  kv w' !! k = kv w !! k.
Proof.
  unfold store_write. intros H Hf.
  destruct (f (kv w)) as [s'|err] eqn:Hfs; simplify_eq; cbn; auto.
Qed.

Lemma kv_SetMapElements_frame s key values s' k :
  kv_SetMapElements s key values = Ok s' -> key <> k -> s' !! k = s !! k.
Proof.
  unfold kv_SetMapElements. intros H Hk.
  repeat case_match; simplify_eq; now rewrite lookup_insert_ne.
Qed.

Lemma kv_ZAdd_frame_hash s key member score s' k h :
  kv_ZAdd s key member score = Ok s' -> s !! k = Some (RHash h) ->
  s' !! k = Some (RHash h).
Proof.
  unfold kv_ZAdd. intros H Hk.
  destruct (decide (key = k)) as [->|Hne].
  - rewrite Hk in H. discriminate.
  - repeat case_match; simplify_eq; now rewrite lookup_insert_ne.
Qed.

Section CreateThenGet.

Context {rt : GoRuntime}.

(** The primary hash a successful [CreateDataSet] leaves for a fresh id. *)
Lemma CreateDataSet_stored conf dataSetName dataSetDesc replica cacheStrategy
    dataSetTags dataSetID curTime w payload w' :
  kv w !! datasetKey dataSetID = None ->
  CreateDataSet conf dataSetName dataSetDesc replica cacheStrategy dataSetTags
                dataSetID curTime w = Done (StatusOK payload) w' ->
  payload = dataSetID
  /\ validateReplica conf replica = None
  /\ kv w' !! datasetKey dataSetID
     = Some (RHash (list_to_map (createdFields dataSetName dataSetDesc replica
                                   cacheStrategy dataSetTags dataSetID curTime))).
Proof.
  intros Hfresh H. unfold CreateDataSet in H.
  destruct (validateReplica conf replica) as [e|]; [discriminate|].
  fold (datasetKey dataSetID) in H.
  fold (createdFields dataSetName dataSetDesc replica cacheStrategy dataSetTags
                      dataSetID curTime) in H.
  set (values := createdFields _ _ _ _ _ _ _) in *.
  unfold bind at 1 in H.
  unfold redisSetMapElements at 1, store_write at 1, kv_SetMapElements at 1 in H.
  rewrite Hfresh in H.
  set (w1 := mkWorld _ _ _) in H.
  assert (H1 : kv w1 !! datasetKey dataSetID = Some (RHash (list_to_map values))).
  { subst w1. cbn [kv]. apply lookup_insert_eq. }
  clearbody w1.
  unfold bind at 1 in H.
  destruct (redisZAdd DatasetCreateTimeKey dataSetID curTime w1)
    as [[e|] w2|w2] eqn:Hz; try discriminate.
  assert (H2 : kv w2 !! datasetKey dataSetID = Some (RHash (list_to_map values))).
  { unfold redisZAdd, store_write in Hz.
    destruct (kv_ZAdd _ _ _ _) as [s2|e] eqn:Hzadd; simplify_eq. cbn [kv].
    eapply kv_ZAdd_frame_hash; eauto. }
  unfold bind at 1 in H.
  destruct (when (nonempty dataSetName) _ w2) as [[e|] w3|w3] eqn:Hn;
    try discriminate.
  assert (H3 : kv w3 !! datasetKey dataSetID = Some (RHash (list_to_map values))).
  { unfold when in Hn. destruct (nonempty dataSetName).
    - unfold redisSet, store_write, kv_Set in Hn. simplify_eq. cbn [kv].
      rewrite lookup_insert_ne; [assumption|]. apply index_key_not_datasetKey.
    - unfold ret in Hn. now simplify_eq. }
  unfold bind at 1 in H.
  destruct (when (0 <? Z.of_nat (List.length dataSetTags)) _ w3)
    as [[e|] w4|w4] eqn:Ht; try discriminate.
  assert (H4 : kv w4 !! datasetKey dataSetID = Some (RHash (list_to_map values))).
  { unfold when in Ht. destruct (0 <? Z.of_nat (List.length dataSetTags)).
    - unfold redisSet, store_write, kv_Set in Ht. simplify_eq. cbn [kv].
      rewrite lookup_insert_ne; [assumption|]. apply index_key_not_datasetKey.
    - unfold ret in Ht. now simplify_eq. }
  unfold bind at 1 in H.
  destruct (urchin_dataset_vesion.CreateDataSetVersionImpl _ _ w4)
    as [[e|] w5|w5] eqn:Hv; try discriminate.
  unfold ret in H. simplify_eq. split; [reflexivity|]. split; [reflexivity|].
  rewrite <- H4.
  unfold urchin_dataset_vesion.CreateDataSetVersionImpl, redisSetMapElements in Hv.
  eapply store_write_frame; [exact Hv|].
  intros s s' Hs. eapply kv_SetMapElements_frame; [exact Hs|].
  apply versionKey_not_datasetKey.
Qed.

End CreateThenGet.

Lemma created_map_order (v1 v2 v3 v4 v5 v6 v7 v8 v9 v10 v11 : string) :
  map_to_list (list_to_map (M := gmap string string)
    [("id", v1); ("name", v2); ("desc", v3); ("replica", v4);
     ("cache_strategy", v5); ("tags", v6); ("share_blob_sources", v7);
     ("share_blob_caches", v8); ("replica_state", v9); ("create_time", v10);
     ("update_time", v11)])
  = [("share_blob_sources", v7); ("share_blob_caches", v8);
     ("cache_strategy", v5); ("create_time", v10); ("update_time", v11);
     ("id", v1); ("name", v2); ("replica_state", v9); ("replica", v4);
     ("tags", v6); ("desc", v3)].
Proof. vm_compute. reflexivity. Qed.

Lemma created_map_id (v1 v2 v3 v4 v5 v6 v7 v8 v9 v10 v11 : string) :
  (list_to_map (M := gmap string string)
    [("id", v1); ("name", v2); ("desc", v3); ("replica", v4);
     ("cache_strategy", v5); ("tags", v6); ("share_blob_sources", v7);
     ("share_blob_caches", v8); ("replica_state", v9); ("create_time", v10);
     ("update_time", v11)]) !! "id" = Some v1.
Proof. vm_compute. reflexivity. Qed.

Section Decoding.

Context {rt : GoRuntime}.

(** [GetDataSetImpl] decodes the fields [CreateDataSet] wrote: the replicas
    wanted, or 1 for none; the tags as the split of their join. *)
Lemma decodeElements_created dataSetName dataSetDesc replica cacheStrategy
    dataSetTags dataSetID curTime :
  json_Unmarshal_endpoints "[]" = Ok [] ->
  0 <= replica < 2 ^ 63 ->
  decodeElements (list_to_map (createdFields dataSetName dataSetDesc replica
                                 cacheStrategy dataSetTags dataSetID curTime))
  = Ok (mkDataSet dataSetID dataSetName dataSetDesc
                  (if replica <=? 0 then 1 else replica) cacheStrategy
                  (strings_Split (strings_Join dataSetTags "_") "_") [] []).
Proof.
  intros Hjson Hr. unfold decodeElements, createdFields.
  rewrite created_map_order.
  cbv [fold_left decodeField String.eqb Ascii.eqb Bool.eqb fst snd].
  rewrite Hjson.
  assert (Hreplica : strconv_Atoi (if replica <=? 0 then strconv_FormatInt 1
                                   else strconv_FormatUint replica)
                     = Ok (if replica <=? 0 then 1 else replica)).
  { destruct (replica <=? 0); [reflexivity|]. now apply strconv_Atoi_FormatUint. }
  rewrite Hreplica. cbn.
  assert (Hu : uint_of_int (if replica <=? 0 then 1 else replica)
               = if replica <=? 0 then 1 else replica).
  { unfold uint_of_int. apply Z.mod_small. destruct (replica <=? 0); lia. }
  now rewrite Hu.
Qed.

Lemma CreateDataSet_then_get conf dataSetName dataSetDesc replica cacheStrategy
    dataSetTags dataSetID curTime w payload w' :
  json_Unmarshal_endpoints "[]" = Ok [] ->
  dataSetID <> "" ->
  0 <= replica < 2 ^ 63 ->
  kv w !! datasetKey dataSetID = None ->
  CreateDataSet conf dataSetName dataSetDesc replica cacheStrategy dataSetTags
                dataSetID curTime w = Done (StatusOK payload) w' ->
  GetDataSetImpl dataSetID w'
  = Done (Ok (mkDataSet dataSetID dataSetName dataSetDesc
                        (if replica <=? 0 then 1 else replica) cacheStrategy
                        (strings_Split (strings_Join dataSetTags "_") "_") [] []))
         w'.
Proof.
  intros Hjson Hid Hr Hfresh Hcreate.
  apply CreateDataSet_stored in Hcreate; [|assumption].
  destruct Hcreate as (_ & _ & Hstored).
  unfold GetDataSetImpl. destruct (String.eqb_spec dataSetID ""); [contradiction|].
  unfold bind, redisReadMap, store_read, kv_ReadMap.
  fold (datasetKey dataSetID). rewrite Hstored.
  unfold createdFields at 1. rewrite created_map_id. cbn [default].
  rewrite String.eqb_refl. cbn [negb]. unfold ret.
  now rewrite decodeElements_created.
Qed.

(** C8 (as amended).  For a create input with a fresh id, whose tags list
    is not empty and whose tags hold no underscore, and with at least one
    replica wanted, [GetDataSetImpl] after a successful [CreateDataSet]
    returns the record that was given: the tags round-trip through the
    join and the split, the two endpoint lists are empty and round-trip
    through their JSON text. *)
Theorem C8_create_then_get_round_trip conf dataSetName dataSetDesc replica
    cacheStrategy dataSetTags dataSetID curTime w payload w' :
  json_Unmarshal_endpoints "[]" = Ok [] ->
  dataSetID <> "" ->
  kv w !! datasetKey dataSetID = None ->
  0 < replica < 2 ^ 63 ->
  dataSetTags <> [] ->
  Forall (fun tag => has_char "_" tag = false) dataSetTags ->
  CreateDataSet conf dataSetName dataSetDesc replica cacheStrategy dataSetTags
                dataSetID curTime w = Done (StatusOK payload) w' ->
  GetDataSetImpl dataSetID w'
  = Done (Ok (mkDataSet dataSetID dataSetName dataSetDesc replica cacheStrategy
                        dataSetTags [] []))
         w'.
Proof.
  intros Hjson Hid Hfresh Hr Hne Htags Hcreate.
  assert (Hr' : 0 <= replica < 2 ^ 63) by lia.
  rewrite (CreateDataSet_then_get _ _ _ _ _ _ _ _ _ _ _ Hjson Hid
             Hr' Hfresh Hcreate).
  destruct (Z.leb_spec replica 0); [lia|].
  now rewrite (strings_Split_Join dataSetTags "_" Hne Htags).
Qed.

(** C9 (as amended).  After a successful [CreateDataSet] of a fresh id the
    record has at least one replica and no source: [share_blob_sources]
    is empty until an update gives sources.  That a dataset has a source
    is what [UpdateDataSetImpl] checks before it changes the replicas: on
    the record just created a replica change returns the error and leaves
    the world as it is. *)
Theorem C9_created_dataset_has_no_source conf dataSetName dataSetDesc replica
    cacheStrategy dataSetTags dataSetID curTime w payload w' :
  json_Unmarshal_endpoints "[]" = Ok [] ->
  dataSetID <> "" ->
  kv w !! datasetKey dataSetID = None ->
  0 <= replica < 2 ^ 63 ->
  CreateDataSet conf dataSetName dataSetDesc replica cacheStrategy dataSetTags
                dataSetID curTime w = Done (StatusOK payload) w' ->
  exists created,
    GetDataSetImpl dataSetID w' = Done (Ok created) w'
    /\ 1 <= Replica created
    /\ ShareBlobSources created = []
    /\ forall conf' name' desc' wanted strategy' tags' sources' caches' time',
         0 < wanted -> wanted <> Replica created ->
         UpdateDataSetImpl conf' dataSetID name' desc' wanted strategy' tags'
                           sources' caches' time' w'
         = Done (Some "internal error: share blob sources is valid", None) w'.
Proof.
  intros Hjson Hid Hfresh Hr Hcreate.
  pose proof (CreateDataSet_then_get _ _ _ _ _ _ _ _ _ _ _ Hjson Hid Hr Hfresh Hcreate)
    as Hget.
  eexists. split; [exact Hget|]. cbn [Replica ShareBlobSources].
  split; [destruct (Z.leb_spec replica 0); lia|]. split; [reflexivity|].
  intros conf' name' desc' wanted strategy' tags' sources' caches' time' Hw Hne.
  unfold UpdateDataSetImpl, bind at 1. rewrite Hget. cbn [Replica ShareBlobSources].
  destruct (Z.ltb_spec 0 wanted); [|lia].
  destruct (Z.eqb_spec (if replica <=? 0 then 1 else replica) wanted);
    [congruence | reflexivity].
Qed.

End Decoding.

(** C8, witness: the request of scenario S1 of the spec, with one
    replica. *)
Lemma C8_create_then_get_round_trip_witness :
  GetDataSetImpl (rt := Reference.runtime) "id1" Scenario.created
  = Done (Ok (mkDataSet "id1" "imagenet" "d" 1 "lru" ["cv"; "img"] [] []))
         Scenario.created.
Proof.
  apply (C8_create_then_get_round_trip (rt := Reference.runtime) Scenario.conf1
           "imagenet" "d" 1 "lru" ["cv"; "img"] "id1" 1700000000
           Scenario.empty_world "id1" Scenario.created).
  - reflexivity.
  - discriminate.
  - reflexivity.
  - lia.
  - discriminate.
  - repeat constructor.
  - vm_compute. reflexivity.
Defined.

(** C8, counterexample: created with the empty tags list, the dataset is
    read back with one tag, the empty string. *)
Lemma C8_counterexample :
  returned (CreateDataSet (rt := Reference.runtime) Scenario.conf1 "imagenet" "d"
                          1 "lru" [] "id2" 1700000000 Scenario.empty_world)
  = Some (StatusOK "id2")
  /\ returned (GetDataSetImpl (rt := Reference.runtime) "id2"
                              Scenario.created_untagged)
     = Some (Ok (mkDataSet "id2" "imagenet" "d" 1 "lru" [""] [] []))
  /\ returned (GetDataSetImpl (rt := Reference.runtime) "id2"
                              Scenario.created_untagged)
     <> Some (Ok (mkDataSet "id2" "imagenet" "d" 1 "lru" [] [] [])).
Proof. vm_compute. repeat split; try reflexivity. discriminate. Qed.

(** C9, witness: the dataset of scenario S1. *)
Lemma C9_created_dataset_has_no_source_witness :
  exists created,
    GetDataSetImpl (rt := Reference.runtime) "id1" Scenario.created
    = Done (Ok created) Scenario.created
    /\ 1 <= Replica created
    /\ ShareBlobSources created = []
    /\ forall conf' name' desc' wanted strategy' tags' sources' caches' time',
         0 < wanted -> wanted <> Replica created ->
         UpdateDataSetImpl (rt := Reference.runtime) conf' "id1" name' desc'
                           wanted strategy' tags' sources' caches' time'
                           Scenario.created
         = Done (Some "internal error: share blob sources is valid", None)
                Scenario.created.
Proof.
  apply (C9_created_dataset_has_no_source (rt := Reference.runtime) Scenario.conf1
           "imagenet" "d" 1 "lru" ["cv"; "img"] "id1" 1700000000
           Scenario.empty_world "id1" Scenario.created).
  - reflexivity.
  - discriminate.
  - reflexivity.
  - lia.
  - vm_compute. reflexivity.
Defined.

(** C9, counterexample: the dataset just created has one replica and no
    source. *)
Lemma C9_counterexample :
  exists created,
    returned (CreateDataSet (rt := Reference.runtime) Scenario.conf1 "imagenet" "d"
                            1 "lru" ["cv"; "img"] "id1" 1700000000
                            Scenario.empty_world)
    = Some (StatusOK "id1")
    /\ returned (GetDataSetImpl (rt := Reference.runtime) "id1" Scenario.created)
       = Some (Ok created)
    /\ 0 < Replica created
    /\ ~ (1 <= List.length (ShareBlobSources created))%nat.
Proof.
  exists (mkDataSet "id1" "imagenet" "d" 1 "lru" ["cv"; "img"] [] []).
  vm_compute. repeat split; try reflexivity. intros H. inversion H.
Qed.

(** ** Programs that do not panic *)

Section Hoare.

Lemma hoare_conseq {A} (P P' : store -> Prop) (c : M A) (Q Q' : A -> store -> Prop) :
  hoare P' c Q' ->
  (forall s, P s -> P' s) -> (forall a s, Q' a s -> Q a s) ->
  hoare P c Q.
Proof.
  intros Hc HP HQ w Hw. destruct (Hc w (HP _ Hw)) as (a & w' & Hrun & Hq).
  eauto.
Qed.

Lemma hoare_ret {A} (P : store -> Prop) (a : A) (Q : A -> store -> Prop) :
  (forall s, P s -> Q a s) -> hoare P (ret a) Q.
Proof. intros H w Hw. exists a, w. split; [reflexivity | auto]. Qed.

Lemma hoare_bind {A B} (P : store -> Prop) (c : M A) (Q : A -> store -> Prop)
    (k : A -> M B) (R : B -> store -> Prop) :
  hoare P c Q -> (forall a, hoare (Q a) (k a) R) -> hoare P (bind c k) R.
Proof.
  intros Hc Hk w Hw. destruct (Hc w Hw) as (a & w1 & Hrun & Hq).
  destruct (Hk a w1 Hq) as (b & w2 & Hrun2 & Hr).
  exists b, w2. unfold bind. now rewrite Hrun.
Qed.

Lemma hoare_read {A} (P : store -> Prop) (f : store -> result A) :
  hoare P (store_read f) (fun r s => P s /\ r = f s).
Proof. intros w Hw. exists (f (kv w)), w. auto. Qed.

Lemma hoare_write (P : store -> Prop) (c : command) (f : store -> result store) :
  (forall s s', f s = Ok s' -> P s -> P s') ->
  hoare P (store_write c f) (fun _ s => P s).
Proof.
  intros Hf w Hw. unfold store_write.
  destruct (f (kv w)) as [s'|e] eqn:Hfs; eexists _, _; (split; [reflexivity|]);
    cbn; eauto.
Qed.

Lemma hoare_when (P : store -> Prop) b c :
  hoare P c (fun _ s => P s) -> hoare P (when b c) (fun _ s => P s).
Proof. destruct b; [auto|]. intros _. now apply hoare_ret. Qed.

Lemma hoare_orReturn (P : store -> Prop) c k (Q : option error -> store -> Prop) :
  hoare P c (fun _ s => P s) ->
  hoare P k Q -> (forall e s, P s -> Q (Some e) s) ->
  hoare P (orReturn c k) Q.
Proof.
  intros Hc Hk Hq. eapply hoare_bind; [exact Hc|].
  intros [e|]; [|assumption]. apply hoare_ret. auto.
Qed.

Lemma hoare_forEach {A} (P : store -> Prop) (body : A -> M (option error)) l :
  (forall x, In x l -> hoare P (body x) (fun _ s => P s)) ->
  hoare P (forEach body l) (fun _ s => P s).
Proof.
  induction l as [|x l IH]; intros Hb; cbn [forEach].
  - now apply hoare_ret.
  - apply hoare_orReturn; [apply Hb; now left | | auto].
    apply IH. intros y Hy. apply Hb. now right.
Qed.

Lemma hoare_defer {A} (P : store -> Prop) (d : M unit) (body : M A)
    (Q : A -> store -> Prop) :
  hoare P body Q -> hoare (fun _ => True) d (fun _ _ => True) ->
  hoare P (defer d body) (fun _ _ => True).
Proof.
  intros Hb Hd w Hw. destruct (Hb w Hw) as (a & w1 & Hrun & _).
  destruct (Hd w1 I) as (u & w2 & Hrun2 & _).
  exists a, w2. unfold defer. now rewrite Hrun, Hrun2.
Qed.

Lemma hoare_sliced {A} (P : store -> Prop) (l : list A) :
  hoare P (sliced (Some l)) (fun r s => P s /\ r = l).
Proof. intros w Hw. exists l, w. auto. Qed.

Lemma hoare_http_Do (P : store -> Prop) req :
  hoare P (http_Do req) (fun _ s => P s).
Proof.
  intros w Hw. unfold http_Do. destruct (net w); eexists _, _; split;
    try reflexivity; assumption.
Qed.

End Hoare.

(** ** Writes that leave the versions and the replica directory alone *)

Section Frames.

Context {rt : GoRuntime}.

Lemma versions_of_insert (s : store) dataSetID k v :
  version_key_of dataSetID k = false ->
  urchin_dataset_vesion.versions_of (<[k := v]> s) dataSetID
  ≡ₚ urchin_dataset_vesion.versions_of s dataSetID.
Proof.
  intros Hk. unfold urchin_dataset_vesion.versions_of.
  set (f := fun kv : string * rvalue => _).
  assert (Hf : forall x, f (k, x) = None).
  { intros x. subst f. destruct x; cbn [fst snd]; try reflexivity.
    unfold version_key_of in Hk. now rewrite Hk. }
  destruct (s !! k) as [v0|] eqn:Hs.
  - rewrite <- (insert_delete_eq s).
    rewrite map_to_list_insert by apply lookup_delete_eq.
    rewrite <- (map_to_list_delete s k v0 Hs). cbn [omap list_omap].
    now rewrite !Hf.
  - rewrite map_to_list_insert by assumption. cbn [omap list_omap].
    now rewrite Hf.
Qed.

Lemma versions_of_delete (s : store) dataSetID k :
  version_key_of dataSetID k = false ->
  urchin_dataset_vesion.versions_of (delete k s) dataSetID
  ≡ₚ urchin_dataset_vesion.versions_of s dataSetID.
Proof.
  intros Hk. unfold urchin_dataset_vesion.versions_of.
  set (f := fun kv : string * rvalue => _).
  assert (Hf : forall x, f (k, x) = None).
  { intros x. subst f. destruct x; cbn [fst snd]; try reflexivity.
    unfold version_key_of in Hk. now rewrite Hk. }
  destruct (s !! k) as [v0|] eqn:Hs.
  - rewrite <- (map_to_list_delete s k v0 Hs). cbn [omap list_omap].
    now rewrite Hf.
  - now rewrite delete_id.
Qed.

Lemma version_key_of_datasetKey a b : version_key_of a (datasetKey b) = false.
Proof. reflexivity. Qed.

Lemma version_key_of_replicaKey a b : version_key_of a (replicaKey b) = false.
Proof. reflexivity. Qed.

Lemma version_key_of_index a b kind value :
  version_key_of a (MakeStorageKey [b; kind; value] StoragePrefixDataset) = false.
Proof. reflexivity. Qed.

Lemma storedReplicaHosts_insert (s : store) dataSetID k v :
  k <> replicaKey dataSetID ->
  storedReplicaHosts (<[k := v]> s) dataSetID = storedReplicaHosts s dataSetID.
Proof. intros Hk. unfold storedReplicaHosts. now rewrite lookup_insert_ne. Qed.

Lemma storedReplicaHosts_delete (s : store) dataSetID k :
  k <> replicaKey dataSetID ->
  storedReplicaHosts (delete k s) dataSetID = storedReplicaHosts s dataSetID.
Proof. intros Hk. unfold storedReplicaHosts. now rewrite lookup_delete_ne. Qed.

End Frames.

Section Stable.

Context {rt : GoRuntime}.

Lemma stable_versions dataSetID wanted :
  stable (fun k => negb (version_key_of dataSetID k))
         (fun s => Forall (version_ok wanted)
                          (urchin_dataset_vesion.versions_of s dataSetID)).
Proof.
  split.
  - intros s k v Hk H. apply negb_true_iff in Hk.
    now rewrite versions_of_insert.
  - intros s k Hk H. apply negb_true_iff in Hk.
    now rewrite versions_of_delete.
Qed.

Lemma stable_hosts dataSetID (R : result (list string) -> Prop) :
  stable (fun k => bool_decide (k <> replicaKey dataSetID))
         (fun s => R (storedReplicaHosts s dataSetID)).
Proof.
  split.
  - intros s k v Hk H. apply bool_decide_eq_true in Hk.
    now rewrite storedReplicaHosts_insert.
  - intros s k Hk H. apply bool_decide_eq_true in Hk.
    now rewrite storedReplicaHosts_delete.
Qed.

Lemma stable_and safe1 safe2 (I J : store -> Prop) :
  stable safe1 I -> stable safe2 J ->
  stable (fun k => safe1 k && safe2 k) (fun s => I s /\ J s).
Proof.
  intros [Hi1 Hi2] [Hj1 Hj2]. split.
  - intros s k v Hk [HI HJ]. apply andb_true_iff in Hk. destruct Hk. split; auto.
  - intros s k Hk [HI HJ]. apply andb_true_iff in Hk. destruct Hk. split; auto.
Qed.

Variable safe : string -> bool.
Variable I : store -> Prop.
Hypothesis I_stable : stable safe I.

Lemma kv_SetMapElements_Ok s key values s' :
  kv_SetMapElements s key values = Ok s' -> exists v, s' = <[key := v]> s.
Proof. unfold kv_SetMapElements. repeat case_match; intros [= <-]; eauto. Qed.

Lemma hoare_read_inv {A} (f : store -> result A) :
  hoare I (store_read f) (fun _ s => I s).
Proof. intros w Hw. exists (f (kv w)), w. auto. Qed.

Lemma hoare_redisSet key value :
  safe key = true -> hoare I (redisSet key value) (fun _ s => I s).
Proof.
  intros Hk. apply hoare_write. intros s s' [= <-]. now apply I_stable.
Qed.

Lemma hoare_redisDel key :
  safe key = true -> hoare I (redisDel key) (fun _ s => I s).
Proof.
  intros Hk. apply hoare_write. intros s s' [= <-]. now apply I_stable.
Qed.

Lemma hoare_redisSetMapElements key values :
  safe key = true -> hoare I (redisSetMapElements key values) (fun _ s => I s).
Proof.
  intros Hk. apply hoare_write. intros s s' Hs.
  apply kv_SetMapElements_Ok in Hs. destruct Hs as [v ->]. now apply I_stable.
Qed.

Lemma hoare_redisSetMapElement key field value :
  safe key = true -> hoare I (redisSetMapElement key field value) (fun _ s => I s).
Proof.
  intros Hk. apply hoare_write. intros s s' Hs.
  apply kv_SetMapElements_Ok in Hs. destruct Hs as [v ->]. now apply I_stable.
Qed.

Lemma hoare_setReplicaState dataSetID state :
  safe (datasetKey dataSetID) = true ->
  hoare I (setReplicaState dataSetID state) (fun _ s => I s).
Proof. intros Hk. unfold setReplicaState. now apply hoare_redisSetMapElement. Qed.

Lemma hoare_updateDataSetFunc dataSetID dataSetName dataSetDesc wanted
    cacheStrategy dataSetTags shareBlobSources shareBlobCaches curTime :
  safe (datasetKey dataSetID) = true ->
  (forall tags, safe (tagsIndexKey dataSetID tags) = true) ->
  hoare I (updateDataSetFunc dataSetID dataSetName dataSetDesc wanted
             cacheStrategy dataSetTags shareBlobSources shareBlobCaches curTime)
          (fun _ s => I s).
Proof.
  intros Hd Ht. unfold updateDataSetFunc. fold (datasetKey dataSetID).
  repeat (apply hoare_orReturn;
          [apply hoare_when; try now apply hoare_redisSetMapElement | | auto]).
  - eapply hoare_bind; [apply hoare_read_inv|].
    intros [oldTags|e]; [|now apply hoare_ret].
    eapply hoare_bind; [apply hoare_redisDel; apply Ht|]. intros ?.
    apply hoare_orReturn; [now apply hoare_redisSetMapElement | | auto].
    apply hoare_redisSet. apply Ht.
  - eapply hoare_bind; [apply hoare_redisSetMapElement; assumption|].
    intros ?. now apply hoare_ret.
Qed.

End Stable.

(** ** Scale-down *)

Lemma slice_to_in_range {A} (zero : A) spare (l : list A) n :
  0 <= n <= Z.of_nat (List.length l) ->
  slice_to zero spare l n = Some (firstn (Z.to_nat n) l).
Proof.
  intros [H0 Hn]. unfold slice_to.
  destruct (Z.ltb_spec n 0); [lia|].
  destruct (Z.leb_spec n (Z.of_nat (List.length l))); [reflexivity | lia].
Qed.

Lemma slice_from_in_range {A} (l : list A) n :
  0 <= n <= Z.of_nat (List.length l) ->
  slice_from l n = Some (skipn (Z.to_nat n) l).
Proof.
  intros [H0 Hn]. unfold slice_from.
  destruct (Z.leb_spec 0 n); [|lia].
  destruct (Z.leb_spec n (Z.of_nat (List.length l))); [reflexivity | lia].
Qed.

Lemma slice_from_out_of_range {A} (l : list A) n :
  Z.of_nat (List.length l) < n -> slice_from l n = None.
Proof.
  intros Hn. unfold slice_from.
  destruct (Z.leb_spec n (Z.of_nat (List.length l))); [lia|].
  now rewrite andb_false_r.
Qed.

Lemma slice_to_out_of_range {A} (zero : A) spare (l : list A) n :
  Z.of_nat (List.length l + spare) < n -> slice_to zero spare l n = None.
Proof.
  intros Hn. unfold slice_to.
  destruct (Z.ltb_spec n 0); [reflexivity|].
  destruct (Z.leb_spec n (Z.of_nat (List.length l))); [lia|].
  destruct (Z.leb_spec n (Z.of_nat (List.length l + spare))); [lia|reflexivity].
Qed.

Section ScaleDownPieces.

Context {rt : GoRuntime}.

Lemma getReplicaHosts_run dataSetID w :
  getReplicaHosts dataSetID w = Done (storedReplicaHosts (kv w) dataSetID) w.
Proof.
  unfold getReplicaHosts, bind, redisExists, redisGet, store_read, kv_Exists,
    kv_Get, storedReplicaHosts, ret.
  destruct (kv w !! replicaKey dataSetID) as [[v|h|z|l]|] eqn:Hk.
  all: try (rewrite bool_decide_eq_true_2 by (eexists; reflexivity);
            cbn beta; rewrite Hk; reflexivity).
  rewrite bool_decide_eq_false_2; [reflexivity|]. intros [? ?]. discriminate.
Qed.

(** [selectScaleDownReplicaHosts], step by step. *)
Lemma selectScaleDownReplicaHosts_run dataSetID wanted w :
  selectScaleDownReplicaHosts dataSetID wanted w
  = match storedReplicaHosts (kv w) dataSetID with
    | Err e => Done (Err e) w
    | Ok hosts =>
        match slice_to "" (spare_of strings_spare (List.length hosts)) hosts wanted with
        | None => Panic w
        | Some kept =>
            let w' :=
              mkWorld (<[replicaKey dataSetID := RString (json_Marshal_strings kept)]>
                         (kv w))
                      (net w)
                      (log w ++ [Store (SET (replicaKey dataSetID)
                                            (json_Marshal_strings kept))]) in
            match slice_from hosts wanted with
            | None => Panic w'
            | Some dropped => Done (Ok dropped) w'
            end
        end
    end.
Proof.
  unfold selectScaleDownReplicaHosts, bind at 1. rewrite getReplicaHosts_run.
  destruct (storedReplicaHosts (kv w) dataSetID) as [hosts|e]; [|reflexivity].
  unfold bind at 1.
  destruct (slice_to "" _ hosts wanted) as [kept|]; [|reflexivity].
  cbn [sliced]. unfold ret at 1. unfold bind at 1.
  unfold redisSet, store_write, kv_Set. cbn [kv net log].
  unfold bind. destruct (slice_from hosts wanted); reflexivity.
Qed.

(** The loop over the surplus hosts sends one request to each of them,
    whatever the answers, takes one answer for each and leaves the store
    alone. *)
Lemma destroy_loop_run dataSetID bucketName folderKey hosts w :
  forEach (fun replicaHost =>
             let* _ := destroySeedPeerDataset dataSetID replicaHost
                         bucketName folderKey in
             ret None) hosts w
  = Done None
      (mkWorld (kv w) (skipn (List.length hosts) (net w))
               (log w ++ map (fun h => Http (destroyRequest h bucketName folderKey))
                             hosts)).
Proof.
  revert w. induction hosts as [|h hosts IH]; intros w.
  - cbn. now rewrite app_nil_r, world_eta.
  - cbn [forEach]. unfold orReturn, bind at 1.
    assert (Hone : exists e,
               (let* _ := destroySeedPeerDataset dataSetID h bucketName folderKey in
                ret (@None error)) w
               = Done None (mkWorld (kv w) (skipn 1 (net w))
                                    (log w ++ [Http (destroyRequest h bucketName folderKey)]))
               /\ e = tt).
    { exists tt. split; [|reflexivity].
      unfold destroySeedPeerDataset, bind, http_Do, ret.
      fold (destroyRequest h bucketName folderKey).
      destruct (net w) as [|[e|st body] n]; cbn [kv net log skipn]; try reflexivity.
      now destruct (negb (is2xx st)). }
    destruct Hone as (_ & -> & _). rewrite IH. cbn [kv net log map List.length].
    rewrite <- app_assoc. cbn [app]. f_equal. f_equal.
    now rewrite skipn_skipn, Nat.add_comm.
Qed.

Lemma hoare_reset_state dataSetID :
  hoare (fun _ => True)
        (let* _ := setReplicaState dataSetID ReplicaNoScale in ret tt)
        (fun _ _ => True).
Proof.
  apply (hoare_bind _ _ (fun _ _ => True)); [|intros ?; now apply hoare_ret].
  unfold setReplicaState, redisSetMapElement.
  apply (hoare_write (fun _ => True)). auto.
Qed.

Lemma hoare_scaleDownVersion dataSetID wanted v :
  0 < wanted -> version_ok wanted v ->
  hoare (fun _ => True) (scaleDownVersion dataSetID wanted v) (fun _ _ => True).
Proof.
  intros Hw Hv. unfold scaleDownVersion.
  destruct (json_Unmarshal_endpoints (urchin_dataset_vesion.MetaCaches v))
    as [[|c metaCaches]|e] eqn:Hjson; try now apply hoare_ret.
  destruct (Hv _ Hjson) as [Hnil|Hlen]; [discriminate|].
  rewrite slice_to_in_range by lia.
  eapply hoare_bind; [apply hoare_sliced|]. intros ?.
  unfold urchin_dataset_vesion.UpdateDataSetVersionImpl, redisSetMapElements.
  eapply hoare_conseq;
    [apply (hoare_write (fun _ => True)); auto | intros; exact I | intros; exact I].
Qed.

Lemma hoare_scaleDownDatasetVersionInfo dataSetID wanted :
  0 < wanted ->
  hoare (fun s => Forall (version_ok wanted)
                         (urchin_dataset_vesion.versions_of s dataSetID))
        (scaleDownDatasetVersionInfo dataSetID wanted)
        (fun _ _ => True).
Proof.
  intros Hw w Hall.
  unfold scaleDownDatasetVersionInfo, bind at 1.
  unfold urchin_dataset_vesion.ListAllDataSetVersions, store_read.
  destruct (urchin_dataset_vesion.versions_of (kv w) dataSetID)
    as [|v l] eqn:Hl; [now eexists _, _|].
  set (vs := v :: l) in *.
  destruct (hoare_forEach (fun _ => True) (scaleDownVersion dataSetID wanted) vs)
    with (w := w) as (a & w' & Hrun & _);
    [|exact I|exists a, w'; split; [exact Hrun | exact I]].
  intros x Hx. apply hoare_scaleDownVersion; [assumption|].
  apply (proj1 (List.Forall_forall _ _) Hall). assumption.
Qed.

Lemma slice_from_Some {A} (l : list A) n d :
  slice_from l n = Some d ->
  0 <= n <= Z.of_nat (List.length l) /\ d = skipn (Z.to_nat n) l.
Proof.
  unfold slice_from. intros H.
  destruct (Z.leb_spec 0 n), (Z.leb_spec n (Z.of_nat (List.length l)));
    cbn in H; try discriminate.
  injection H as <-. split; [lia | reflexivity].
Qed.

Lemma setReplicaState_cases dataSetID state s :
  (exists e, forall n l,
      setReplicaState dataSetID state (mkWorld s n l) = Done (Some e) (mkWorld s n l))
  \/ (exists v, forall n l,
         setReplicaState dataSetID state (mkWorld s n l)
         = Done None
             (mkWorld (<[datasetKey dataSetID := v]> s) n
                (l ++ [Store (HMSET (datasetKey dataSetID)
                                [("replica_state", strconv_FormatInt state)])]))).
Proof.
  unfold setReplicaState, redisSetMapElement, store_write. cbn [kv net log].
  fold (datasetKey dataSetID).
  destruct (kv_SetMapElement s (datasetKey dataSetID) "replica_state" _)
    as [s'|e] eqn:Hs.
  - right. apply kv_SetMapElements_Ok in Hs. destruct Hs as [v ->].
    exists v. reflexivity.
  - left. exists e. reflexivity.
Qed.

(** The deferred reset of [replica_state]: one write at most, and no
    panic. *)
Lemma reset_state_run dataSetID s :
  exists s' evs,
    Forall (eq (Store (HMSET (datasetKey dataSetID)
                         [("replica_state", strconv_FormatInt ReplicaNoScale)])))
           evs
    /\ forall n l,
         (let* _ := setReplicaState dataSetID ReplicaNoScale in ret tt)
           (mkWorld s n l)
         = Done tt (mkWorld s' n (l ++ evs)).
Proof.
  destruct (setReplicaState_cases dataSetID ReplicaNoScale s) as [[e He]|[v Hv]].
  - exists s, []. split; [constructor|]. intros n l. unfold bind.
    rewrite He. unfold ret. now rewrite app_nil_r.
  - eexists _, [_]. split; [repeat constructor|]. intros n l. unfold bind.
    rewrite Hv. reflexivity.
Qed.

Lemma defer_reset_run {A} dataSetID (body : M A) s r s1 k evs1 :
  (forall n l, body (mkWorld s n l) = finish r (mkWorld s1 (skipn k n) (l ++ evs1))) ->
  exists s' evs2,
    Forall (eq (Store (HMSET (datasetKey dataSetID)
                         [("replica_state", strconv_FormatInt ReplicaNoScale)])))
           evs2
    /\ forall n l,
         defer (let* _ := setReplicaState dataSetID ReplicaNoScale in ret tt) body
               (mkWorld s n l)
         = finish r (mkWorld s' (skipn k n) (l ++ evs1 ++ evs2)).
Proof.
  intros Hb. destruct (reset_state_run dataSetID s1) as (s' & evs2 & Hevs & Hd).
  exists s', evs2. split; [assumption|]. intros n l. unfold defer. rewrite Hb.
  destruct r; cbn [finish]; rewrite Hd, app_assoc; reflexivity.
Qed.

Lemma bind_Done {A B} (c : M A) (k : A -> M B) w a w' :
  c w = Done a w' -> bind c k w = k a w'.
Proof. intros H. unfold bind. now rewrite H. Qed.

Lemma bind_Panic {A B} (c : M A) (k : A -> M B) w w' :
  c w = Panic w' -> bind c k w = Panic w'.
Proof. intros H. unfold bind. now rewrite H. Qed.

Lemma orReturn_None c k w w' :
  c w = Done None w' -> orReturn c k w = k w'.
Proof. intros H. unfold orReturn, bind. now rewrite H. Qed.

Lemma orReturn_Some c k w e w' :
  c w = Done (Some e) w' -> orReturn c k w = Done (Some e) w'.
Proof. intros H. unfold orReturn, bind. now rewrite H. Qed.

Lemma orReturn_Panic c k w w' :
  c w = Panic w' -> orReturn c k w = Panic w'.
Proof. intros H. unfold orReturn, bind. now rewrite H. Qed.

Ltac run_done :=
  unfold ret, panic; cbn [finish List.length skipn map app sliced];
  rewrite ?app_nil_r, <- ?app_assoc; reflexivity.

(** A scale-down, step by step: what it returns, the store it leaves, the
    writes before the calls to the peers, the hosts called and the writes
    after the calls are the same whatever the peers answer. *)
Lemma scaleDown_run dataSetID dataSetName dataSetDesc wanted cacheStrategy
    dataSetTags shareBlobSources old bucketName folderKey curTime s :
  exists res s' evs1 destroyed evs2,
    (forall n l,
       scaleDown dataSetID dataSetName dataSetDesc wanted cacheStrategy
         dataSetTags shareBlobSources old bucketName folderKey curTime
         (mkWorld s n l)
       = finish res
           (mkWorld s' (skipn (List.length destroyed) n)
              (l ++ evs1
                 ++ map (fun h => Http (destroyRequest h bucketName folderKey))
                        destroyed
                 ++ evs2)))
    /\ Forall is_Store evs1
    /\ Forall (eq (Store (HMSET (datasetKey dataSetID)
                            [("replica_state", strconv_FormatInt ReplicaNoScale)])))
              evs2
    /\ (destroyed <> [] ->
        res = Some None
        /\ exists hosts pre post,
             storedReplicaHosts s dataSetID = Ok hosts
             /\ destroyed = skipn (Z.to_nat wanted) hosts
             /\ evs1 = pre ++ Store (SET (replicaKey dataSetID)
                                       (json_Marshal_strings
                                          (firstn (Z.to_nat wanted) hosts)))
                            :: post).
Proof.
  unfold scaleDown.
  match goal with |- context [defer _ ?b] => set (body := b) end.
  destruct (setReplicaState_cases dataSetID ReplicaScaleDown s) as [[e He]|[v Hv]].
  { exists (Some (Some e)), s, [], [], []. split; [|split; [|split]].
    - intros n l. unfold bind. rewrite He. cbn. now rewrite app_nil_r.
    - constructor.
    - constructor.
    - intros H. now contradiction H. }
  set (s0 := <[datasetKey dataSetID := v]> s) in *.
  set (ev0 := Store (HMSET (datasetKey dataSetID)
                       [("replica_state", strconv_FormatInt ReplicaScaleDown)])) in *.
  assert (Hbody : exists res s1 evs destroyed,
             (forall n l,
                body (mkWorld s0 n l)
                = finish res
                    (mkWorld s1 (skipn (List.length destroyed) n)
                       (l ++ evs
                          ++ map (fun h => Http (destroyRequest h bucketName folderKey))
                                 destroyed)))
             /\ Forall is_Store evs
             /\ (destroyed <> [] ->
                 res = Some None
                 /\ exists hosts post,
                      storedReplicaHosts s0 dataSetID = Ok hosts
                      /\ destroyed = skipn (Z.to_nat wanted) hosts
                      /\ evs = Store (SET (replicaKey dataSetID)
                                        (json_Marshal_strings
                                           (firstn (Z.to_nat wanted) hosts)))
                               :: post)).
  { subst body.
    assert (Hsel := fun n l =>
              selectScaleDownReplicaHosts_run dataSetID wanted (mkWorld s0 n l)).
    cbn [kv net log] in Hsel.
    set (ev1 := fun kept : list string =>
                  Store (SET (replicaKey dataSetID) (json_Marshal_strings kept))).
    destruct (storedReplicaHosts s0 dataSetID) as [hosts|e] eqn:Hhosts.
    2: { exists (Some (Some e)), s0, [], []. split; [|split; [constructor|]].
         - intros n l. rewrite (bind_Done _ _ _ _ _ (Hsel n l)). run_done.
         - intros H. now contradiction H. }
    destruct (slice_to "" _ hosts wanted) as [kept|] eqn:Hkept.
    2: { exists None, s0, [], []. split; [|split; [constructor|]].
         - intros n l. rewrite (bind_Panic _ _ _ _ (Hsel n l)). run_done.
         - intros H. now contradiction H. }
    set (s1 := <[replicaKey dataSetID := RString (json_Marshal_strings kept)]> s0) in *.
    destruct (slice_from hosts wanted) as [dropped|] eqn:Hdropped.
    2: { exists None, s1, [ev1 kept], []. split; [|split; [repeat constructor|]].
         - intros n l. rewrite (bind_Panic _ _ _ _ (Hsel n l)). run_done.
         - intros H. now contradiction H. }
    apply slice_from_Some in Hdropped. destruct Hdropped as [Hrange ->].
    rewrite slice_to_in_range in Hkept by assumption. injection Hkept as <-.
    set (kept := firstn (Z.to_nat wanted) hosts) in *.
    cbn beta iota zeta in Hsel.
    destruct (slice_to UrchinEndpoint_zero
                (spare_of endpoints_spare (List.length (ShareBlobCaches old)))
                (ShareBlobCaches old) wanted) as [caches|] eqn:Hcaches.
    2: { exists None, s1, [ev1 kept], []. split; [|split; [repeat constructor|]].
         - intros n l. rewrite (bind_Done _ _ _ _ _ (Hsel n l)). cbn beta iota.
           rewrite (bind_Panic (sliced None) _ _ _ eq_refl). run_done.
         - intros H. now contradiction H. }
    destruct (store_only_updateDataSetFunc dataSetID dataSetName dataSetDesc wanted
                cacheStrategy dataSetTags shareBlobSources caches curTime s1)
      as (r2 & s2 & evs2 & Hevs2 & H2).
    destruct r2 as [[e|]|].
    1: { exists (Some (Some e)), s2, (ev1 kept :: evs2), [].
         split; [|split; [constructor; [exact I | assumption]|]].
         - intros n l. rewrite (bind_Done _ _ _ _ _ (Hsel n l)). cbn beta iota.
           rewrite (bind_Done (sliced (Some caches)) _ _ caches _ eq_refl).
           rewrite (orReturn_Some _ _ _ _ _ (H2 _ _)). run_done.
         - intros H. now contradiction H. }
    2: { exists None, s2, (ev1 kept :: evs2), [].
         split; [|split; [constructor; [exact I | assumption]|]].
         - intros n l. rewrite (bind_Done _ _ _ _ _ (Hsel n l)). cbn beta iota.
           rewrite (bind_Done (sliced (Some caches)) _ _ caches _ eq_refl).
           rewrite (orReturn_Panic _ _ _ _ (H2 _ _)). run_done.
         - intros H. now contradiction H. }
    destruct (store_only_scaleDownDatasetVersionInfo dataSetID wanted s2)
      as (r3 & s3 & evs3 & Hevs3 & H3).
    assert (Hevs : Forall is_Store (ev1 kept :: evs2 ++ evs3)).
    { constructor; [exact I|]. apply Forall_app. auto. }
    destruct r3 as [[e|]|].
    1: { exists (Some (Some e)), s3, (ev1 kept :: evs2 ++ evs3), [].
         split; [|split; [assumption|]].
         - intros n l. rewrite (bind_Done _ _ _ _ _ (Hsel n l)). cbn beta iota.
           rewrite (bind_Done (sliced (Some caches)) _ _ caches _ eq_refl).
           rewrite (orReturn_None _ _ _ _ (H2 _ _)).
           rewrite (orReturn_Some _ _ _ _ _ (H3 _ _)). run_done.
         - intros H. now contradiction H. }
    2: { exists None, s3, (ev1 kept :: evs2 ++ evs3), [].
         split; [|split; [assumption|]].
         - intros n l. rewrite (bind_Done _ _ _ _ _ (Hsel n l)). cbn beta iota.
           rewrite (bind_Done (sliced (Some caches)) _ _ caches _ eq_refl).
           rewrite (orReturn_None _ _ _ _ (H2 _ _)).
           rewrite (orReturn_Panic _ _ _ _ (H3 _ _)). run_done.
         - intros H. now contradiction H. }
    exists (Some None), s3, (ev1 kept :: evs2 ++ evs3),
      (skipn (Z.to_nat wanted) hosts).
    split; [|split; [assumption|]].
    - intros n l. rewrite (bind_Done _ _ _ _ _ (Hsel n l)). cbn beta iota.
      rewrite (bind_Done (sliced (Some caches)) _ _ caches _ eq_refl).
      rewrite (orReturn_None _ _ _ _ (H2 _ _)).
      rewrite (orReturn_None _ _ _ _ (H3 _ _)).
      rewrite (bind_Done _ _ _ _ _ (destroy_loop_run _ _ _ _ _)).
      cbn [kv net log]. run_done.
    - intros _. split; [reflexivity|]. exists hosts, (evs2 ++ evs3). auto. }
  destruct Hbody as (res & s1 & evs & destroyed & Hrun & Hevs & Hd).
  destruct (defer_reset_run dataSetID body s0 res s1 (List.length destroyed)
              (evs ++ map (fun h => Http (destroyRequest h bucketName folderKey))
                          destroyed) Hrun)
    as (s' & evs2 & Hevs2 & Hdefer).
  exists res, s', (ev0 :: evs), destroyed, evs2. split; [|split; [|split]].
  - intros n l. rewrite (bind_Done _ _ _ _ _ (Hv n l)). rewrite Hdefer.
    rewrite <- !app_assoc. reflexivity.
  - constructor; [exact I | assumption].
  - assumption.
  - intros Hne. destruct (Hd Hne) as (-> & hosts & post & Hh & -> & ->).
    split; [reflexivity|]. exists hosts, [ev0], post.
    subst s0. rewrite storedReplicaHosts_insert in Hh
      by (apply not_eq_sym, replicaKey_not_datasetKey).
    auto.
Qed.

Lemma GetDataSetImpl_store dataSetID w r n l :
  GetDataSetImpl dataSetID w = Done r w ->
  GetDataSetImpl dataSetID (mkWorld (kv w) n l) = Done r (mkWorld (kv w) n l).
Proof.
  unfold GetDataSetImpl. destruct (String.eqb dataSetID "").
  { unfold ret. intros [= <-]. reflexivity. }
  unfold bind, redisReadMap, store_read. cbn [kv].
  destruct (kv_ReadMap (kv w) _) as [elements|e]; [destruct (negb _)|];
    unfold ret; intros [= <-]; reflexivity.
Qed.


(** *** In range: no panic *)

Lemma hoare_selectScaleDownReplicaHosts dataSetID wanted :
  0 < wanted ->
  hoare (fun s => Forall (version_ok wanted)
                         (urchin_dataset_vesion.versions_of s dataSetID)
                  /\ forall hosts,
                       storedReplicaHosts s dataSetID = Ok hosts ->
                       wanted <= Z.of_nat (List.length hosts))
        (selectScaleDownReplicaHosts dataSetID wanted)
        (fun _ s => Forall (version_ok wanted)
                           (urchin_dataset_vesion.versions_of s dataSetID)).
Proof.
  intros Hw w [Hv Hh]. rewrite selectScaleDownReplicaHosts_run.
  destruct (storedReplicaHosts (kv w) dataSetID) as [hosts|e]; [|eauto].
  specialize (Hh _ eq_refl).
  rewrite slice_to_in_range, slice_from_in_range by lia.
  eexists _, _. split; [reflexivity|]. cbn [kv].
  rewrite versions_of_insert; [assumption | apply version_key_of_replicaKey].
Qed.

Lemma hoare_destroy_loop dataSetID bucketName folderKey hosts :
  hoare (fun _ => True)
        (let* _ := forEach (fun replicaHost =>
                              let* _ := destroySeedPeerDataset dataSetID replicaHost
                                          bucketName folderKey in
                              ret None) hosts in
         ret (@None error))
        (fun _ _ => True).
Proof.
  intros w _. rewrite (bind_Done _ _ _ _ _ (destroy_loop_run _ _ _ _ _)).
  eexists _, _. split; [reflexivity | exact I].
Qed.

Lemma hoare_scaleDown dataSetID dataSetName dataSetDesc wanted cacheStrategy
    dataSetTags shareBlobSources old bucketName folderKey curTime :
  0 < wanted ->
  wanted <= Z.of_nat (List.length (ShareBlobCaches old)) ->
  hoare (fun s => Forall (version_ok wanted)
                         (urchin_dataset_vesion.versions_of s dataSetID)
                  /\ forall hosts,
                       storedReplicaHosts s dataSetID = Ok hosts ->
                       wanted <= Z.of_nat (List.length hosts))
        (scaleDown dataSetID dataSetName dataSetDesc wanted cacheStrategy
           dataSetTags shareBlobSources old bucketName folderKey curTime)
        (fun _ _ => True).
Proof.
  intros Hw Hcaches. unfold scaleDown.
  eapply hoare_bind.
  { apply (hoare_setReplicaState _ _
             (stable_and _ _ _ _ (stable_versions dataSetID wanted)
                (stable_hosts dataSetID
                   (fun r => forall hosts, r = Ok hosts ->
                                wanted <= Z.of_nat (List.length hosts))))).
    apply andb_true_iff. split; [reflexivity|].
    apply bool_decide_eq_true. apply not_eq_sym, replicaKey_not_datasetKey. }
  intros [e|]; [now apply hoare_ret|].
  eapply hoare_conseq; [|intros s Hs; exact Hs|intros; exact I].
  apply (hoare_defer _ _ _ (fun _ _ => True)); [|apply hoare_reset_state].
  eapply hoare_bind; [now apply hoare_selectScaleDownReplicaHosts|].
  intros [dropped|e]; [|now apply hoare_ret].
  rewrite slice_to_in_range by lia.
  eapply hoare_bind; [apply hoare_sliced|]. intros caches.
  apply (hoare_conseq _ (fun s => Forall (version_ok wanted)
                                    (urchin_dataset_vesion.versions_of s dataSetID))
           _ _ (fun _ _ => True)); [|now intros s [Hs _]|auto].
  apply hoare_orReturn; [| |auto].
  { apply (hoare_updateDataSetFunc _ _ (stable_versions dataSetID wanted)).
    - reflexivity.
    - intros tags. reflexivity. }
  eapply hoare_bind; [now apply hoare_scaleDownDatasetVersionInfo|].
  intros [e|]; [now apply hoare_ret|].
  eapply hoare_conseq; [apply hoare_destroy_loop | auto | auto].
Qed.

(** *** Out of range: a panic *)

Lemma defer_Panic {A} (d : M unit) (body : M A) w w' :
  body w = Panic w' -> exists w'', defer d body w = Panic w''.
Proof. intros H. unfold defer. rewrite H. destruct (d w'); eauto. Qed.

Lemma scaleDownVersion_passed dataSetID wanted v w :
  version_passed v -> scaleDownVersion dataSetID wanted v w = Done None w.
Proof. intros H. unfold scaleDownVersion. now rewrite H. Qed.

Lemma scaleDownVersion_short dataSetID wanted v w :
  version_short wanted v -> scaleDownVersion dataSetID wanted v w = Panic w.
Proof.
  intros (metaCaches & Hjson & Hne & Hlen). unfold scaleDownVersion.
  rewrite Hjson. destruct metaCaches as [|c metaCaches]; [contradiction|].
  now rewrite slice_to_out_of_range by assumption.
Qed.

Lemma forEach_scaleDownVersion_panics dataSetID wanted l w :
  Forall (fun v => version_passed v \/ version_short wanted v) l ->
  Exists (version_short wanted) l ->
  forEach (scaleDownVersion dataSetID wanted) l w = Panic w.
Proof.
  induction l as [|v l IH]; intros Hall Hex.
  - inversion Hex.
  - apply Forall_cons in Hall as [[Hp|Hs] Hall]; cbn [forEach].
    + rewrite (orReturn_None _ _ _ _ (scaleDownVersion_passed _ _ _ _ Hp)).
      apply IH; [assumption|].
      apply Exists_cons in Hex as [(metaCaches & Hjson & Hne & _)|Hex];
        [|assumption].
      unfold version_passed in Hp. rewrite Hp in Hjson.
      injection Hjson as <-. contradiction.
    + apply orReturn_Panic. now apply scaleDownVersion_short.
Qed.

Lemma scaleDownDatasetVersionInfo_panics dataSetID wanted w :
  Forall (fun v => version_passed v \/ version_short wanted v)
         (urchin_dataset_vesion.versions_of (kv w) dataSetID) ->
  Exists (version_short wanted)
         (urchin_dataset_vesion.versions_of (kv w) dataSetID) ->
  scaleDownDatasetVersionInfo dataSetID wanted w = Panic w.
Proof.
  intros Hall Hex. unfold scaleDownDatasetVersionInfo.
  rewrite (bind_Done (urchin_dataset_vesion.ListAllDataSetVersions dataSetID)
             _ w _ w eq_refl).
  destruct (urchin_dataset_vesion.versions_of (kv w) dataSetID) as [|v l] eqn:Hl.
  - inversion Hex.
  - now apply forEach_scaleDownVersion_panics.
Qed.

(** Writes that go through. *)
Lemma hoare_ok_write (P : store -> Prop) c f :
  (forall s, P s -> exists s', f s = Ok s' /\ P s') ->
  hoare P (store_write c f) (fun r s => r = None /\ P s).
Proof.
  intros Hf w Hw. destruct (Hf _ Hw) as (s' & Hs & Hp).
  unfold store_write. rewrite Hs. eexists _, _. split; [reflexivity|]. auto.
Qed.

Lemma hoare_ok_when (P : store -> Prop) b c :
  hoare P c (fun r s => r = None /\ P s) ->
  hoare P (when b c) (fun r s => r = None /\ P s).
Proof. destruct b; [auto|]. intros _. apply hoare_ret. auto. Qed.

Lemma hoare_ok_orReturn (P : store -> Prop) c k (Q : option error -> store -> Prop) :
  hoare P c (fun r s => r = None /\ P s) ->
  hoare P k Q ->
  hoare P (orReturn c k) Q.
Proof.
  intros Hc Hk. eapply hoare_bind; [exact Hc|].
  intros [e|].
  - intros w [Hw _]. discriminate.
  - apply (hoare_conseq _ P _ _ Q); [assumption | now intros s [_ Hs] | auto].
Qed.

(** An update without tags of a dataset whose record is there goes
    through, and leaves the versions alone. *)
Lemma hoare_updateDataSetFunc_untagged dataSetID dataSetName dataSetDesc wanted
    cacheStrategy shareBlobSources shareBlobCaches curTime versions :
  let J := fun s : store =>
             (exists h, s !! datasetKey dataSetID = Some (RHash h))
             /\ urchin_dataset_vesion.versions_of s dataSetID ≡ₚ versions in
  hoare J
        (updateDataSetFunc dataSetID dataSetName dataSetDesc wanted cacheStrategy
           [] shareBlobSources shareBlobCaches curTime)
        (fun r s => r = None /\ J s).
Proof.
  intros J.
  assert (Hset : forall field value,
             hoare J (redisSetMapElement (datasetKey dataSetID) field value)
                   (fun r s => r = None /\ J s)).
  { intros field value. apply hoare_ok_write. intros s [[h Hh] Hv].
    unfold kv_SetMapElement, kv_SetMapElements. rewrite Hh.
    eexists. split; [reflexivity|]. split.
    - eexists. apply lookup_insert_eq.
    - rewrite versions_of_insert; [assumption | apply version_key_of_datasetKey]. }
  unfold updateDataSetFunc. fold (datasetKey dataSetID).
  change (0 <? Z.of_nat (List.length (@nil string))) with false.
  repeat (apply hoare_ok_orReturn;
          [first [apply hoare_ok_when; apply Hset | apply hoare_ret; auto]|]).
  eapply hoare_bind; [apply Hset|]. intros ?. apply hoare_ret. tauto.
Qed.

Lemma selectScaleDownReplicaHosts_in_range dataSetID wanted w hosts :
  storedReplicaHosts (kv w) dataSetID = Ok hosts ->
  0 < wanted <= Z.of_nat (List.length hosts) ->
  selectScaleDownReplicaHosts dataSetID wanted w
  = Done (Ok (skipn (Z.to_nat wanted) hosts))
      (mkWorld (<[replicaKey dataSetID :=
                    RString (json_Marshal_strings (firstn (Z.to_nat wanted) hosts))]>
                  (kv w))
               (net w)
               (log w ++ [Store (SET (replicaKey dataSetID)
                                   (json_Marshal_strings
                                      (firstn (Z.to_nat wanted) hosts)))])).
Proof.
  intros Hh Hr. rewrite selectScaleDownReplicaHosts_run, Hh.
  now rewrite slice_to_in_range, slice_from_in_range by lia.
Qed.

Lemma selectScaleDownReplicaHosts_out_of_range dataSetID wanted w hosts :
  storedReplicaHosts (kv w) dataSetID = Ok hosts ->
  Z.of_nat (List.length hosts) < wanted ->
  exists w', selectScaleDownReplicaHosts dataSetID wanted w = Panic w'.
Proof.
  intros Hh Hr. rewrite selectScaleDownReplicaHosts_run, Hh.
  destruct (slice_to "" _ hosts wanted); [|eauto].
  rewrite slice_from_out_of_range by assumption. eauto.
Qed.

Section ScaleDownPanics.

Variables (dataSetID dataSetName dataSetDesc : string) (wanted : Z)
          (cacheStrategy : string) (dataSetTags : list string)
          (shareBlobSources : list UrchinEndpoint)
          (old : UrchinDataSetInfo) (bucketName folderKey : string)
          (curTime : Z) (w : world) (h : gmap string string)
          (hosts : list string).

Hypothesis Hrecord : kv w !! datasetKey dataSetID = Some (RHash h).
Hypothesis Hhosts : storedReplicaHosts (kv w) dataSetID = Ok hosts.

Let w1 : world :=
  mkWorld (<[datasetKey dataSetID :=
               RHash (list_to_map [("replica_state",
                                    strconv_FormatInt ReplicaScaleDown)] ∪ h)]>
             (kv w))
          (net w)
          (log w ++ [Store (HMSET (datasetKey dataSetID)
                              [("replica_state",
                                strconv_FormatInt ReplicaScaleDown)])]).

Lemma storedReplicaHosts_after_state :
  storedReplicaHosts (kv w1) dataSetID = Ok hosts.
Proof.
  unfold w1. cbn [kv]. rewrite storedReplicaHosts_insert; [assumption|].
  apply not_eq_sym, replicaKey_not_datasetKey.
Qed.

(** The directory is shorter than [wanted]. *)
Lemma scaleDown_panics_hosts :
  Z.of_nat (List.length hosts) < wanted ->
  exists w',
    scaleDown dataSetID dataSetName dataSetDesc wanted cacheStrategy dataSetTags
      shareBlobSources old bucketName folderKey curTime w
    = Panic w'.
Proof.
  intros Hlen. unfold scaleDown.
  rewrite (bind_Done _ _ _ _ _ (setReplicaState_run _ ReplicaScaleDown _ _ Hrecord)).
  fold w1. cbn beta iota.
  destruct (selectScaleDownReplicaHosts_out_of_range dataSetID wanted w1 hosts
              storedReplicaHosts_after_state Hlen) as [w' Hsel].
  eapply defer_Panic. apply bind_Panic. exact Hsel.
Qed.

(** The caches of the record are fewer than [wanted], spare capacity
    included. *)
Lemma scaleDown_panics_caches :
  0 < wanted <= Z.of_nat (List.length hosts) ->
  Z.of_nat (List.length (ShareBlobCaches old)
            + spare_of endpoints_spare (List.length (ShareBlobCaches old)))
  < wanted ->
  exists w',
    scaleDown dataSetID dataSetName dataSetDesc wanted cacheStrategy dataSetTags
      shareBlobSources old bucketName folderKey curTime w
    = Panic w'.
Proof.
  intros Hr Hlen. unfold scaleDown.
  rewrite (bind_Done _ _ _ _ _ (setReplicaState_run _ ReplicaScaleDown _ _ Hrecord)).
  fold w1. cbn beta iota. eapply defer_Panic.
  rewrite (bind_Done _ _ _ _ _
             (selectScaleDownReplicaHosts_in_range dataSetID wanted w1 hosts
                storedReplicaHosts_after_state Hr)).
  cbn beta iota. rewrite slice_to_out_of_range by assumption. reflexivity.
Qed.

(** The versions that have caches have fewer than [wanted], spare
    capacity included. *)
Lemma scaleDown_panics_versions :
  0 < wanted <= Z.of_nat (List.length hosts) ->
  wanted <= Z.of_nat (List.length (ShareBlobCaches old)) ->
  Forall (fun v => version_passed v \/ version_short wanted v)
         (urchin_dataset_vesion.versions_of (kv w) dataSetID) ->
  Exists (version_short wanted)
         (urchin_dataset_vesion.versions_of (kv w) dataSetID) ->
  exists w',
    scaleDown dataSetID dataSetName dataSetDesc wanted cacheStrategy []
      shareBlobSources old bucketName folderKey curTime w
    = Panic w'.
Proof.
  intros Hr Hcaches Hall Hex.
  pose proof (selectScaleDownReplicaHosts_in_range dataSetID wanted w1 hosts
                storedReplicaHosts_after_state Hr) as Hsel.
  destruct (hoare_updateDataSetFunc_untagged dataSetID dataSetName dataSetDesc
              wanted cacheStrategy shareBlobSources
              (firstn (Z.to_nat wanted) (ShareBlobCaches old)) curTime
              (urchin_dataset_vesion.versions_of (kv w) dataSetID)
              (mkWorld (<[replicaKey dataSetID :=
                            RString (json_Marshal_strings
                                       (firstn (Z.to_nat wanted) hosts))]>
                          (kv w1))
                       (net w1)
                       (log w1 ++ [Store (SET (replicaKey dataSetID)
                                            (json_Marshal_strings
                                               (firstn (Z.to_nat wanted) hosts)))])))
    as (r & w3 & Hrun & -> & _ & Hperm).
  { split.
    - eexists. unfold w1. cbn [kv].
      rewrite lookup_insert_ne by apply replicaKey_not_datasetKey.
      apply lookup_insert_eq.
    - unfold w1. cbn [kv].
      rewrite !versions_of_insert;
        [reflexivity | apply version_key_of_datasetKey
         | apply version_key_of_replicaKey]. }
  unfold scaleDown.
  rewrite (bind_Done _ _ _ _ _ (setReplicaState_run _ ReplicaScaleDown _ _ Hrecord)).
  fold w1. cbn beta iota. eapply defer_Panic.
  rewrite (bind_Done _ _ _ _ _ Hsel). cbn beta iota.
  rewrite slice_to_in_range by lia.
  rewrite (bind_Done (sliced (Some _)) _ _ _ _ eq_refl).
  rewrite (orReturn_None _ _ _ _ Hrun). apply orReturn_Panic.
  apply scaleDownDatasetVersionInfo_panics.
  - now rewrite Hperm.
  - apply Exists_exists. apply Exists_exists in Hex as (v & Hin & Hv).
    exists v. split; [|assumption]. now rewrite Hperm.
Qed.

End ScaleDownPanics.


End ScaleDownPieces.



(** The same run, with the answers of the peers: both calls fail, both
    are made, and the directory is written before them. *)
Example scale_down_with_failing_peers :
  let o := UpdateDataSetImpl (rt := Reference.runtime) Scenario.conf1 "id1" ""
             "" 1 "" [] [] [] 1700000300
             (mkWorld (kv Scenario.replicated) Scenario.answers_failing []) in
  returned o = Some (None, None)
  /\ http_requests (log (world_of o))
     = [destroyRequest "10.0.0.3:65004" "bkt" "imagenet";
        destroyRequest "10.0.0.4:65004" "bkt" "imagenet"]
  /\ firstn 2 (log (world_of o))
     = [Store (HMSET (datasetKey "id1")
                 [("replica_state", strconv_FormatInt ReplicaScaleDown)]);
        Store (SET (replicaKey "id1")
                 (json_Marshal_strings (GoRuntime := Reference.runtime)
                    ["10.0.0.2:65004"]))]
  /\ storedReplicaHosts (rt := Reference.runtime) (kv (world_of o)) "id1"
     = Ok ["10.0.0.2:65004"].
Proof. vm_compute. repeat split; reflexivity. Qed.

Ltac compute_versions :=
  match goal with
  | |- context [urchin_dataset_vesion.versions_of ?s ?i] =>
      let l := eval vm_compute in (urchin_dataset_vesion.versions_of s i) in
      change (urchin_dataset_vesion.versions_of s i) with l
  end.

